(** * FLEX-FORM (Sonnil/Gemba): import pipeline, portal submit and export

    A shallow embedding of the JavaScript of
      - scripts/import-data.js   (class SecureDataImporter),
      - scripts/simple-import.js (function importData),
      - scripts/demo-import.js   (DemoImportProcess.identifyDepartment),
      - the user portal          (class FlexFormUser: submitForm,
                                  validateFormData, exportToCSV,
                                  exportToExcel),
      - secure-key-manager.js    (class SecureKeyManager) and the loader
                                  of the encrypted configuration
                                  (class SecureConfigLoader),
    followed by the theorems that settle the properties C1..C10 and by
    further properties of the same code, X1..X24.

    Conventions of the embedding.
      - A JavaScript string is modelled by its UTF-8 encoding, a [string]
        of bytes (a string without lone surrogates, as the text of a
        file or of a form is).  [includes], [substring], [replace] and
        concatenation are then the byte-wise ones.  White space ([trim]
        and the class [\s]) and [toUpperCase] are those of Unicode,
        read off the UTF-8 sequences.  [toLowerCase], which the
        program uses only to look for four ASCII words, maps the
        letters A to Z.
      - A JavaScript object is an association list in insertion order,
        [Object.keys] being the list of its keys (none of the program's
        keys is an array index).  A number is an integer below 10^21 in
        absolute value, which [ToString] writes in digits.
      - Counters are natural numbers: every count is bounded by an array
        length, far below 2^53.
      - Statements run in the order of the source; mutable state
        ([this.importStats]) is threaded explicitly, and a mutation made
        before a [throw] survives it, as in JavaScript.
      - The host (clock, network, CSV reader, the Date parser beyond the
        ISO date-only form) is an explicit argument. *)

From Stdlib Require Import String Ascii List ZArith Lia Bool Arith.
From Stdlib Require Import DecimalString Permutation.
Import ListNotations.
Open Scope string_scope.
Open Scope nat_scope.

(* ===================================================================== *)
(** ** JavaScript strings, values and objects                             *)
(* ===================================================================== *)

Module JS.

(** The double quote and the backslash, by their codes. *)
Definition dquote : ascii := "034"%char.
Definition backslash : ascii := "092"%char.
Definition newline : ascii := "010"%char.
Definition str1 (c : ascii) : string := String c EmptyString.

Definition code (c : ascii) : nat := nat_of_ascii c.

Definition is_digit (c : ascii) : bool := (48 <=? code c) && (code c <=? 57).
Definition is_upper (c : ascii) : bool := (65 <=? code c) && (code c <=? 90).
Definition is_lower (c : ascii) : bool := (97 <=? code c) && (code c <=? 122).

(** White space (the WhiteSpace and LineTerminator of ECMAScript, which
    [trim] removes and [\s] matches).  In the ASCII range: TAB, LF, VT,
    FF, CR and SPACE. *)
Definition is_space (c : ascii) : bool :=
  ((9 <=? code c) && (code c <=? 13)) || (code c =? 32).

(** Outside it, in UTF-8: U+00A0 on two bytes; on three bytes U+1680,
    U+2000 to U+200A, U+2028, U+2029, U+202F, U+205F, U+3000 and
    U+FEFF. *)
Definition is_space2 (a b : ascii) : bool :=
  (code a =? 194) && (code b =? 160).

Definition is_space3 (a b c : ascii) : bool :=
  ((code a =? 225) && (code b =? 154) && (code c =? 128))
  || ((code a =? 226) && (code b =? 128)
      && (((128 <=? code c) && (code c <=? 138))
          || (code c =? 168) || (code c =? 169) || (code c =? 175)))
  || ((code a =? 226) && (code b =? 129) && (code c =? 159))
  || ((code a =? 227) && (code b =? 128) && (code c =? 128))
  || ((code a =? 239) && (code b =? 187) && (code c =? 191)).

(** [s] starts with a white space character. *)
Definition starts_with_space (s : string) : bool :=
  match s with
  | String a (String b (String c _)) =>
      is_space a || is_space2 a b || is_space3 a b c
  | String a (String b EmptyString) => is_space a || is_space2 a b
  | String a EmptyString => is_space a
  | EmptyString => false
  end.

(** [s] has a white space character. *)
Fixpoint has_space (s : string) : bool :=
  starts_with_space s
  || match s with
     | EmptyString => false
     | String _ r => has_space r
     end.

(** [s] is made of white space characters only. *)
Fixpoint all_space (s : string) : bool :=
  match s with
  | EmptyString => true
  | String a r =>
      if is_space a then all_space r
      else
        match r with
        | String b r2 =>
            if is_space2 a b then all_space r2
            else
              match r2 with
              | String c r3 => if is_space3 a b c then all_space r3 else false
              | EmptyString => false
              end
        | EmptyString => false
        end
  end.

Definition char_toUpper (c : ascii) : ascii :=
  if is_lower c then ascii_of_nat (code c - 32) else c.
Definition char_toLower (c : ascii) : ascii :=
  if is_upper c then ascii_of_nat (code c + 32) else c.

Fixpoint smap (f : ascii -> ascii) (s : string) : string :=
  match s with
  | EmptyString => EmptyString
  | String c r => String (f c) (smap f r)
  end.

(** [toLowerCase], used to look for the ASCII words of
    [classifyRecord]: the letters A to Z are mapped, the other
    characters left as they are. *)
Definition toLowerCase : string -> string := smap char_toLower.

(** *** Upper case

    [String.prototype.toUpperCase] maps each code point by the case
    mappings of Unicode, whatever the locale: one code point for most
    letters, several for some (the sharp s gives SS, the ligature fi
    gives FI).  The tables are those of Unicode 14: [upper_special]
    lists the letters with several code points, [upper_ranges] the
    others as (first, last, step, shift): a code point between first
    and last, at a multiple of step from first, is moved by shift. *)

Definition upper_special : list (Z * list Z) :=
  [(223, [83; 83]); (329, [700; 78]); (496, [74; 780]); (912, [921; 776; 769]);
   (944, [933; 776; 769]); (1415, [1333; 1362]); (7830, [72; 817]); (7831, [84; 776]);
   (7832, [87; 778]); (7833, [89; 778]); (7834, [65; 702]); (8016, [933; 787]);
   (8018, [933; 787; 768]); (8020, [933; 787; 769]); (8022, [933; 787; 834]);
   (8064, [7944; 921]); (8065, [7945; 921]); (8066, [7946; 921]); (8067, [7947; 921]);
   (8068, [7948; 921]); (8069, [7949; 921]); (8070, [7950; 921]); (8071, [7951; 921]);
   (8072, [7944; 921]); (8073, [7945; 921]); (8074, [7946; 921]); (8075, [7947; 921]);
   (8076, [7948; 921]); (8077, [7949; 921]); (8078, [7950; 921]); (8079, [7951; 921]);
   (8080, [7976; 921]); (8081, [7977; 921]); (8082, [7978; 921]); (8083, [7979; 921]);
   (8084, [7980; 921]); (8085, [7981; 921]); (8086, [7982; 921]); (8087, [7983; 921]);
   (8088, [7976; 921]); (8089, [7977; 921]); (8090, [7978; 921]); (8091, [7979; 921]);
   (8092, [7980; 921]); (8093, [7981; 921]); (8094, [7982; 921]); (8095, [7983; 921]);
   (8096, [8040; 921]); (8097, [8041; 921]); (8098, [8042; 921]); (8099, [8043; 921]);
   (8100, [8044; 921]); (8101, [8045; 921]); (8102, [8046; 921]); (8103, [8047; 921]);
   (8104, [8040; 921]); (8105, [8041; 921]); (8106, [8042; 921]); (8107, [8043; 921]);
   (8108, [8044; 921]); (8109, [8045; 921]); (8110, [8046; 921]); (8111, [8047; 921]);
   (8114, [8122; 921]); (8115, [913; 921]); (8116, [902; 921]); (8118, [913; 834]);
   (8119, [913; 834; 921]); (8124, [913; 921]); (8130, [8138; 921]); (8131, [919; 921]);
   (8132, [905; 921]); (8134, [919; 834]); (8135, [919; 834; 921]); (8140, [919; 921]);
   (8146, [921; 776; 768]); (8147, [921; 776; 769]); (8150, [921; 834]); (8151, [921; 776; 834]);
   (8162, [933; 776; 768]); (8163, [933; 776; 769]); (8164, [929; 787]); (8166, [933; 834]);
   (8167, [933; 776; 834]); (8178, [8186; 921]); (8179, [937; 921]); (8180, [911; 921]);
   (8182, [937; 834]); (8183, [937; 834; 921]); (8188, [937; 921]); (64256, [70; 70]);
   (64257, [70; 73]); (64258, [70; 76]); (64259, [70; 70; 73]); (64260, [70; 70; 76]);
   (64261, [83; 84]); (64262, [83; 84]); (64275, [1348; 1350]); (64276, [1348; 1333]);
   (64277, [1348; 1339]); (64278, [1358; 1350]); (64279, [1348; 1341])]%Z.

Definition upper_ranges : list (Z * Z * Z * Z) :=
  [(181, 181, 1, 743); (224, 246, 1, (-32)); (248, 254, 1, (-32)); (255, 255, 1, 121);
   (257, 303, 2, (-1)); (305, 305, 1, (-232)); (307, 311, 2, (-1)); (314, 328, 2, (-1));
   (331, 375, 2, (-1)); (378, 382, 2, (-1)); (383, 383, 1, (-300)); (384, 384, 1, 195);
   (387, 389, 2, (-1)); (392, 392, 1, (-1)); (396, 396, 1, (-1)); (402, 402, 1, (-1));
   (405, 405, 1, 97); (409, 409, 1, (-1)); (410, 410, 1, 163); (414, 414, 1, 130);
   (417, 421, 2, (-1)); (424, 424, 1, (-1)); (429, 429, 1, (-1)); (432, 432, 1, (-1));
   (436, 438, 2, (-1)); (441, 441, 1, (-1)); (445, 445, 1, (-1)); (447, 447, 1, 56);
   (453, 453, 1, (-1)); (454, 454, 1, (-2)); (456, 456, 1, (-1)); (457, 457, 1, (-2));
   (459, 459, 1, (-1)); (460, 460, 1, (-2)); (462, 476, 2, (-1)); (477, 477, 1, (-79));
   (479, 495, 2, (-1)); (498, 498, 1, (-1)); (499, 499, 1, (-2)); (501, 501, 1, (-1));
   (505, 543, 2, (-1)); (547, 563, 2, (-1)); (572, 572, 1, (-1)); (575, 576, 1, 10815);
   (578, 578, 1, (-1)); (583, 591, 2, (-1)); (592, 592, 1, 10783); (593, 593, 1, 10780);
   (594, 594, 1, 10782); (595, 595, 1, (-210)); (596, 596, 1, (-206)); (598, 599, 1, (-205));
   (601, 601, 1, (-202)); (603, 603, 1, (-203)); (604, 604, 1, 42319); (608, 608, 1, (-205));
   (609, 609, 1, 42315); (611, 611, 1, (-207)); (613, 613, 1, 42280); (614, 614, 1, 42308);
   (616, 616, 1, (-209)); (617, 617, 1, (-211)); (618, 618, 1, 42308); (619, 619, 1, 10743);
   (620, 620, 1, 42305); (623, 623, 1, (-211)); (625, 625, 1, 10749); (626, 626, 1, (-213));
   (629, 629, 1, (-214)); (637, 637, 1, 10727); (640, 640, 1, (-218)); (642, 642, 1, 42307);
   (643, 643, 1, (-218)); (647, 647, 1, 42282); (648, 648, 1, (-218)); (649, 649, 1, (-69));
   (650, 651, 1, (-217)); (652, 652, 1, (-71)); (658, 658, 1, (-219)); (669, 669, 1, 42261);
   (670, 670, 1, 42258); (837, 837, 1, 84); (881, 883, 2, (-1)); (887, 887, 1, (-1));
   (891, 893, 1, 130); (940, 940, 1, (-38)); (941, 943, 1, (-37)); (945, 961, 1, (-32));
   (962, 962, 1, (-31)); (963, 971, 1, (-32)); (972, 972, 1, (-64)); (973, 974, 1, (-63));
   (976, 976, 1, (-62)); (977, 977, 1, (-57)); (981, 981, 1, (-47)); (982, 982, 1, (-54));
   (983, 983, 1, (-8)); (985, 1007, 2, (-1)); (1008, 1008, 1, (-86)); (1009, 1009, 1, (-80));
   (1010, 1010, 1, 7); (1011, 1011, 1, (-116)); (1013, 1013, 1, (-96)); (1016, 1016, 1, (-1));
   (1019, 1019, 1, (-1)); (1072, 1103, 1, (-32)); (1104, 1119, 1, (-80)); (1121, 1153, 2, (-1));
   (1163, 1215, 2, (-1)); (1218, 1230, 2, (-1)); (1231, 1231, 1, (-15)); (1233, 1327, 2, (-1));
   (1377, 1414, 1, (-48)); (4304, 4346, 1, 3008); (4349, 4351, 1, 3008); (5112, 5117, 1, (-8));
   (7296, 7296, 1, (-6254)); (7297, 7297, 1, (-6253)); (7298, 7298, 1, (-6244));
   (7299, 7300, 1, (-6242)); (7301, 7301, 1, (-6243)); (7302, 7302, 1, (-6236));
   (7303, 7303, 1, (-6181)); (7304, 7304, 1, 35266); (7545, 7545, 1, 35332);
   (7549, 7549, 1, 3814); (7566, 7566, 1, 35384); (7681, 7829, 2, (-1)); (7835, 7835, 1, (-59));
   (7841, 7935, 2, (-1)); (7936, 7943, 1, 8); (7952, 7957, 1, 8); (7968, 7975, 1, 8);
   (7984, 7991, 1, 8); (8000, 8005, 1, 8); (8017, 8023, 2, 8); (8032, 8039, 1, 8);
   (8048, 8049, 1, 74); (8050, 8053, 1, 86); (8054, 8055, 1, 100); (8056, 8057, 1, 128);
   (8058, 8059, 1, 112); (8060, 8061, 1, 126); (8112, 8113, 1, 8); (8126, 8126, 1, (-7205));
   (8144, 8145, 1, 8); (8160, 8161, 1, 8); (8165, 8165, 1, 7); (8526, 8526, 1, (-28));
   (8560, 8575, 1, (-16)); (8580, 8580, 1, (-1)); (9424, 9449, 1, (-26)); (11312, 11359, 1, (-48));
   (11361, 11361, 1, (-1)); (11365, 11365, 1, (-10795)); (11366, 11366, 1, (-10792));
   (11368, 11372, 2, (-1)); (11379, 11379, 1, (-1)); (11382, 11382, 1, (-1));
   (11393, 11491, 2, (-1)); (11500, 11502, 2, (-1)); (11507, 11507, 1, (-1));
   (11520, 11557, 1, (-7264)); (11559, 11559, 1, (-7264)); (11565, 11565, 1, (-7264));
   (42561, 42605, 2, (-1)); (42625, 42651, 2, (-1)); (42787, 42799, 2, (-1));
   (42803, 42863, 2, (-1)); (42874, 42876, 2, (-1)); (42879, 42887, 2, (-1));
   (42892, 42892, 1, (-1)); (42897, 42899, 2, (-1)); (42900, 42900, 1, 48);
   (42903, 42921, 2, (-1)); (42933, 42947, 2, (-1)); (42952, 42954, 2, (-1));
   (42961, 42961, 1, (-1)); (42967, 42969, 2, (-1)); (42998, 42998, 1, (-1));
   (43859, 43859, 1, (-928)); (43888, 43967, 1, (-38864)); (65345, 65370, 1, (-32));
   (66600, 66639, 1, (-40)); (66776, 66811, 1, (-40)); (66967, 66977, 1, (-39));
   (66979, 66993, 1, (-39)); (66995, 67001, 1, (-39)); (67003, 67004, 1, (-39));
   (68800, 68850, 1, (-64)); (71872, 71903, 1, (-32)); (93792, 93823, 1, (-32));
   (125218, 125251, 1, (-34))]%Z.

Fixpoint find_special (t : list (Z * list Z)) (p : Z) : option (list Z) :=
  match t with
  | [] => None
  | (q, l) :: r => if (q =? p)%Z then Some l else find_special r p
  end.

Fixpoint find_range (t : list (Z * Z * Z * Z)) (p : Z) : option Z :=
  match t with
  | [] => None
  | (first, last, step, shift) :: r =>
      if ((first <=? p) && (p <=? last) && ((p - first) mod step =? 0))%Z
      then Some (p + shift)%Z
      else find_range r p
  end.

(** The upper case of the code point [p]. *)
Definition upper_points (p : Z) : list Z :=
  match find_special upper_special p with
  | Some l => l
  | None =>
      match find_range upper_ranges p with
      | Some q => [q]
      | None => [p]
      end
  end.

(** UTF-8: the bytes of a code point, and the code point of two, three
    or four bytes. *)
Definition byte_of (z : Z) : ascii := ascii_of_nat (Z.to_nat z).

Definition utf8_encode (p : Z) : string :=
  if (p <? 128)%Z then str1 (byte_of p)
  else if (p <? 2048)%Z
  then String (byte_of (192 + p / 64)) (str1 (byte_of (128 + p mod 64)))
  else if (p <? 65536)%Z
  then String (byte_of (224 + p / 4096))
         (String (byte_of (128 + (p / 64) mod 64))
            (str1 (byte_of (128 + p mod 64))))
  else String (byte_of (240 + p / 262144))
         (String (byte_of (128 + (p / 4096) mod 64))
            (String (byte_of (128 + (p / 64) mod 64))
               (str1 (byte_of (128 + p mod 64))))).

Definition is_cont (c : ascii) : bool := (128 <=? code c) && (code c <=? 191).
Definition is_lead2 (c : ascii) : bool := (194 <=? code c) && (code c <=? 223).
Definition is_lead3 (c : ascii) : bool := (224 <=? code c) && (code c <=? 239).
Definition is_lead4 (c : ascii) : bool := (240 <=? code c) && (code c <=? 244).

Definition bits (c : ascii) (low : nat) : Z := Z.of_nat (code c - low).

Definition point2 (a b : ascii) : Z := (bits a 192 * 64 + bits b 128)%Z.
Definition point3 (a b c : ascii) : Z :=
  (bits a 224 * 4096 + bits b 128 * 64 + bits c 128)%Z.
Definition point4 (a b c d : ascii) : Z :=
  (bits a 240 * 262144 + bits b 128 * 4096 + bits c 128 * 64 + bits d 128)%Z.

(** The upper case of a code point, in UTF-8. *)
Definition upper_utf8 (p : Z) : string :=
  String.concat "" (map utf8_encode (upper_points p)).

(** [s.toUpperCase()].  An ASCII character is mapped directly; a
    longer sequence is decoded, mapped and encoded; a byte that starts
    no well-formed sequence (there is none in the UTF-8 form of a
    string) is copied. *)
Fixpoint toUpperCase (s : string) : string :=
  match s with
  | EmptyString => EmptyString
  | String a r =>
      if code a <? 128 then String (char_toUpper a) (toUpperCase r)
      else
        match r with
        | String b r2 =>
            if is_lead2 a && is_cont b
            then upper_utf8 (point2 a b) ++ toUpperCase r2
            else
              match r2 with
              | String c r3 =>
                  if is_lead3 a && is_cont b && is_cont c
                  then upper_utf8 (point3 a b c) ++ toUpperCase r3
                  else
                    match r3 with
                    | String d r4 =>
                        if is_lead4 a && is_cont b && is_cont c && is_cont d
                        then upper_utf8 (point4 a b c d) ++ toUpperCase r4
                        else String a (toUpperCase r)
                    | EmptyString => String a (toUpperCase r)
                    end
              | EmptyString => String a (toUpperCase r)
              end
        | EmptyString => String a EmptyString
        end
  end.

(** [s.includes(sub)]: some suffix of [s] starts with [sub]. *)
Fixpoint includes (s sub : string) : bool :=
  prefix sub s ||
  match s with
  | EmptyString => false
  | String _ r => includes r sub
  end.

(** [s.trimStart()]: the white space characters at the front are
    dropped. *)
Fixpoint trimStart (s : string) : string :=
  match s with
  | EmptyString => EmptyString
  | String a r =>
      if is_space a then trimStart r
      else
        match r with
        | String b r2 =>
            if is_space2 a b then trimStart r2
            else
              match r2 with
              | String c r3 => if is_space3 a b c then trimStart r3 else s
              | EmptyString => s
              end
        | EmptyString => s
        end
  end.

(** [s.trimEnd()]: the string up to the point from which only white
    space follows. *)
Fixpoint trimEnd (s : string) : string :=
  match s with
  | EmptyString => EmptyString
  | String c r => if all_space s then EmptyString else String c (trimEnd r)
  end.

Definition trim (s : string) : string := trimEnd (trimStart s).

(** [s.replace(/x/g, by)] for a one-character pattern. *)
Fixpoint replaceAll (x : ascii) (by_ : string) (s : string) : string :=
  match s with
  | EmptyString => EmptyString
  | String c r =>
      (if Ascii.eqb c x then by_ else str1 c) ++ replaceAll x by_ r
  end.

(** [s.replace(x, by)] for a one-character string pattern: the first
    occurrence only. *)
Fixpoint replaceFirst (x : ascii) (by_ : string) (s : string) : string :=
  match s with
  | EmptyString => EmptyString
  | String c r =>
      if Ascii.eqb c x then by_ ++ r else String c (replaceFirst x by_ r)
  end.

(** [a.join(sep)]. *)
Fixpoint join (sep : string) (l : list string) : string :=
  match l with
  | [] => ""
  | [x] => x
  | x :: r => x ++ sep ++ join sep r
  end.

(** Decimal rendering of an integer, as [String(n)] does. *)
Definition dec (z : Z) : string := NilZero.string_of_int (Z.to_int z).

(** Decimal rendering on at least [w] digits, zero padded
    (non-negative [z]). *)
Fixpoint zeros (n : nat) : string :=
  match n with O => "" | S k => String "0" (zeros k) end.
Definition pad (w : nat) (z : Z) : string :=
  let d := dec z in zeros (w - String.length d) ++ d.

(** *** Values *)

(** The values of a row, of a record and of a form: [undefined],
    [null], a boolean, a number that is an integer (a counter, an
    identifier, a time: below 10^21 in absolute value) or a string. *)
Inductive jsval : Type :=
| VUndef
| VNull
| VBool (b : bool)
| VNum (z : Z)
| VStr (s : string).

(** ToBoolean. *)
Definition truthy (v : jsval) : bool :=
  match v with
  | VUndef | VNull => false
  | VBool b => b
  | VNum z => negb (z =? 0)%Z
  | VStr s => negb (s =? "")%string
  end.

(** [a || b] on values. *)
Definition or_else (a b : jsval) : jsval := if truthy a then a else b.

(** ToString, as a template literal or [join] applies it to a cell. *)
Definition toStr (v : jsval) : string :=
  match v with
  | VUndef => "undefined"
  | VNull => "null"
  | VBool true => "true"
  | VBool false => "false"
  | VNum z => dec z
  | VStr s => s
  end.

(** *** Objects: association lists in insertion order *)

Definition obj : Type := list (string * jsval).

Fixpoint get (o : obj) (k : string) : jsval :=
  match o with
  | [] => VUndef
  | (k', v) :: r => if (k' =? k)%string then v else get r k
  end.

Fixpoint has (o : obj) (k : string) : bool :=
  match o with
  | [] => false
  | (k', _) :: r => (k' =? k)%string || has r k
  end.

(** [o[k] = v]: in place when the key exists, appended otherwise. *)
Fixpoint set (o : obj) (k : string) (v : jsval) : obj :=
  match o with
  | [] => [(k, v)]
  | (k', v') :: r =>
      if (k' =? k)%string then (k, v) :: r else (k', v') :: set r k v
  end.

(** [delete o[k]]. *)
Definition delete (o : obj) (k : string) : obj :=
  filter (fun kv => negb (fst kv =? k)%string) o.

(** [Object.keys(o)], whatever the type of the values. *)
Definition keys {V : Type} (o : list (string * V)) : list string := map fst o.

(** [{...o, k1: v1, ..., kn: vn}]. *)
Definition assign (o : obj) (props : list (string * jsval)) : obj :=
  fold_left (fun acc kv => set acc (fst kv) (snd kv)) props o.

(** *** Reading a property that may be inherited

    [get] reads the properties an object has of its own, which is what
    the program does with the names it writes itself.  Where the name
    is given by the data, the read goes through the prototype: the
    names below are those that every object inherits from
    [Object.prototype], and an object without such a key of its own
    gives a function for them (the prototype itself for [__proto__]),
    not [undefined]. *)

Definition prototype_names : list string :=
  ["constructor"; "__defineGetter__"; "__defineSetter__"; "hasOwnProperty";
   "__lookupGetter__"; "__lookupSetter__"; "isPrototypeOf";
   "propertyIsEnumerable"; "toString"; "valueOf"; "__proto__";
   "toLocaleString"].

Definition inherited (k : string) : bool :=
  existsb (String.eqb k) prototype_names.

(** The property [k] of [o], for any type of values. *)
Fixpoint own {V : Type} (o : list (string * V)) (k : string) : option V :=
  match o with
  | [] => None
  | (k', v) :: r => if (k' =? k)%string then Some v else own r k
  end.

Inductive property (V : Type) : Type :=
| Own (v : V)        (* a property of the object itself *)
| Inherited          (* a function of the prototype, or the prototype *)
| Absent.            (* undefined *)
Arguments Own {V} v.
Arguments Inherited {V}.
Arguments Absent {V}.

(** [o[k]]. *)
Definition property_of {V : Type} (o : list (string * V)) (k : string)
  : property V :=
  match own o k with
  | Some v => Own v
  | None => if inherited k then Inherited else Absent
  end.

(** The text of an inherited value: [Object.prototype] is written
    [[object Object]]; a built-in function is written with its name,
    as V8 and JavaScriptCore print it (the constructor is the function
    [Object]). *)
Definition native_text (k : string) : string :=
  if (k =? "__proto__")%string then "[object Object]"
  else
    "function " ++ (if (k =? "constructor")%string then "Object" else k)
    ++ "() { [native code] }".

(** *** What a function sees of a value it only writes

    [exportToCSV] asks three things of a value: whether it is truthy,
    whether it is a string (and which), and what its text is.  The
    records it is given come from the store and hold more than the
    values above; a type of values is anything that answers the three
    questions. *)
Class Value (V : Type) : Type := mkValue {
  value_truthy : V -> bool;             (* ToBoolean *)
  value_string : V -> option string;    (* the string, when typeof is 'string' *)
  value_text : V -> string              (* ToString *)
}.

#[global] Instance jsval_Value : Value jsval :=
  mkValue jsval truthy
    (fun v => match v with VStr s => Some s | _ => None end)
    toStr.

(** *** JSON.stringify *)

Definition hex_digit (n : nat) : ascii :=
  if n <? 10 then ascii_of_nat (48 + n) else ascii_of_nat (87 + n).

(** QuoteJSONString on one character. *)
Definition json_escape (c : ascii) : string :=
  let n := code c in
  if n =? 34 then String backslash (str1 dquote)
  else if n =? 92 then String backslash (str1 backslash)
  else if n =? 8 then String backslash "b"
  else if n =? 12 then String backslash "f"
  else if n =? 10 then String backslash "n"
  else if n =? 13 then String backslash "r"
  else if n =? 9 then String backslash "t"
  else if n <? 32 then
    String backslash ("u00" ++ String (hex_digit (n / 16)) (str1 (hex_digit (n mod 16))))
  else str1 c.

Fixpoint json_escape_all (s : string) : string :=
  match s with
  | EmptyString => EmptyString
  | String c r => json_escape c ++ json_escape_all r
  end.

Definition json_quote (s : string) : string :=
  String dquote (json_escape_all s ++ str1 dquote).

(** The serialization of a property value; [None] for [undefined],
    whose property JSON.stringify omits. *)
Definition json_value (v : jsval) : option string :=
  match v with
  | VUndef => None
  | VNull => Some "null"
  | VBool true => Some "true"
  | VBool false => Some "false"
  | VNum z => Some (dec z)
  | VStr s => Some (json_quote s)
  end.

Definition json_member (k : string) (v : jsval) : list string :=
  match json_value v with
  | None => []
  | Some t => [json_quote k ++ ":" ++ t]
  end.

Definition json_members (o : obj) (ks : list string) : list string :=
  flat_map (fun k => json_member k (get o k)) ks.

Definition json_object (members : list string) : string :=
  "{" ++ join "," members ++ "}".

(** [JSON.stringify(o)]. *)
Definition JSON_stringify (o : obj) : string :=
  json_object (json_members o (keys o)).

(** [JSON.stringify(o, ks)] with an array replacer: the listed
    properties, in the order of the list. *)
Definition JSON_stringify_keys (o : obj) (ks : list string) : string :=
  json_object (json_members o (nodup string_dec ks)).

(** *** Array.prototype.sort on strings (default order) *)

Fixpoint insert_sorted (x : string) (l : list string) : list string :=
  match l with
  | [] => [x]
  | y :: r => if String.leb x y then x :: l else y :: insert_sorted x r
  end.

Definition sort (l : list string) : list string :=
  fold_right insert_sorted [] l.

(** *** Base64 *)

Definition b64_alphabet : string :=
  "ABCDEFGHIJKLMNOPQRSTUVWXYZabcdefghijklmnopqrstuvwxyz0123456789+/".

Definition b64_char (n : nat) : ascii :=
  match String.get n b64_alphabet with
  | Some c => c
  | None => "="%char
  end.

(** Three bytes to four characters, [=] padding at the end. *)
Fixpoint b64_encode (s : string) : string :=
  match s with
  | EmptyString => EmptyString
  | String a EmptyString =>
      String (b64_char (code a / 4))
        (String (b64_char (code a mod 4 * 16)) "==")
  | String a (String b EmptyString) =>
      String (b64_char (code a / 4))
        (String (b64_char (code a mod 4 * 16 + code b / 16))
           (String (b64_char (code b mod 16 * 4)) "="))
  | String a (String b (String c r)) =>
      String (b64_char (code a / 4))
        (String (b64_char (code a mod 4 * 16 + code b / 16))
           (String (b64_char (code b mod 16 * 4 + code c / 64))
              (String (b64_char (code c mod 64)) (b64_encode r))))
  end.

(** The code units of a string whose code points are all below 256,
    from its UTF-8 form; [None] when some code point is larger
    ([btoa] then throws InvalidCharacterError). *)
Fixpoint latin1_units (s : string) : option string :=
  match s with
  | EmptyString => Some EmptyString
  | String a r =>
      if code a <? 128 then option_map (String a) (latin1_units r)
      else
        match r with
        | String b r' =>
            if code a =? 194 then option_map (String b) (latin1_units r')
            else if code a =? 195
            then option_map (String (ascii_of_nat (code b + 64))) (latin1_units r')
            else None
        | EmptyString => None
        end
  end.

(** [btoa(s)]. *)
Definition btoa (s : string) : option string :=
  option_map b64_encode (latin1_units s).

(** [Buffer.from(s).toString('base64')]: the UTF-8 bytes, encoded. *)
Definition buffer_base64 (s : string) : string := b64_encode s.

End JS.

(* ===================================================================== *)
(** ** The Date object, as far as the importer uses it                    *)
(* ===================================================================== *)

Module JSDate.
Import JS.
Local Open Scope Z_scope.

Definition msPerDay : Z := 86400000.

(** Days since 1970-01-01 of a civil date (proleptic Gregorian), the
    MakeDay of ECMAScript. *)
Definition days_from_civil (y m d : Z) : Z :=
  let y' := if m <=? 2 then y - 1 else y in
  let era := y' / 400 in
  let yoe := y' - era * 400 in
  let doy := (153 * (if m >? 2 then m - 3 else m + 9) + 2) / 5 + d - 1 in
  let doe := yoe * 365 + yoe / 4 - yoe / 100 + doy in
  era * 146097 + doe - 719468.

(** Year, month and day of a day number: YearFromTime, MonthFromTime
    and DateFromTime. *)
Definition civil_from_days (z : Z) : Z * Z * Z :=
  let z := z + 719468 in
  let era := z / 146097 in
  let doe := z - era * 146097 in
  let yoe := (doe - doe / 1460 + doe / 36524 - doe / 146096) / 365 in
  let doy := doe - (365 * yoe + yoe / 4 - yoe / 100) in
  let mp := (5 * doy + 2) / 153 in
  let d := doy - (153 * mp + 2) / 5 + 1 in
  let m := if mp <? 10 then mp + 3 else mp - 9 in
  (yoe + era * 400 + (if m <=? 2 then 1 else 0), m, d).

Definition is_leap (y : Z) : bool :=
  ((y mod 4 =? 0) && negb (y mod 100 =? 0)) || (y mod 400 =? 0).

Definition days_in_month (y m : Z) : Z :=
  if m =? 2 then (if is_leap y then 29 else 28)
  else if (m =? 4) || (m =? 6) || (m =? 9) || (m =? 11) then 30
  else 31.

(** The value of a string of decimal digits; [None] on another
    character or on the empty string. *)
Fixpoint digits_value (acc : Z) (s : string) : option Z :=
  match s with
  | EmptyString => Some acc
  | String c r =>
      if is_digit c
      then digits_value (10 * acc + Z.of_nat (code c) - 48) r
      else None
  end.

Definition number_of (s : string) : option Z :=
  match s with
  | EmptyString => None
  | _ => digits_value 0 s
  end.

(** The date-only form [YYYY-MM-DD] of the Date Time String Format,
    which every engine reads as midnight UTC. *)
Definition parse_iso_date (s : string) : option Z :=
  if (String.length s =? 10)%nat
     && (substring 4 1 s =? "-")%string && (substring 7 1 s =? "-")%string
  then
    match number_of (substring 0 4 s),
          number_of (substring 5 2 s),
          number_of (substring 8 2 s) with
    | Some y, Some m, Some d =>
        if (1 <=? m) && (m <=? 12) && (1 <=? d) && (d <=? days_in_month y m)
        then Some (days_from_civil y m d * msPerDay)
        else None
    | _, _, _ => None
    end
  else None.

(** [Date.parse]: the standard date-only form first; every other
    string is left to the engine ([engine s] is its time value, [None]
    for NaN). *)
Definition parse (engine : string -> option Z) (s : string) : option Z :=
  match parse_iso_date s with
  | Some t => Some t
  | None => engine s
  end.

(** TimeClip: a time value beyond 8.64e15 ms is NaN. *)
Definition TimeClip (t : Z) : option Z :=
  if Z.abs t <=? 8640000000000000 then Some t else None.

(** [new Date(s).getTime()], [None] for NaN. *)
Definition new_Date (engine : string -> option Z) (s : string) : option Z :=
  match parse engine s with
  | Some t => TimeClip t
  | None => None
  end.

(** The year of [toISOString]: four digits from 0 to 9999, a sign and
    six digits otherwise. *)
Definition iso_year (y : Z) : string :=
  if (0 <=? y) && (y <=? 9999) then pad 4 y
  else (if y <? 0 then "-" else "+") ++ pad 6 (Z.abs y).

(** [d.toISOString().split('T')[0]] of a valid time value. *)
Definition toISOString_date (t : Z) : string :=
  let '(y, m, d) := civil_from_days (t / msPerDay) in
  iso_year y ++ "-" ++ pad 2 m ++ "-" ++ pad 2 d.

End JSDate.

(* ===================================================================== *)
(** ** State and exceptions                                               *)
(* ===================================================================== *)

(** A computation over a mutable state [S] that returns or throws; the
    state reached at a [throw] is kept, as a [catch] block sees it.
    [Uncaught] is an error raised outside the call chain (an [error]
    event that no listener takes): no [catch] sees it, the awaited
    promise is never settled and Node ends the process. *)
Module Eff.

Inductive outcome (A : Type) : Type :=
| Ok (a : A)
| Throw (message : string)
| Uncaught (message : string).
Arguments Ok {A} a.
Arguments Throw {A} message.
Arguments Uncaught {A} message.

Definition M (S A : Type) : Type := S -> outcome A * S.

Definition ret {S A} (a : A) : M S A := fun s => (Ok a, s).
Definition throw {S A} (message : string) : M S A := fun s => (Throw message, s).
Definition bind {S A B} (m : M S A) (k : A -> M S B) : M S B :=
  fun s =>
    match m s with
    | (Ok a, s') => k a s'
    | (Throw e, s') => (Throw e, s')
    | (Uncaught e, s') => (Uncaught e, s')
    end.
Definition modify {S} (f : S -> S) : M S unit := fun s => (Ok tt, f s).
Definition lift {S A} (o : outcome A) : M S A := fun s => (o, s).

(** [try { m } catch (e) { h e }]. *)
Definition try_catch {S A} (m : M S A) (h : string -> M S A) : M S A :=
  fun s =>
    match m s with
    | (Ok a, s') => (Ok a, s')
    | (Throw e, s') => h e s'
    | (Uncaught e, s') => (Uncaught e, s')
    end.

Module Notations.
Notation "x <- m ;; k" := (bind m (fun x => k))
  (at level 61, m at next level, right associativity).
Notation "m ;;; k" := (bind m (fun _ => k))
  (at level 61, right associativity).
End Notations.

End Eff.

(* ===================================================================== *)
(** ** scripts/import-data.js: class SecureDataImporter                   *)
(* ===================================================================== *)

Module Importer.
Import JS Eff Eff.Notations.

(** [this.importStats]. *)
Record importStats : Type := mkStats {
  totalRecords : nat;
  processedRecords : nat;
  encryptedFields : nat;
  errors : nat;
  warnings : nat
}.

(** The statistics set by the constructor. *)
Definition new_stats : importStats := mkStats 0 0 0 0 0.

Definition set_totalRecords (n : nat) (st : importStats) : importStats :=
  mkStats n (processedRecords st) (encryptedFields st) (errors st) (warnings st).
Definition incr_processedRecords (st : importStats) : importStats :=
  mkStats (totalRecords st) (S (processedRecords st)) (encryptedFields st)
          (errors st) (warnings st).
Definition incr_encryptedFields (st : importStats) : importStats :=
  mkStats (totalRecords st) (processedRecords st) (S (encryptedFields st))
          (errors st) (warnings st).
Definition add_errors (n : nat) (st : importStats) : importStats :=
  mkStats (totalRecords st) (processedRecords st) (encryptedFields st)
          (errors st + n) (warnings st).
Definition incr_warnings (st : importStats) : importStats :=
  mkStats (totalRecords st) (processedRecords st) (encryptedFields st)
          (errors st) (S (warnings st)).

Definition I (A : Type) : Type := M importStats A.

(** What the importer takes from its host. *)
Record host : Type := mkHost {
  SUPABASE_URL : jsval;             (* process.env.SUPABASE_URL *)
  SUPABASE_SERVICE_KEY : jsval;     (* process.env.SUPABASE_SERVICE_KEY *)
  connection_ok : bool;             (* fetch answered and response.ok *)
  csv_rows : outcome (list obj);    (* how the stream of the file ends, below *)
  rows_before_error : list obj;     (* the rows emitted before an error *)
  date_engine : string -> option Z; (* Date.parse beyond YYYY-MM-DD *)
  now : Z;                          (* Date.now() when processing starts *)
  clock : nat -> string;            (* new Date().toISOString() at record i *)
  upload_throws : nat -> bool       (* the try body of upload batch k throws *)
}.

Definition batchSize : nat := 100.

(** *** parseDate *)

(** [/^\d{2}[A-Z]{3}\d{2}$/.test(s)]. *)
Definition is_DDMMMYY (s : string) : bool :=
  match s with
  | String d1 (String d2 (String m1 (String m2 (String m3
      (String y1 (String y2 EmptyString)))))) =>
      is_digit d1 && is_digit d2 && is_upper m1 && is_upper m2 && is_upper m3
      && is_digit y1 && is_digit y2
  | _ => false
  end.

Definition monthMap : list (string * string) :=
  [("JAN", "01"); ("FEB", "02"); ("MAR", "03"); ("APR", "04");
   ("MAY", "05"); ("JUN", "06"); ("JUL", "07"); ("AUG", "08");
   ("SEP", "09"); ("OCT", "10"); ("NOV", "11"); ("DEC", "12")].

(** [monthMap[month]] inside a template literal. *)
Fixpoint monthMap_get (t : list (string * string)) (month : string) : string :=
  match t with
  | [] => "undefined"
  | (k, v) :: r => if (k =? month)%string then v else monthMap_get r month
  end.

(** The rewriting of [cleanDate] before it is given to [Date]. *)
Definition clean_date (cleanDate : string) : string :=
  if is_DDMMMYY cleanDate then
    let day := substring 0 2 cleanDate in
    let month := substring 2 3 cleanDate in
    let year := "20" ++ substring 5 2 cleanDate in
    year ++ "-" ++ monthMap_get monthMap month ++ "-" ++ day
  else cleanDate.

(** [parseDate(dateString)].  Nothing in the [try] block throws (the
    Date is valid when [toISOString] is reached), so its [catch] is not
    entered; a truthy value that is no string has no [trim]. *)
Definition parseDate (h : host) (dateString : jsval) : I jsval :=
  if negb (truthy dateString) then ret VNull
  else
    match dateString with
    | VStr s =>
        if (trim s =? "")%string then ret VNull
        else
          match JSDate.new_Date (date_engine h) (clean_date (trim s)) with
          | None => modify incr_warnings ;;; ret VNull
          | Some t => ret (VStr (JSDate.toISOString_date t))
          end
    | _ => throw "dateString.trim is not a function"
    end.

(** *** readCSVFile: the record built for each row *)

Definition record_of_row (h : host) (row : obj) : I obj :=
  event_occurred <- parseDate h (get row "When did the event occur?") ;;
  event_detected <- parseDate h (get row "When was the event detected?") ;;
  ret [("original_id", get row "ID");
       ("short_description", get row "Short Description");
       ("contact_organizer", get row "Contact / Organizer");
       ("location", get row "Where (building/room #/lab)?");
       ("event_occurred", event_occurred);
       ("event_detected", event_detected);
       ("expected_results", get row "Expected Results");
       ("process_confidence", get row "Based on process conf., Gemba 100% effective");
       ("gemba_outcome", get row "Outcome of Gemba")].

Fixpoint mapM {A B} (f : A -> I B) (l : list A) : I (list B) :=
  match l with
  | [] => ret []
  | x :: r => y <- f x ;; ys <- mapM f r ;; ret (y :: ys)
  end.

(** [readCSVFile(filePath)].  The file stream is piped into the
    parser, and the three listeners are set on the parser.
    [csv_rows h] tells how the stream ends:
      - [Ok rows]: the parser emits [rows] and then [end]; the promise
        is resolved with the records;
      - [Throw message]: after [rows_before_error h] the parser emits
        [error]; the listener rejects the promise;
      - [Uncaught message]: after [rows_before_error h] the file
        stream emits [error] (the file cannot be opened or read);
        [pipe] does not pass errors on and the file stream has no
        listener, so the error is thrown as an uncaught exception. *)
Definition readCSVFile (h : host) : I (list obj) :=
  match csv_rows h with
  | Ok rows => mapM (record_of_row h) rows
  | Throw message =>
      mapM (record_of_row h) (rows_before_error h) ;;; throw message
  | Uncaught message =>
      mapM (record_of_row h) (rows_before_error h) ;;; lift (Uncaught message)
  end.

(** *** Encryption and hash placeholders *)

Definition simpleEncrypt (data : string) : string :=
  buffer_base64 data ++ "_encrypted".

Definition simpleHash (data : string) : string :=
  substring 0 32 (buffer_base64 (data ++ "salt")).

(** [encryptSensitiveData(record)].  The test reads
    [record.contact_organizer.includes], which only a string has among
    the truthy values of the model; the placeholders do not throw, so
    the inner [catch] is not entered. *)
Definition encryptSensitiveData (record : obj) : I obj :=
  let encryptedRecord := record in
  let contact := get record "contact_organizer" in
  if negb (truthy contact) then ret encryptedRecord
  else
    match contact with
    | VStr s =>
        if includes s "@" then
          let encryptedRecord :=
            set encryptedRecord "contact_organizer_encrypted" (VStr (simpleEncrypt s)) in
          let encryptedRecord :=
            set encryptedRecord "contact_organizer_hash" (VStr (simpleHash s)) in
          let encryptedRecord := delete encryptedRecord "contact_organizer" in
          modify incr_encryptedFields ;;; ret encryptedRecord
        else ret encryptedRecord
    | _ => throw "record.contact_organizer.includes is not a function"
    end.

(** *** classifyRecord *)

Definition classifyRecord (record : obj) : string :=
  let content := toLowerCase (JSON_stringify record) in
  if includes content "@" || includes content "email" then "internal"
  else if includes content "confidential" || includes content "sensitive"
  then "confidential"
  else "internal".

(** *** generateDataHash *)

Definition generateDataHash (record : obj) : string :=
  let dataString := JSON_stringify_keys record (sort (keys record)) in
  simpleHash dataString.

(** *** extractDepartment *)

Definition extractDepartment (location : jsval) : outcome string :=
  if negb (truthy location) then Ok "general"
  else
    match location with
    | VStr s =>
        let locationUpper := toUpperCase s in
        if includes locationUpper "NYA" then Ok "NYA"
        else if includes locationUpper "FORBES" then Ok "FORBES"
        else if includes locationUpper "QC" then Ok "QC"
        else if includes locationUpper "MICRO" then Ok "MICROBIOLOGY"
        else Ok "general"
    | _ => Throw "location.toUpperCase is not a function"
    end.

(** *** The batches of a loop [for (i = 0; i < a.length; i += n)] *)

Fixpoint chunks_fuel {A} (fuel n : nat) (l : list A) : list (list A) :=
  match fuel with
  | O => []
  | S f =>
      match l with
      | [] => []
      | _ => firstn n l :: chunks_fuel f n (skipn n l)
      end
  end.

(** [a.slice(i, i + n)] for i = 0, n, 2n, ... below [a.length]; the
    length of [a] bounds the number of turns when [n] is positive. *)
Definition chunks {A} (n : nat) (l : list A) : list (list A) :=
  chunks_fuel (List.length l) n l.

(** *** processRecords *)

Definition audit_log (batchId timestamp : string) : string :=
  "[" ++ JSON_stringify
           [("action", VStr "IMPORT");
            ("timestamp", VStr timestamp);
            ("user", VStr "data-import@system");
            ("source", VStr "Gemba Requests.csv");
            ("batch", VStr batchId)] ++ "]".

(** The body of the [try] up to the object literal [secureRecord]. *)
Definition secure_record (h : host) (batchId : string) (i : nat)
    (record : obj) : I obj :=
  encryptedRecord <- encryptSensitiveData record ;;
  department <- lift (extractDepartment (get record "location")) ;;
  ret (assign encryptedRecord
         [("department", VStr department);
          ("security_classification", VStr (classifyRecord record));
          ("data_hash", VStr (generateDataHash record));
          ("import_batch", VStr batchId);
          ("audit_log", VStr (audit_log batchId (clock h i)))]).

(** One turn of [for (const record of batch)]: [i] is the position of
    the record in the input, [processedRecords] the array so far. *)
Definition process_record (h : host) (batchId : string) (i : nat)
    (record : obj) (processedRecords : list obj) : I (list obj) :=
  try_catch
    (secureRecord <- secure_record h batchId i record ;;
     modify incr_processedRecords ;;;
     ret (processedRecords ++ [secureRecord])%list)
    (fun _ => modify (add_errors 1) ;;; ret processedRecords).

Fixpoint process_batch (h : host) (batchId : string) (i : nat)
    (batch : list obj) (processedRecords : list obj) : I (list obj) :=
  match batch with
  | [] => ret processedRecords
  | record :: rest =>
      processedRecords' <- process_record h batchId i record processedRecords ;;
      process_batch h batchId (S i) rest processedRecords'
  end.

Fixpoint process_batches (h : host) (batchId : string) (i : nat)
    (batches : list (list obj)) (processedRecords : list obj) : I (list obj) :=
  match batches with
  | [] => ret processedRecords
  | batch :: rest =>
      processedRecords' <- process_batch h batchId i batch processedRecords ;;
      process_batches h batchId (i + List.length batch) rest processedRecords'
  end.

Definition processRecords (h : host) (records : list obj) : I (list obj) :=
  let batchId := "import_" ++ dec (now h) in
  process_batches h batchId 0 (chunks batchSize records) [].

(** *** uploadToDatabase *)

(** The request is simulated in the source; [upload_throws h k] stands
    for an exception in the [try] body of batch [k]. *)
Fixpoint upload_batches (h : host) (k : nat) (batches : list (list obj))
    (uploadedCount : nat) : I nat :=
  match batches with
  | [] => ret uploadedCount
  | batch :: rest =>
      uploadedCount' <-
        try_catch
          (if upload_throws h k then throw "upload failed"
           else ret (uploadedCount + List.length batch))
          (fun _ => modify (add_errors (List.length batch)) ;;; ret uploadedCount) ;;
      upload_batches h (S k) rest uploadedCount'
  end.

Definition uploadToDatabase (h : host) (processedRecords : list obj) : I nat :=
  upload_batches h 0 (chunks 50 processedRecords) 0.

(** *** importData *)

Definition initialize (h : host) : I bool :=
  if negb (truthy (SUPABASE_URL h)) || negb (truthy (SUPABASE_SERVICE_KEY h))
  then throw "❌ Missing Supabase credentials. Set SUPABASE_URL and SUPABASE_SERVICE_KEY environment variables."
  else ret true.

(** [testConnection] catches its own errors and answers a boolean. *)
Definition testConnection (h : host) : I bool := ret (connection_ok h).

(** [importData(csvFilePath)].  [ensureTableExists] and
    [generateReport] only talk to the network and to the console; they
    change no statistics and do not throw.  The [catch] takes every
    exception of the body; an error of the file stream is not one of
    them: it ends the process while [readCSVFile] is awaited, and
    nothing is returned. *)
Definition importData (h : host) : I obj :=
  try_catch
    (initialize h ;;;
     connected <- testConnection h ;;
     (if negb connected then throw "Database connection failed" else ret tt) ;;;
     records <- readCSVFile h ;;
     modify (set_totalRecords (List.length records)) ;;;
     processedRecords <- processRecords h records ;;
     uploadedCount <- uploadToDatabase h processedRecords ;;
     fun st =>
       (Ok [("success", VBool true);
            ("totalRecords", VNum (Z.of_nat (totalRecords st)));
            ("uploadedRecords", VNum (Z.of_nat uploadedCount));
            ("errors", VNum (Z.of_nat (errors st)))], st))
    (fun message => ret [("success", VBool false); ("error", VStr message)]).

End Importer.

(* ===================================================================== *)
(** ** scripts/demo-import.js                                             *)
(* ===================================================================== *)

Module Demo.
Import JS Eff.

Definition identifyDepartment (location : jsval) : outcome string :=
  if negb (truthy location) then Ok "general"
  else
    match location with
    | VStr s =>
        let locationUpper := toUpperCase s in
        if includes locationUpper "NYA" then Ok "NYA"
        else if includes locationUpper "FORBES" then Ok "FORBES"
        else if includes locationUpper "QC" then Ok "QC"
        else if includes locationUpper "MICRO" then Ok "MICROBIOLOGY"
        else Ok "general"
    | _ => Throw "location.toUpperCase is not a function"
    end.

End Demo.

(* ===================================================================== *)
(** ** scripts/simple-import.js                                           *)
(* ===================================================================== *)

Module SimpleImport.
Import JS Eff.

(** The object pushed for each row of the CSV. *)
Definition record_of_row (data : obj) : obj :=
  [("request_id", get data "ID");
   ("short_description", get data "Short Description");
   ("contact_organizer", get data "Contact / Organizer");
   ("location", get data "Where (building/room #/lab)?");
   ("event_occurred", get data "When did the event occur?");
   ("event_detected", get data "When was the event detected?");
   ("expected_results", get data "Expected Results");
   ("process_effectiveness", get data "Based on process conf., Gemba 100% effective");
   ("outcome", get data "Outcome of Gemba")].

(** The batches given to [supabase.from('gemba_requests').insert], in
    order; [None] when the connection test fails and the function
    returns before reading the file. *)
Definition inserted (connected : bool) (rows : list obj) : option (list (list obj)) :=
  if connected
  then Some (Importer.chunks 50 (map record_of_row rows))
  else None.

(** The count [imported]: [insert_ok k] tells whether the insert of
    batch [k] came back without error. *)
Fixpoint imported (insert_ok : nat -> bool) (k : nat) (batches : list (list obj))
    (count : nat) : nat :=
  match batches with
  | [] => count
  | batch :: rest =>
      imported insert_ok (S k) rest
        (if insert_ok k then count + List.length batch else count)
  end.

End SimpleImport.

(* ===================================================================== *)
(** ** The user portal: class FlexFormUser                                *)
(* ===================================================================== *)

Module Portal.
Import JS Eff.

(** [encryptData] and [hashData]; [btoa] throws on a code point above
    255. *)
Definition encryptData (data : string) : outcome string :=
  match btoa data with
  | Some b => Ok (b ++ "_encrypted")
  | None => Throw "InvalidCharacterError"
  end.

Definition hashData (data : string) : outcome string :=
  match btoa (data ++ "salt") with
  | Some b => Ok (substring 0 32 b)
  | None => Throw "InvalidCharacterError"
  end.

(** What [submitForm] reads from the page and the session.  A form
    value is the string of an input (a check box group, the only
    non-string value of [getFormData], is not a contact field). *)
Record session : Type := mkSession {
  isConnected : bool;
  hasTemplate : bool;               (* this.currentTemplate is set *)
  formValid : bool;                 (* validateFormData(formData).isValid *)
  user_email : string;
  user_department : string;
  template_name : string;
  submit_time : string              (* new Date().toISOString() *)
}.

(** The object literal [dbData]. *)
Definition prepare (u : session) (formData : obj) : obj :=
  assign formData
    [("created_by", VStr (user_email u));
     ("department", VStr (user_department u));
     ("security_classification", VStr "internal");
     ("source_file", VStr (template_name u ++ " - User Submission"));
     ("created_at", VStr (submit_time u))].

(** The block "Encrypt sensitive data if needed". *)
Definition encrypt_contact (dbData : obj) : outcome obj :=
  if truthy (get dbData "contact_organizer") || truthy (get dbData "requester_email")
  then
    let emailField :=
      or_else (get dbData "contact_organizer") (get dbData "requester_email") in
    match emailField with
    | VStr s =>
        if includes s "@" then
          match encryptData s with
          | Throw e => Throw e
          | Uncaught e => Uncaught e
          | Ok enc =>
              let dbData := set dbData "contact_organizer_encrypted" (VStr enc) in
              match hashData s with
              | Throw e => Throw e
              | Uncaught e => Uncaught e
              | Ok hsh =>
                  let dbData := set dbData "contact_organizer_hash" (VStr hsh) in
                  let dbData := delete dbData "contact_organizer" in
                  let dbData := delete dbData "requester_email" in
                  Ok dbData
              end
          end
        else Ok dbData
    | _ => Throw "emailField.includes is not a function"
    end
  else Ok dbData.

(** [submitForm]: the record given to
    [supabase.from('gemba_requests').insert([dbData])], or [None] when
    the function returns or fails before the request. *)
Definition submitForm (u : session) (formData : obj) : option obj :=
  if negb (isConnected u) then None
  else if negb (hasTemplate u) then None
  else if negb (formValid u) then None
  else
    match encrypt_contact (prepare u formData) with
    | Ok dbData => Some dbData
    | Throw _ => None
    | Uncaught _ => None
    end.

(** *** exportToExcel *)

(** The filter "Exclude sensitive/system fields". *)
Definition excel_keeps (key : string) : bool :=
  negb (includes key "encrypted") && negb (includes key "hash")
  && negb (key =? "audit_log")%string.

(** [cleanRecord], built key by key. *)
Definition clean_record (record : obj) : obj :=
  fold_left
    (fun cleanRecord key =>
       if excel_keeps key
       then set cleanRecord (replaceFirst "_" " " key) (get record key)
       else cleanRecord)
    (keys record) [].

(** [cleanData], the rows given to [XLSX.utils.json_to_sheet]; their
    keys are the column names of the data sheet. *)
Definition exportToExcel (data : list obj) : list obj := map clean_record data.

(** *** exportToCSV *)

Definition excludeFields : list string :=
  ["contact_organizer_encrypted"; "contact_organizer_hash"; "data_hash"; "audit_log"].

(** [excludeFields.includes(key)]. *)
Definition excluded (key : string) : bool :=
  existsb (String.eqb key) excludeFields.

(** The values of a record of the store: the values of a form, an
    array of strings (what [getFormData] collects from a group of check
    boxes), or any other value (a number that is not an integer, an
    object), given by its truth value and by its text. *)
Inductive stored_value : Type :=
| Plain (v : jsval)
| Group (items : list string)
| Other (is_truthy : bool) (text : string).

(** An array is truthy and is no string; [join] writes its elements
    separated by commas. *)
#[global] Instance stored_Value : Value stored_value :=
  mkValue stored_value
    (fun v =>
       match v with
       | Plain v => truthy v
       | Group _ => true
       | Other t _ => t
       end)
    (fun v =>
       match v with
       | Plain (VStr s) => Some s
       | _ => None
       end)
    (fun v =>
       match v with
       | Plain v => toStr v
       | Group items => join "," items
       | Other _ text => text
       end).

(** "Escape commas and quotes": the body of [if (typeof value ===
    'string')]. *)
Definition escape (value : string) : string :=
  let value := replaceAll dquote (String dquote (str1 dquote)) value in
  if includes value "," || includes value (str1 newline)
     || includes value (str1 dquote)
  then String dquote (value ++ str1 dquote)
  else value.

(** A cell: [record[col] || ''], escaped when it is a string; [join]
    then writes the text of the value.  The empty string that stands
    for a falsy value is a string without a character to escape. *)
Definition csv_cell {V : Type} `{Value V} (record : list (string * V))
    (col : string) : string :=
  match property_of record col with
  | Own v =>
      if value_truthy v then
        match value_string v with
        | Some value => escape value
        | None => value_text v
        end
      else ""
  | Inherited => native_text col
  | Absent => ""
  end.

Definition csv_line {V : Type} `{Value V} (columns : list string)
    (record : list (string * V)) : string :=
  join "," (map (csv_cell record) columns) ++ str1 newline.

(** [columns]: the keys of the first record that are not excluded. *)
Definition csv_columns {V : Type} (first : list (string * V)) : list string :=
  filter (fun key => negb (excluded key)) (keys first).

(** The text of the CSV file; [Object.keys(data[0])] throws on an empty
    array. *)
Definition exportToCSV {V : Type} `{Value V} (data : list (list (string * V)))
  : outcome string :=
  match data with
  | [] => Throw "Cannot convert undefined or null to object"
  | first :: _ =>
      let columns := csv_columns first in
      Ok (join "," columns ++ str1 newline
          ++ String.concat "" (map (csv_line columns) data))
  end.

End Portal.


(* ===================================================================== *)
(** ** The properties, as the specification words them                    *)
(* ===================================================================== *)

Module Spec.
Import JS Eff.

(** *** Department: ordered keyword table, first match wins *)

Definition department_keywords : list (string * string) :=
  [("NYA", "NYA"); ("FORBES", "FORBES"); ("QC", "QC"); ("MICRO", "MICROBIOLOGY")].

Definition departments : list string :=
  ["NYA"; "FORBES"; "QC"; "MICROBIOLOGY"; "general"].

(** The same character, or the same letter of A to Z in its two
    cases. *)
Definition same_letter (a b : ascii) : bool :=
  let m := nat_of_ascii a in
  let n := nat_of_ascii b in
  (m =? n)
  || ((65 <=? m) && (m <=? 90) && (n =? m + 32))
  || ((65 <=? n) && (n <=? 90) && (m =? n + 32)).

(** [s] starts with [keyword], whatever the case of the letters. *)
Fixpoint ci_prefix (keyword s : string) : bool :=
  match keyword, s with
  | EmptyString, _ => true
  | String a k, String b r => same_letter a b && ci_prefix k r
  | String _ _, EmptyString => false
  end.

(** Case-insensitive substring: [keyword] occurs in [s], whatever the
    case of the letters. *)
Fixpoint ci_includes (s keyword : string) : bool :=
  ci_prefix keyword s
  || match s with
     | EmptyString => false
     | String _ r => ci_includes r keyword
     end.

Fixpoint first_match (table : list (string * string)) (s : string) : string :=
  match table with
  | [] => "general"
  | (keyword, department) :: rest =>
      if ci_includes s keyword then department else first_match rest s
  end.

Definition department_of (location : string) : string :=
  first_match department_keywords location.

(** The department of the first keyword that the text [upper]
    contains as it is written. *)
Fixpoint first_keyword (table : list (string * string)) (upper : string) : string :=
  match table with
  | [] => "general"
  | (keyword, department) :: rest =>
      if includes upper keyword then department else first_keyword rest upper
  end.

(** A word of the letters A to Z. *)
Fixpoint capital_word (s : string) : bool :=
  match s with
  | EmptyString => true
  | String c r => (65 <=? nat_of_ascii c) && (nat_of_ascii c <=? 90) && capital_word r
  end.

(** *** Sensitive contact values *)

(** The field [field] of [r] holds a string with an [@]. *)
Definition plain_contact (r : obj) (field : string) : bool :=
  match get r field with
  | VStr s => includes s "@"
  | _ => false
  end.

(** *** CSV quoting *)

Fixpoint has_char (c : ascii) (s : string) : bool :=
  match s with
  | EmptyString => false
  | String x r => Ascii.eqb x c || has_char c r
  end.

(** A field needs quotes when it has a comma, a quote or a newline. *)
Definition needs_quotes (s : string) : bool :=
  has_char ","%char s || has_char dquote s || has_char newline s.

Fixpoint double_quotes (s : string) : string :=
  match s with
  | EmptyString => EmptyString
  | String c r =>
      if Ascii.eqb c dquote then String dquote (String dquote (double_quotes r))
      else String c (double_quotes r)
  end.

Definition rfc4180 (s : string) : string :=
  if needs_quotes s then String dquote (double_quotes s ++ str1 dquote) else s.

(** *** Export filter *)

Definition sensitive_name (key : string) : bool :=
  includes key "encrypted" || includes key "hash" || (key =? "audit_log")%string.

(** *** Rows that make the processing of a record throw *)

Definition is_string (v : jsval) : bool :=
  match v with VStr _ => true | _ => false end.

(** A truthy contact or location that is no string has no [includes],
    no [toUpperCase]. *)
Definition row_fails (record : obj) : bool :=
  let contact := get record "contact_organizer" in
  let location := get record "location" in
  (truthy contact && negb (is_string contact))
  || (truthy location && negb (is_string location)).

Definition count_failing (records : list obj) : nat :=
  List.length (filter row_fails records).

Definition count_passing (records : list obj) : nat :=
  List.length (filter (fun r => negb (row_fails r)) records).

(** The records of the upload batches whose request does not throw,
    counted from batch [k]. *)
Fixpoint count_uploaded (throws : nat -> bool) (k : nat)
    (batches : list (list obj)) : nat :=
  match batches with
  | [] => 0
  | batch :: rest =>
      (if throws k then 0 else List.length batch) + count_uploaded throws (S k) rest
  end.

Fixpoint count_rejected (throws : nat -> bool) (k : nat)
    (batches : list (list obj)) : nat :=
  match batches with
  | [] => 0
  | batch :: rest =>
      (if throws k then List.length batch else 0) + count_rejected throws (S k) rest
  end.

(** The statistics that the turn of one record leaves alone until its
    outcome is known. *)
Definition same_counts (st st' : Importer.importStats) : Prop :=
  Importer.processedRecords st' = Importer.processedRecords st
  /\ Importer.errors st' = Importer.errors st
  /\ Importer.totalRecords st' = Importer.totalRecords st.

(** *** The statistics of the final contract *)

Definition statistics_fields : list string :=
  ["totalRecords"; "processedRecords"; "encryptedFields"; "warnings"; "errors"].

(** *** The DDMMMYY form *)

Definition month_names : list string :=
  ["JAN"; "FEB"; "MAR"; "APR"; "MAY"; "JUN";
   "JUL"; "AUG"; "SEP"; "OCT"; "NOV"; "DEC"].

(** Day [d] of month [m] (1 to 12) of year 20[y], as [DDMMMYY]. *)
Definition ddmmmyy (d m y : Z) : string :=
  pad 2 d ++ nth (Z.to_nat (m - 1)) month_names "" ++ pad 2 y.

(** The same day as [YYYY-MM-DD]. *)
Definition iso_date (d m y : Z) : string :=
  "20" ++ pad 2 y ++ "-" ++ pad 2 m ++ "-" ++ pad 2 d.

(** Reading from the left, an underscore comes before any blank. *)
Fixpoint underscore_first (s : string) : bool :=
  match s with
  | EmptyString => false
  | String c r =>
      if Ascii.eqb c "_" then true
      else if Ascii.eqb c " " then false
      else underscore_first r
  end.

(** *** Checks run over the finite range of DDMMMYY dates *)

(** The importer's reading of [ddmmmyy d m y] is [iso_date d m y]. *)
Definition ddmmmyy_reads (d m y : Z) : bool :=
  let s := ddmmmyy d m y in
  negb (trim s =? "")%string
  && match JSDate.parse_iso_date (Importer.clean_date (trim s)) with
     | Some t =>
         match JSDate.TimeClip t with
         | Some t' => (JSDate.toISOString_date t' =? iso_date d m y)%string
         | None => false
         end
     | None => false
     end.

Definition z_range (lo n : nat) : list Z := map Z.of_nat (seq lo n).

End Spec.

(* ===================================================================== *)
(** ** Sample inputs                                                      *)
(* ===================================================================== *)

Module Samples.
Import JS Eff.

(** A row of "Gemba Requests.csv" with an e-mail contact. *)
Definition row1 : obj :=
  [("ID", VStr "1");
   ("Short Description", VStr "Confidential audit of line 3");
   ("Contact / Organizer", VStr "a@b.c");
   ("Where (building/room #/lab)?", VStr "NYA Building 4");
   ("When did the event occur?", VStr "01OCT25");
   ("When was the event detected?", VStr "not-a-date");
   ("Expected Results", VStr "none");
   ("Based on process conf., Gemba 100% effective", VStr "Yes");
   ("Outcome of Gemba", VStr "ok")].

(** A host with credentials and a reachable store, whose Date reads
    the ISO date-only form and nothing else. *)
Definition host1 : Importer.host :=
  Importer.mkHost (VStr "https://example.supabase.co") (VStr "service-key") true
    (Ok [row1]) [] (fun _ => None) 1700000000000%Z
    (fun _ => "2025-01-01T00:00:00.000Z") (fun _ => false).

(** The same host when the file cannot be opened. *)
Definition host_unreadable : Importer.host :=
  Importer.mkHost (VStr "https://example.supabase.co") (VStr "service-key") true
    (Uncaught "ENOENT: no such file or directory") [] (fun _ => None)
    1700000000000%Z (fun _ => "2025-01-01T00:00:00.000Z") (fun _ => false).

(** The no-break space U+00A0, the bytes 194 and 160. *)
Definition nbsp : string := String "194" (String "160" "").

(** The record [readCSVFile] builds for [row1]. *)
Definition record1 : obj :=
  [("original_id", VStr "1");
   ("short_description", VStr "Confidential audit of line 3");
   ("contact_organizer", VStr "a@b.c");
   ("location", VStr "NYA Building 4");
   ("event_occurred", VStr "2025-10-01");
   ("event_detected", VNull);
   ("expected_results", VStr "none");
   ("process_confidence", VStr "Yes");
   ("gemba_outcome", VStr "ok")].

(** Two locations with a letter outside ASCII: "m", the dotless i
    (U+0131, the bytes 196 and 177), "cro lab"; and "forbe" followed by
    the sharp s (U+00DF, the bytes 195 and 159). *)
Definition dotless_location : string :=
  "m" ++ String "196" (String "177" "cro lab").

Definition sharp_location : string :=
  "forbe" ++ String "195" (String "159" "").

(** A record whose location is a number: [toUpperCase] is missing. *)
Definition bad_record : obj :=
  [("original_id", VStr "2"); ("location", VNum 7)].

Definition session1 : Portal.session :=
  Portal.mkSession true true true "user@plant.example" "QC" "Gemba Intake"
    "2025-01-01T00:00:00.000Z".

Definition form1 : obj :=
  [("short_description", VStr "spill"); ("contact_organizer", VStr "a@b.c");
   ("location", VStr "QC lab")].

(** The record list of the export example. *)
Definition export1 : list obj :=
  [[("a", VStr "x,y"); ("b", VStr (String "z" (String dquote "w")))]].

(** A record of a form with a group of check boxes, of which x and y
    are ticked. *)
Definition export3 : list (list (string * Portal.stored_value)) :=
  [[("a", Portal.Group ["x"; "y"])]].

(** A record with a comma in the name of its column. *)
Definition export4 : list obj :=
  [[("a,b", VStr "x")]].

(** A record set with a column named after a hash. *)
Definition export2 : list obj :=
  [[("id", VNum 1); ("email_hash", VStr "abc"); ("data_hash", VStr "h")]].

End Samples.

(* ===================================================================== *)
(** ** atob, as the key manager uses it                                   *)
(* ===================================================================== *)

Module Base64.
Import JS.

(** ASCII white space of the forgiving base64 decoding: TAB, LF, FF,
    CR and SPACE. *)
Definition is_b64_space (c : ascii) : bool :=
  (code c =? 9) || (code c =? 10) || (code c =? 12) || (code c =? 13)
  || (code c =? 32).

Fixpoint remove_spaces (s : string) : string :=
  match s with
  | EmptyString => EmptyString
  | String c r => if is_b64_space c then remove_spaces r else String c (remove_spaces r)
  end.

(** The string without the one or two [=] it ends with. *)
Fixpoint strip_padding (s : string) : string :=
  match s with
  | EmptyString => EmptyString
  | String c r =>
      if (s =? "=")%string || (s =? "==")%string then EmptyString
      else String c (strip_padding r)
  end.

(** The position of a character in the alphabet. *)
Fixpoint index_of (c : ascii) (s : string) : option nat :=
  match s with
  | EmptyString => None
  | String x r => if Ascii.eqb x c then Some 0 else option_map S (index_of c r)
  end.

Definition b64_value (c : ascii) : option nat := index_of c b64_alphabet.

Definition byte (n : nat) : ascii := ascii_of_nat n.

(** Four characters to three bytes; two or three characters at the end
    give one or two bytes, the bits left over being dropped; one
    character at the end, or a character outside the alphabet, is a
    failure. *)
Fixpoint b64_decode (s : string) : option string :=
  match s with
  | EmptyString => Some EmptyString
  | String _ EmptyString => None
  | String a (String b EmptyString) =>
      match b64_value a, b64_value b with
      | Some va, Some vb => Some (str1 (byte (va * 4 + vb / 16)))
      | _, _ => None
      end
  | String a (String b (String c EmptyString)) =>
      match b64_value a, b64_value b, b64_value c with
      | Some va, Some vb, Some vc =>
          Some (String (byte (va * 4 + vb / 16))
                  (str1 (byte (vb mod 16 * 16 + vc / 4))))
      | _, _, _ => None
      end
  | String a (String b (String c (String d r))) =>
      match b64_value a, b64_value b, b64_value c, b64_value d, b64_decode r with
      | Some va, Some vb, Some vc, Some vd, Some bytes =>
          Some (String (byte (va * 4 + vb / 16))
                  (String (byte (vb mod 16 * 16 + vc / 4))
                     (String (byte (vc mod 4 * 64 + vd)) bytes)))
      | _, _, _, _, _ => None
      end
  end.

(** The code units of [atob(s)], one byte each; [None] when [atob]
    throws InvalidCharacterError. *)
Definition atob (s : string) : option string :=
  let data := remove_spaces s in
  let data :=
    if String.length data mod 4 =? 0 then strip_padding data else data in
  b64_decode data.

End Base64.

(* ===================================================================== *)
(** ** secure-key-manager.js: class SecureKeyManager                      *)
(* ===================================================================== *)

Module KeyManager.
Import JS Eff Base64.

(** The byte arrays of the source ([Uint8Array], [ArrayBuffer]) are
    strings of bytes; [btoa(String.fromCharCode(...bytes))] is then the
    encoding [b64_encode] of the bytes, and
    [atob(s).split('').map(c => c.charCodeAt(0))] is [Base64.atob]. *)

Section WebCrypto.

(** What the platform provides: the key derived by [importKey] and
    [deriveKey] (PBKDF2, fixed salt, 100000 rounds, SHA-256, to an
    AES-GCM key of 256 bits) from the encoded password, [None] when one
    of them throws; [subtle.encrypt] and [subtle.decrypt] for AES-GCM
    with the given IV, [None] when they throw; and
    [new TextDecoder().decode]. *)
Variable CryptoKey : Type.
Variable deriveKey : string -> option CryptoKey.
Variable aes_gcm_encrypt : CryptoKey -> string -> string -> option string.
Variable aes_gcm_decrypt : CryptoKey -> string -> string -> option string.
Variable TextDecoder_decode : string -> string.

(** The fields set by the constructor and by [initialize]. *)
Record manager : Type := mkManager {
  encryptionKey : option CryptoKey;
  initialized : bool
}.

Definition new_manager : manager := mkManager None false.

(** [initialize(masterPassword)]: on an exception the fields are left
    as they were and the answer is [false]. *)
Definition initialize (m : manager) (masterPassword : string) : bool * manager :=
  match deriveKey masterPassword with
  | Some key => (true, mkManager (Some key) true)
  | None => (false, m)
  end.

(** [encryptKey(plainKey)], [iv] being the twelve bytes drawn by
    [getRandomValues]. *)
Definition encryptKey (m : manager) (iv : string) (plainKey : string)
  : outcome string :=
  if negb (initialized m) then Throw "Key manager not initialized"
  else
    match encryptionKey m with
    | None => Throw "TypeError"
    | Some key =>
        match aes_gcm_encrypt key iv plainKey with
        | None => Throw "OperationError"
        | Some encrypted =>
            let combined := iv ++ encrypted in
            Ok (b64_encode combined)
        end
    end.

(** [decryptKey(encryptedKey)]. *)
Definition decryptKey (m : manager) (encryptedKey : string) : outcome string :=
  if negb (initialized m) then Throw "Key manager not initialized"
  else
    match atob encryptedKey with
    | None => Throw "InvalidCharacterError"
    | Some combined =>
        let iv := substring 0 12 combined in
        let encrypted := substring 12 (String.length combined - 12) combined in
        match encryptionKey m with
        | None => Throw "TypeError"
        | Some key =>
            match aes_gcm_decrypt key iv encrypted with
            | None => Throw "OperationError"
            | Some decrypted => Ok (TextDecoder_decode decrypted)
            end
        end
    end.

(** The object of [generateEncryptedConfig], read by
    [loadEncryptedServiceKey]. *)
Record config : Type := mkConfig {
  encrypted : bool;
  serviceKey : string;
  hint : string;
  timestamp : string
}.

(** [generateEncryptedConfig(plainServiceKey, masterPassword)]: the
    answer of [initialize] is not looked at. *)
Definition generateEncryptedConfig (m : manager) (iv : string)
    (plainServiceKey masterPassword : string) (now : string)
  : outcome config * manager :=
  let m := snd (initialize m masterPassword) in
  match encryptKey m iv plainServiceKey with
  | Throw e => (Throw e, m)
  | Uncaught e => (Uncaught e, m)
  | Ok encryptedKey =>
      (Ok (mkConfig true encryptedKey
             "Service key encrypted with master password" now), m)
  end.

(** [loadEncryptedServiceKey(encryptedConfig, masterPassword)]. *)
Definition loadEncryptedServiceKey (m : manager) (encryptedConfig : config)
    (masterPassword : string) : outcome string * manager :=
  if negb (encrypted encryptedConfig) then (Ok (serviceKey encryptedConfig), m)
  else
    let m := snd (initialize m masterPassword) in
    (decryptKey m (serviceKey encryptedConfig), m).

End WebCrypto.

End KeyManager.

(* ===================================================================== *)
(** ** scripts/demo-import.js: processCSVDemo                             *)
(* ===================================================================== *)

Module DemoStats.
Import JS Eff.

(** [this.stats]. *)
Record stats : Type := mkStats {
  totalRecords : nat;
  emailsFound : nat;
  datesProcessed : nat;
  departmentsIdentified : nat;
  encryptionSimulated : nat
}.

Definition new_stats : stats := mkStats 0 0 0 0 0.

(** The variables of [processCSVDemo] and the counters its handler
    updates. *)
Record scan : Type := mkScan {
  recordCount : nat;
  departments : list string;        (* the Set, in insertion order *)
  emails : nat;                     (* this.stats.emailsFound *)
  dates : nat                       (* this.stats.datesProcessed *)
}.

(** [departments.add(dept)]. *)
Definition set_add (dept : string) (s : list string) : list string :=
  if existsb (String.eqb dept) s then s else (s ++ [dept])%list.

(** The handler of a row. *)
Definition on_data (row : obj) (s : scan) : outcome scan :=
  let recordCount := S (recordCount s) in
  let contact := get row "Contact / Organizer" in
  match (if negb (truthy contact) then Ok (emails s)
         else match contact with
              | VStr c => Ok (if includes c "@" then S (emails s) else emails s)
              | _ => Throw "contact.includes is not a function"
              end) with
  | Throw e => Throw e
  | Uncaught e => Uncaught e
  | Ok emails =>
      let dates :=
        if truthy (get row "When did the event occur?") then S (dates s)
        else dates s in
      let location := get row "Where (building/room #/lab)?" in
      if truthy location then
        match Demo.identifyDepartment location with
        | Throw e => Throw e
        | Uncaught e => Uncaught e
        | Ok dept => Ok (mkScan recordCount (set_add dept (departments s)) emails dates)
        end
      else Ok (mkScan recordCount (departments s) emails dates)
  end.

Fixpoint scan_rows (rows : list obj) (s : scan) : outcome scan :=
  match rows with
  | [] => Ok s
  | row :: rest =>
      match on_data row s with
      | Throw e => Throw e
      | Uncaught e => Uncaught e
      | Ok s' => scan_rows rest s'
      end
  end.

(** [processCSVDemo]: the statistics when the stream ends. *)
Definition processCSVDemo (rows : list obj) (st : stats) : outcome stats :=
  match scan_rows rows (mkScan 0 [] (emailsFound st) (datesProcessed st)) with
  | Throw e => Throw e
  | Uncaught e => Uncaught e
  | Ok s =>
      Ok (mkStats (recordCount s) (emails s) (dates s)
            (List.length (departments s)) (emails s))
  end.

End DemoStats.

(* ===================================================================== *)
(** ** The user portal: validateFormData                                  *)
(* ===================================================================== *)

Module PortalForm.
Import JS Eff.

(** A field descriptor of a template. *)
Record field : Type := mkField {
  ftype : string;
  name : string;
  label : string;
  required : bool
}.

(** [getDefaultTemplateFields(templateId)], that is
    [defaultFields[templateId] || []]: the fields of the two templates
    (the options of the select fields are left out: validation does
    not read them), no field for another identifier, and [None] for an
    inherited name, whose value is no array. *)
Definition getDefaultTemplateFields (templateId : string) : option (list field) :=
  if (templateId =? "gemba-intake")%string then
    Some
      [mkField "text" "short_description" "Short Description" true;
       mkField "email" "contact_organizer" "Contact / Organizer" true;
       mkField "text" "location" "Where (building/room #/lab)?" true;
       mkField "date" "event_occurred" "When did the event occur?" true;
       mkField "date" "event_detected" "When was the event detected?" true;
       mkField "textarea" "expected_results" "Expected Results" true;
       mkField "select" "process_confidence"
         "Based on process conf., Gemba 100% effective" true;
       mkField "textarea" "gemba_outcome" "Outcome of Gemba" true]
  else if (templateId =? "smartsheet-gemba")%string then
    Some
      [mkField "text" "request_title" "Request Title" true;
       mkField "email" "requester_email" "Requester Email" true;
       mkField "select" "priority" "Priority" true;
       mkField "textarea" "description" "Description" true;
       mkField "date" "due_date" "Due Date" false]
  else if inherited templateId then None
  else Some [].

(** What [localStorage] holds for the template: nothing (or the empty
    text), a configuration with its fields, or a text that does not
    parse to an object with an array of fields. *)
Inductive stored : Type :=
| NoConfig
| Config (fields : list field)
| BadConfig.

Definition required_names (fields : list field) : list string :=
  map name (filter required fields).

(** [requiredFields]; without a stored configuration the call of
    [filter] on a value that is no array throws, outside any [try]. *)
Definition requiredFields (templateId : string) (templateConfig : stored)
  : outcome (list string) :=
  match templateConfig with
  | Config fields => Ok (required_names fields)
  | BadConfig => Ok ["short_description"; "contact_organizer"; "location"]
  | NoConfig =>
      match getDefaultTemplateFields templateId with
      | Some fields => Ok (required_names fields)
      | None => Throw "filter is not a function"
      end
  end.

(** The regular expression [^[^\s@]+@[^\s@]+\.[^\s@]+$].  The first
    class stops at the first [@], so the text is cut there: before it,
    at least one character; after it, no other [@] and a dot that is
    neither first nor last; and no white space anywhere. *)

(** The text before the first [@] and the text after it. *)
Fixpoint split_at (s : string) : option (string * string) :=
  match s with
  | EmptyString => None
  | String c r =>
      if Ascii.eqb c "@" then Some (EmptyString, r)
      else
        match split_at r with
        | Some (before, after) => Some (String c before, after)
        | None => None
        end
  end.

(** A dot of [s] that is not its last character. *)
Fixpoint dot_before_last (s : string) : bool :=
  match s with
  | EmptyString => false
  | String _ EmptyString => false
  | String c r => Ascii.eqb c "." || dot_before_last r
  end.

(** [emailRegex.test(s)]. *)
Definition emailRegex_test (s : string) : bool :=
  negb (has_space s)
  && match split_at s with
     | Some (before, after) =>
         negb (before =? "")%string
         && negb (includes after "@")
         && match after with
            | EmptyString => false
            | String _ r => dot_before_last r
            end
     | None => false
     end.

(** [!formData[fieldName] || formData[fieldName].toString().trim() === '']:
    a name that the form does not hold reads as [undefined], unless it
    is inherited; an inherited value is truthy and its text is not
    blank. *)
Definition missing (formData : obj) (fieldName : string) : bool :=
  if negb (has formData fieldName) && inherited fieldName then false
  else
    let v := get formData fieldName in
    negb (truthy v) || (trim (toStr v) =? "")%string.

(** The two passes of [validateFormData]: the required fields, then
    the keys that name an e-mail. *)
Definition required_errors (names : list string) (formData : obj) : list string :=
  flat_map
    (fun fieldName =>
       if missing formData fieldName
       then [replaceFirst "_" " " fieldName ++ " is required"]
       else [])
    names.

Definition email_errors (formData : obj) : list string :=
  flat_map
    (fun key =>
       if (includes key "email" || includes key "organizer")
          && truthy (get formData key)
       then
         if emailRegex_test (toStr (get formData key)) then []
         else [replaceFirst "_" " " key ++ " must be a valid email address"]
       else [])
    (keys formData).

(** The object that [validateFormData] returns. *)
Record validation : Type := mkValidation {
  isValid : bool;
  errors : list string
}.

(** [validateFormData(formData)], for the template [templateId] and
    what [localStorage] holds for it. *)
Definition validateFormData (templateId : string) (templateConfig : stored)
    (formData : obj) : outcome validation :=
  match requiredFields templateId templateConfig with
  | Throw e => Throw e
  | Uncaught e => Uncaught e
  | Ok names =>
      let errors := (required_errors names formData ++ email_errors formData)%list in
      Ok (mkValidation (List.length errors =? 0) errors)
  end.

End PortalForm.

(* ===================================================================== *)
(** ** The encrypted configuration: class SecureConfigLoader              *)
(* ===================================================================== *)

Module ConfigLoader.
Import JS Eff.

Section Loader.

Variable CryptoKey : Type.
Variable deriveKey : string -> option CryptoKey.
Variable aes_gcm_decrypt : CryptoKey -> string -> string -> option string.
Variable TextDecoder_decode : string -> string.

(** [window.FLEXFORM_SECURE_CONFIG], as far as the loader reads it. *)
Record secure_config : Type := mkSecureConfig {
  SUPABASE_URL : string;
  SUPABASE_ANON_KEY : string;
  SERVICE_KEY_CONFIG : KeyManager.config;
  AUTO_CONNECT : bool;
  DEFAULT_USER : string * string        (* email, department *)
}.

(** The fields set by the constructor; [None] is [null]. *)
Record loader : Type := mkLoader {
  keyManager : KeyManager.manager CryptoKey;
  serviceKey : option string
}.

Definition new_loader : loader := mkLoader (KeyManager.new_manager CryptoKey) None.

(** [prompt]: the answers the user will give, one for each dialog;
    [None] is a dialog that is cancelled. *)
Definition prompt (answers : list (option string))
  : option string * list (option string) :=
  match answers with
  | [] => (None, [])
  | answer :: rest => (answer, rest)
  end.

(** [unlockServiceKey()]: the result, the loader and the answers that
    are left.  The [catch] reports and throws the error again. *)
Definition unlockServiceKey (w : secure_config) (l : loader)
    (answers : list (option string))
  : outcome string * loader * list (option string) :=
  let config := SERVICE_KEY_CONFIG w in
  if negb (KeyManager.encrypted config)
  then (Ok (KeyManager.serviceKey config), l, answers)
  else
    let (masterPassword, answers) := prompt answers in
    match masterPassword with
    | None => (Throw "Master password required", l, answers)
    | Some masterPassword =>
        if (masterPassword =? "")%string
        then (Throw "Master password required", l, answers)
        else
          let (result, m) :=
            KeyManager.loadEncryptedServiceKey CryptoKey deriveKey aes_gcm_decrypt
              TextDecoder_decode (keyManager l) config masterPassword in
          match result with
          | Ok key => (Ok key, mkLoader m (Some key), answers)
          | Throw e => (Throw e, mkLoader m (serviceKey l), answers)
          | Uncaught e => (Uncaught e, mkLoader m (serviceKey l), answers)
          end
    end.

(** The object [getSecureConfig] returns; [supabaseServiceKey] is
    [None] when the property is not set. *)
Record app_config : Type := mkAppConfig {
  supabaseUrl : string;
  supabaseAnonKey : string;
  autoConnect : bool;
  defaultUser : string * string;
  supabaseServiceKey : option string
}.

(** [!this.serviceKey]. *)
Definition no_key (k : option string) : bool :=
  match k with
  | None => true
  | Some s => (s =? "")%string
  end.

(** [getSecureConfig(needsServiceKey)]. *)
Definition getSecureConfig (w : secure_config) (l : loader)
    (needsServiceKey : bool) (answers : list (option string))
  : outcome app_config * loader * list (option string) :=
  let config :=
    mkAppConfig (SUPABASE_URL w) (SUPABASE_ANON_KEY w) (AUTO_CONNECT w)
      (DEFAULT_USER w) in
  if needsServiceKey then
    if no_key (serviceKey l) then
      match unlockServiceKey w l answers with
      | (Ok key, l, answers) => (Ok (config (Some key)), l, answers)
      | (Throw e, l, answers) => (Throw e, l, answers)
      | (Uncaught e, l, answers) => (Uncaught e, l, answers)
      end
    else (Ok (config (serviceKey l)), l, answers)
  else (Ok (config None), l, answers).

(** [hasServiceKey()]. *)
Definition hasServiceKey (l : loader) : bool :=
  match serviceKey l with
  | None => false
  | Some _ => true
  end.

(** [clearServiceKey()]. *)
Definition clearServiceKey (l : loader) : loader := mkLoader (keyManager l) None.

End Loader.

End ConfigLoader.

(* ===================================================================== *)
(** ** Further notions used in the statements                             *)
(* ===================================================================== *)

Module Notions.
Import JS Eff Spec.

(** The encoding without its padding. *)
Fixpoint b64_body (s : string) : string :=
  match s with
  | EmptyString => EmptyString
  | String a EmptyString =>
      String (b64_char (code a / 4))
        (String (b64_char (code a mod 4 * 16)) EmptyString)
  | String a (String b EmptyString) =>
      String (b64_char (code a / 4))
        (String (b64_char (code a mod 4 * 16 + code b / 16))
           (String (b64_char (code b mod 16 * 4)) EmptyString))
  | String a (String b (String c r)) =>
      String (b64_char (code a / 4))
        (String (b64_char (code a mod 4 * 16 + code b / 16))
           (String (b64_char (code b mod 16 * 4 + code c / 64))
              (String (b64_char (code c mod 64)) (b64_body r))))
  end.

(** A row as csv-parser emits it: every cell is a string. *)
Definition csv_row (row : obj) : Prop :=
  Forall (fun kv => is_string (snd kv) = true) row.

(** The fields of a record built by [readCSVFile]. *)
Definition record_fields : list string :=
  ["original_id"; "short_description"; "contact_organizer"; "location";
   "event_occurred"; "event_detected"; "expected_results";
   "process_confidence"; "gemba_outcome"].

(** What a record read from a row of strings looks like. *)
Definition read_record (r : obj) : Prop :=
  keys r = record_fields
  /\ row_fails r = false
  /\ (get r "event_occurred" = VNull \/ exists s, get r "event_occurred" = VStr s)
  /\ (get r "event_detected" = VNull \/ exists s, get r "event_detected" = VStr s).

(** The texts that the e-mail pattern of the portal accepts: some
    text, an [@], some text, a dot, some text, the three of them not
    empty, with this [@] only and without white space. *)
Definition address_shaped (s : string) : Prop :=
  exists before name rest,
    s = before ++ "@" ++ name ++ "." ++ rest
    /\ before <> "" /\ name <> "" /\ rest <> ""
    /\ has_space s = false
    /\ has_char "@" before = false
    /\ has_char "@" name = false
    /\ has_char "@" rest = false.

(** The fields [processRecords] adds to a record. *)
Definition metadata_fields : list string :=
  ["department"; "security_classification"; "data_hash"; "import_batch";
   "audit_log"].

(** The records whose contact is a string with an [@]. *)
Definition count_contacts (records : list obj) : nat :=
  List.length (filter (fun r => plain_contact r "contact_organizer") records).

(** The rows of a CSV whose contact cell has an [@]. *)
Definition count_contact_rows (rows : list obj) : nat :=
  List.length (filter (fun r => plain_contact r "Contact / Organizer") rows).

(** What one processed record holds. *)
Definition well_tagged (h : Importer.host) (r : obj) : Prop :=
  (exists d, get r "department" = VStr d /\ In d departments)
  /\ (get r "security_classification" = VStr "internal"
      \/ get r "security_classification" = VStr "confidential")
  /\ get r "import_batch" = VStr ("import_" ++ dec (Importer.now h))
  /\ is_string (get r "data_hash") = true
  /\ is_string (get r "audit_log") = true.

(** The fields that [secure_record] does not write. *)
Definition untouched (k : string) : Prop :=
  k <> "contact_organizer" /\ k <> "contact_organizer_encrypted"
  /\ k <> "contact_organizer_hash" /\ ~ In k metadata_fields.

(** Every byte is below 128. *)
Fixpoint is_ascii (s : string) : bool :=
  match s with
  | EmptyString => true
  | String c r => (code c <? 128) && is_ascii r
  end.

(** A cipher that leaves the data alone, and a host of it, for running
    the key manager on an example. *)
Definition toy_derive (password : string) : option string := Some password.
Definition toy_encrypt (key iv data : string) : option string := Some data.
Definition toy_decrypt (key iv data : string) : option string := Some data.
Definition toy_decode (bytes : string) : string := bytes.

End Notions.

Module MoreSamples.
Import JS Eff.

(** A row with a contact that is no address and without dates. *)
Definition row2 : obj :=
  [("ID", VStr "2");
   ("Short Description", VStr "Door seal");
   ("Contact / Organizer", VStr "J. Smith");
   ("Where (building/room #/lab)?", VStr "Forbes QC lab")].

(** The host of [Samples.host1] reading two rows. *)
Definition host2 : Importer.host :=
  Importer.mkHost (VStr "https://example.supabase.co") (VStr "service-key") true
    (Ok [Samples.row1; row2]) [] (fun _ => None) 1700000000000%Z
    (fun _ => "2025-01-01T00:00:00.000Z") (fun _ => false).

(** A row whose contact begins as that of [Samples.row1]. *)
Definition row3 : obj :=
  [("ID", VStr "3");
   ("Short Description", VStr "Spill in the lab");
   ("Contact / Organizer", VStr "a@other.example");
   ("Where (building/room #/lab)?", VStr "Forbes QC lab")].

Definition iv12 : string := "0123456789ab".

End MoreSamples.

(* ===================================================================== *)
(** ** Facts about strings                                                *)
(* ===================================================================== *)

Module StringFacts.
Import JS Spec Notions.

(** On ASCII text [toUpperCase] maps the letters a to z and nothing
    else. *)
Lemma toUpperCase_ascii (s : string) :
  is_ascii s = true -> toUpperCase s = smap char_toUpper s.
Proof.
  induction s as [|c s IH]; [reflexivity|].
  cbn [is_ascii toUpperCase smap]. intros H.
  apply andb_true_iff in H. destruct H as [C H].
  rewrite C, (IH H). reflexivity.
Qed.

(** A capital letter is the upper case of a character exactly when the
    two are the same letter. *)
Lemma upper_same_letter (a b : ascii) :
  (65 <=? nat_of_ascii a) && (nat_of_ascii a <=? 90) = true ->
  (if ascii_dec a (char_toUpper b) then true else false) = same_letter a b.
Proof.
  intros U. apply andb_true_iff in U. destruct U as [U1 U2].
  apply Nat.leb_le in U1, U2.
  pose proof (nat_ascii_bounded b) as Bb.
  unfold same_letter, char_toUpper, is_lower, code.
  destruct (Nat.leb_spec 97 (nat_of_ascii b)) as [L1|L1];
    destruct (Nat.leb_spec (nat_of_ascii b) 122) as [L2|L2]; cbn [andb].
  - destruct (ascii_dec a (ascii_of_nat (nat_of_ascii b - 32))) as [E|N].
    + assert (X : nat_of_ascii a = nat_of_ascii b - 32).
      { rewrite E. apply nat_ascii_embedding. lia. }
      symmetry. apply orb_true_iff. left. apply orb_true_iff. right.
      apply andb_true_iff. split; [apply andb_true_iff; split; apply Nat.leb_le; lia|].
      apply Nat.eqb_eq. lia.
    + symmetry. apply orb_false_iff. split; [apply orb_false_iff; split|].
      * apply Nat.eqb_neq. lia.
      * apply andb_false_iff. right. apply Nat.eqb_neq. intros X. apply N.
        rewrite <- (ascii_nat_embedding a). f_equal. lia.
      * apply andb_false_iff. left. apply andb_false_iff. right.
        apply Nat.leb_gt. lia.
  - destruct (ascii_dec a b) as [E|N].
    + subst b. symmetry. apply orb_true_iff. left. apply orb_true_iff. left.
      apply Nat.eqb_refl.
    + symmetry. apply orb_false_iff. split; [apply orb_false_iff; split|].
      * apply Nat.eqb_neq. intros X. apply N.
        rewrite <- (ascii_nat_embedding a), <- (ascii_nat_embedding b). f_equal. exact X.
      * apply andb_false_iff. right. apply Nat.eqb_neq. lia.
      * apply andb_false_iff. right. apply Nat.eqb_neq. lia.
  - destruct (ascii_dec a b) as [E|N].
    + subst b. symmetry. apply orb_true_iff. left. apply orb_true_iff. left.
      apply Nat.eqb_refl.
    + symmetry. apply orb_false_iff. split; [apply orb_false_iff; split|].
      * apply Nat.eqb_neq. intros X. apply N.
        rewrite <- (ascii_nat_embedding a), <- (ascii_nat_embedding b). f_equal. exact X.
      * apply andb_false_iff. right. apply Nat.eqb_neq. lia.
      * destruct (Nat.leb_spec 65 (nat_of_ascii b)) as [G|G]; [|reflexivity].
        apply andb_false_iff. right. apply Nat.eqb_neq. lia.
  - lia.
Qed.

Lemma prefix_upper (k s : string) :
  capital_word k = true ->
  prefix k (smap char_toUpper s) = ci_prefix k s.
Proof.
  revert s. induction k as [|a k IH]; intros s K.
  - destruct s; reflexivity.
  - cbn [capital_word] in K. apply andb_true_iff in K. destruct K as [U K].
    destruct s as [|b s]; [reflexivity|].
    cbn [smap prefix ci_prefix]. rewrite <- (upper_same_letter a b U).
    destruct (ascii_dec a (char_toUpper b)); [apply IH, K|reflexivity].
Qed.

(** The test of the source, on ASCII text, is the case-insensitive
    test. *)
Lemma includes_upper_ci (s k : string) :
  capital_word k = true ->
  includes (smap char_toUpper s) k = ci_includes s k.
Proof.
  intros K. induction s as [|b s IH].
  - simpl. rewrite !orb_false_r. exact (prefix_upper k EmptyString K).
  - change (smap char_toUpper (String b s))
      with (String (char_toUpper b) (smap char_toUpper s)).
    cbn [includes ci_includes]. rewrite IH. f_equal.
    apply (prefix_upper k (String b s) K).
Qed.

(** A string is blank for [trim] exactly when it is made of white
    space only. *)
Lemma all_space_trimStart (n : nat) :
  forall s, String.length s <= n -> all_space (trimStart s) = all_space s.
Proof.
  induction n as [|n IH]; intros s L.
  - destruct s; [reflexivity|simpl in L; lia].
  - destruct s as [|a r]; [reflexivity|]. cbn [String.length] in L.
    cbn [trimStart]. destruct (is_space a) eqn:A.
    + rewrite IH by lia. cbn [all_space]. rewrite A. reflexivity.
    + destruct r as [|b r2]; [reflexivity|]. cbn [String.length] in L.
      destruct (is_space2 a b) eqn:B.
      * rewrite IH by lia. cbn [all_space]. rewrite A, B. reflexivity.
      * destruct r2 as [|c r3]; [reflexivity|]. cbn [String.length] in L.
        destruct (is_space3 a b c) eqn:C; [|reflexivity].
        rewrite IH by lia. cbn [all_space]. rewrite A, B, C. reflexivity.
Qed.

Lemma trim_blank (s : string) : trim s = "" <-> all_space s = true.
Proof.
  unfold trim.
  rewrite <- (all_space_trimStart (String.length s) s (Nat.le_refl _)).
  destruct (trimStart s) as [|c r]; [split; reflexivity|].
  cbn [trimEnd]. destruct (all_space (String c r)); split; congruence.
Qed.

Lemma prefix_empty (s : string) : prefix EmptyString s = true.
Proof. destruct s; reflexivity. Qed.

(** [includes] of a one-character string looks for the character. *)
Lemma includes_char (c : ascii) (s : string) :
  includes s (str1 c) = has_char c s.
Proof.
  induction s as [|x s IH]; [reflexivity|].
  cbn [includes has_char]. rewrite IH. f_equal.
  unfold str1. simpl. destruct (ascii_dec c x) as [->|N].
  - rewrite prefix_empty, Ascii.eqb_refl. reflexivity.
  - symmetry. apply Ascii.eqb_neq. congruence.
Qed.

End StringFacts.

(* ===================================================================== *)
(** ** C7: department classification                                      *)
(* ===================================================================== *)

Module DepartmentProofs.
Import JS Eff Spec Notions StringFacts.

(** What the source does with a string: the first keyword that its
    upper case contains. *)
Lemma extractDepartment_string (s : string) :
  Importer.extractDepartment (VStr s)
  = Ok (first_keyword department_keywords (toUpperCase s)).
Proof.
  unfold Importer.extractDepartment, department_keywords, first_keyword.
  destruct s as [|c s]; [reflexivity|].
  cbn [truthy negb String.eqb].
  repeat match goal with
         | |- context [if includes ?a ?b then _ else _] =>
             destruct (includes a b); try reflexivity
         end.
Qed.

Lemma first_keyword_in (table : list (string * string)) (upper : string) :
  In (first_keyword table upper) ("general" :: map snd table).
Proof.
  induction table as [|[k d] t IH]; simpl; [auto|].
  destruct (includes upper k); [auto|].
  destruct IH as [E|I]; auto.
Qed.

Lemma first_keyword_closed (upper : string) :
  In (first_keyword department_keywords upper) departments.
Proof.
  pose proof (first_keyword_in department_keywords upper) as H.
  unfold departments. simpl in *. intuition.
Qed.

(** On ASCII text the first keyword of the upper case is the first
    case-insensitive match. *)
Lemma first_keyword_ascii (s : string) :
  is_ascii s = true ->
  first_keyword department_keywords (toUpperCase s) = department_of s.
Proof.
  intros A. rewrite (toUpperCase_ascii s A).
  unfold department_of, department_keywords, first_keyword, first_match.
  rewrite !includes_upper_ci by reflexivity. reflexivity.
Qed.

Lemma identifyDepartment_same (location : jsval) :
  Demo.identifyDepartment location = Importer.extractDepartment location.
Proof. reflexivity. Qed.

(** C7 as stated fails outside ASCII: the upper case of the dotless i
    is I and that of the sharp s is SS, so the source finds MICRO in
    "m", dotless i, "cro lab" and FORBES in "forbe", sharp s, although
    neither location has the keyword in any case of its letters. *)
Lemma C7_counterexample :
  ci_includes Samples.dotless_location "MICRO" = false
  /\ department_of Samples.dotless_location = "general"
  /\ Importer.extractDepartment (VStr Samples.dotless_location) = Ok "MICROBIOLOGY"
  /\ department_of Samples.sharp_location = "general"
  /\ Importer.extractDepartment (VStr Samples.sharp_location) = Ok "FORBES".
Proof. repeat split; vm_compute; reflexivity. Qed.

(** C7, amended.  For every location string, [extractDepartment] (and
    the identical [identifyDepartment] of the demo script) looks in the
    upper case of the location for the keywords NYA, FORBES, QC and
    MICRO (giving MICROBIOLOGY) in this order, the first found winning
    and [general] being the default; the result is one of the five
    labels.  For a location of ASCII characters this is the
    case-insensitive substring match; "NYA Building 4" gives "NYA" and
    "Annex" gives "general". *)
Theorem C7_department_amended :
  forall location : string,
    Importer.extractDepartment (VStr location)
    = Ok (first_keyword department_keywords (toUpperCase location))
    /\ Demo.identifyDepartment (VStr location)
       = Ok (first_keyword department_keywords (toUpperCase location))
    /\ In (first_keyword department_keywords (toUpperCase location)) departments
    /\ (is_ascii location = true ->
        Importer.extractDepartment (VStr location) = Ok (department_of location)
        /\ Demo.identifyDepartment (VStr location) = Ok (department_of location))
    /\ Importer.extractDepartment (VStr "NYA Building 4") = Ok "NYA"
    /\ Importer.extractDepartment (VStr "Annex") = Ok "general".
Proof.
  intros location. split; [apply extractDepartment_string|].
  split; [rewrite identifyDepartment_same; apply extractDepartment_string|].
  split; [apply first_keyword_closed|].
  split; [|split; reflexivity].
  intros A.
  change (Demo.identifyDepartment (VStr location))
    with (Importer.extractDepartment (VStr location)).
  rewrite extractDepartment_string, (first_keyword_ascii location A).
  split; reflexivity.
Qed.

End DepartmentProofs.

(* ===================================================================== *)
(** ** Facts about objects                                                *)
(* ===================================================================== *)

Module ObjFacts.
Import JS.

Lemma get_set_same (o : obj) (k : string) (v : jsval) : get (set o k v) k = v.
Proof.
  induction o as [|[k' v'] o IH]; simpl.
  - rewrite String.eqb_refl. reflexivity.
  - destruct (String.eqb_spec k' k) as [->|N]; simpl.
    + rewrite String.eqb_refl. reflexivity.
    + destruct (String.eqb_spec k' k); [contradiction|]. exact IH.
Qed.

Lemma get_set_other (o : obj) (k k0 : string) (v : jsval) :
  k <> k0 -> get (set o k v) k0 = get o k0.
Proof.
  intros N. induction o as [|[k' v'] o IH]; simpl.
  - destruct (String.eqb_spec k k0); [contradiction|reflexivity].
  - destruct (String.eqb_spec k' k) as [->|N']; simpl.
    + destruct (String.eqb_spec k k0); [contradiction|reflexivity].
    + destruct (String.eqb_spec k' k0); [reflexivity|exact IH].
Qed.

Lemma has_set_other (o : obj) (k k0 : string) (v : jsval) :
  k <> k0 -> has (set o k v) k0 = has o k0.
Proof.
  intros N. induction o as [|[k' v'] o IH]; simpl.
  - destruct (String.eqb_spec k k0); [contradiction|reflexivity].
  - destruct (String.eqb_spec k' k) as [->|N']; simpl.
    + destruct (String.eqb_spec k k0); [contradiction|reflexivity].
    + rewrite IH. reflexivity.
Qed.

Lemma has_delete_same (o : obj) (k : string) : has (delete o k) k = false.
Proof.
  induction o as [|[k' v'] o IH]; simpl; [reflexivity|].
  destruct (String.eqb_spec k' k) as [->|N]; simpl; [exact IH|].
  destruct (String.eqb_spec k' k); [contradiction|exact IH].
Qed.

Lemma has_delete_other (o : obj) (k k0 : string) :
  k <> k0 -> has (delete o k) k0 = has o k0.
Proof.
  intros N. induction o as [|[k' v'] o IH]; simpl; [reflexivity|].
  destruct (String.eqb_spec k' k) as [->|N']; simpl.
  - destruct (String.eqb_spec k k0); [contradiction|exact IH].
  - rewrite IH. reflexivity.
Qed.

Lemma get_delete_other (o : obj) (k k0 : string) :
  k <> k0 -> get (delete o k) k0 = get o k0.
Proof.
  intros N. induction o as [|[k' v'] o IH]; simpl; [reflexivity|].
  destruct (String.eqb_spec k' k) as [->|N']; simpl.
  - destruct (String.eqb_spec k k0); [contradiction|exact IH].
  - destruct (String.eqb_spec k' k0); [reflexivity|exact IH].
Qed.

(** A key that is absent reads as [undefined]. *)
Lemma get_absent (o : obj) (k : string) : has o k = false -> get o k = VUndef.
Proof.
  induction o as [|[k' v'] o IH]; simpl; [reflexivity|].
  destruct (String.eqb_spec k' k); simpl; [discriminate|exact IH].
Qed.

Lemma in_keys_set (o : obj) (k k0 : string) (v : jsval) :
  In k0 (keys (set o k v)) -> k0 = k \/ In k0 (keys o).
Proof.
  induction o as [|[k' v'] o IH]; simpl.
  - intros [E|[]]; auto.
  - destruct (String.eqb_spec k' k) as [->|N]; simpl.
    + intros [E|I]; auto.
    + intros [E|I]; auto. destruct (IH I); auto.
Qed.

(** The properties written by [assign] leave the other keys alone. *)
Lemma get_assign_other (props : list (string * jsval)) (o : obj) (k0 : string) :
  ~ In k0 (map fst props) -> get (assign o props) k0 = get o k0.
Proof.
  unfold assign. revert o.
  induction props as [|[k v] props IH]; intros o N; simpl; [reflexivity|].
  rewrite IH by (intros I; apply N; right; exact I).
  apply get_set_other. intros E. apply N. left. exact E.
Qed.

Lemma has_assign_other (props : list (string * jsval)) (o : obj) (k0 : string) :
  ~ In k0 (map fst props) -> has (assign o props) k0 = has o k0.
Proof.
  unfold assign. revert o.
  induction props as [|[k v] props IH]; intros o N; simpl; [reflexivity|].
  rewrite IH by (intros I; apply N; right; exact I).
  apply has_set_other. intros E. apply N. left. exact E.
Qed.

End ObjFacts.

(* ===================================================================== *)
(** ** C9, C6: the export renderer                                        *)
(* ===================================================================== *)

Module ExportProofs.
Import JS Eff Spec StringFacts ObjFacts.

Lemma replaceAll_double (s : string) :
  replaceAll dquote (String dquote (str1 dquote)) s = double_quotes s.
Proof.
  induction s as [|c s IH]; [reflexivity|].
  cbn [replaceAll double_quotes].
  rewrite IH. destruct (Ascii.eqb c dquote); reflexivity.
Qed.

(** Doubling the quotes neither adds nor removes a character. *)
Lemma has_char_double (c : ascii) (s : string) :
  has_char c (double_quotes s) = has_char c s.
Proof.
  induction s as [|x s IH]; [reflexivity|].
  cbn [double_quotes has_char].
  destruct (Ascii.eqb_spec x dquote) as [->|N]; cbn [has_char]; rewrite IH.
  - destruct (Ascii.eqb dquote c); reflexivity.
  - reflexivity.
Qed.

Lemma double_without_quote (s : string) :
  has_char dquote s = false -> double_quotes s = s.
Proof.
  induction s as [|x s IH]; [reflexivity|].
  cbn [double_quotes has_char].
  destruct (Ascii.eqb x dquote); cbn [orb]; [discriminate|].
  intros H. rewrite IH by exact H. reflexivity.
Qed.

(** The escaping of the source is the RFC 4180 rule. *)
Lemma escape_rfc4180 (s : string) : Portal.escape s = rfc4180 s.
Proof.
  unfold Portal.escape. rewrite replaceAll_double.
  change "," with (str1 ","%char).
  rewrite !includes_char, !has_char_double.
  unfold rfc4180, needs_quotes.
  destruct (has_char ","%char s), (has_char dquote s) eqn:Q, (has_char newline s);
    simpl; try reflexivity.
  apply double_without_quote, Q.
Qed.

(** A value that [get] finds is a property of the object itself. *)
Lemma own_of_get (o : obj) (k : string) :
  get o k <> VUndef -> own o k = Some (get o k).
Proof.
  induction o as [|[k' v] o IH]; simpl; [congruence|].
  destruct (k' =? k)%string; [reflexivity|exact IH].
Qed.

Lemma csv_cell_string (record : obj) (col s : string) :
  get record col = VStr s -> Portal.csv_cell record col = rfc4180 s.
Proof.
  intros G. unfold Portal.csv_cell, property_of.
  rewrite own_of_get by (rewrite G; discriminate). rewrite G.
  cbn [value_truthy value_string jsval_Value truthy].
  destruct s; [reflexivity|apply escape_rfc4180].
Qed.




(** *** The Excel filter, after the renaming of the kept columns *)

Lemma prefix_before_blank (w key : string) :
  has_char " "%char w = false ->
  prefix w (replaceFirst "_" " " key) = true -> prefix w key = true.
Proof.
  revert w. induction key as [|c key IH]; intros [|x w] B; simpl; auto.
  destruct (Ascii.eqb_spec c "_"%char) as [->|N]; simpl.
  - destruct (ascii_dec x " "%char) as [->|N']; [|discriminate].
    simpl in B. discriminate.
  - destruct (ascii_dec x c); [|discriminate].
    simpl in B. apply orb_false_iff in B. apply IH, B.
Qed.

Lemma includes_before_rename (w key : string) :
  has_char " "%char w = false ->
  includes (replaceFirst "_" " " key) w = true -> includes key w = true.
Proof.
  intros B. induction key as [|c key IH].
  - simpl. auto.
  - cbn [replaceFirst]. destruct (Ascii.eqb_spec c "_"%char) as [->|N].
    + change (" " ++ key) with (String " " key). cbn [includes].
      intros H. apply orb_true_iff in H. apply orb_true_iff.
      destruct H as [H|H]; [|right; exact H].
      destruct w as [|x w]; [left; reflexivity|].
      simpl in H. destruct (ascii_dec x " "%char) as [->|]; [|discriminate].
      simpl in B. discriminate.
    + cbn [includes]. intros H. apply orb_true_iff in H. apply orb_true_iff.
      destruct H as [H|H].
      * left. apply (prefix_before_blank w (String c key) B).
        cbn [replaceFirst]. destruct (Ascii.eqb_spec c "_"%char); [contradiction|].
        exact H.
      * right. apply IH, H.
Qed.

Lemma renamed_underscore_first (key : string) :
  underscore_first (replaceFirst "_" " " key) = false.
Proof.
  induction key as [|c key IH]; simpl; [reflexivity|].
  destruct (Ascii.eqb_spec c "_"%char) as [->|N]; simpl; [reflexivity|].
  destruct (Ascii.eqb_spec c "_"%char); [contradiction|].
  destruct (Ascii.eqb c " "); [reflexivity|exact IH].
Qed.

Lemma renamed_not_sensitive (key : string) :
  Portal.excel_keeps key = true ->
  sensitive_name (replaceFirst "_" " " key) = false.
Proof.
  unfold Portal.excel_keeps, sensitive_name. intros K.
  apply andb_true_iff in K. destruct K as [K A].
  apply andb_true_iff in K. destruct K as [E H].
  apply negb_true_iff in E, H.
  apply orb_false_iff. split; [apply orb_false_iff; split|].
  - destruct (includes (replaceFirst "_" " " key) "encrypted") eqn:X; [|reflexivity].
    apply includes_before_rename in X; [congruence|reflexivity].
  - destruct (includes (replaceFirst "_" " " key) "hash") eqn:X; [|reflexivity].
    apply includes_before_rename in X; [congruence|reflexivity].
  - apply String.eqb_neq. intros X.
    pose proof (renamed_underscore_first key) as U. rewrite X in U. discriminate.
Qed.

Lemma clean_fold_keys (record : obj) (ks : list string) (acc : obj) (k : string) :
  In k (keys (fold_left
                (fun cleanRecord key =>
                   if Portal.excel_keeps key
                   then set cleanRecord (replaceFirst "_" " " key) (get record key)
                   else cleanRecord) ks acc)) ->
  In k (keys acc)
  \/ exists key, In key ks /\ Portal.excel_keeps key = true
                 /\ k = replaceFirst "_" " " key.
Proof.
  revert acc. induction ks as [|key ks IH]; intros acc; simpl; [auto|].
  intros I. destruct (IH _ I) as [J|(key' & J & K & E)].
  - destruct (Portal.excel_keeps key) eqn:K; [|auto].
    destruct (in_keys_set _ _ _ _ J) as [E|J']; [|auto].
    right. exists key. auto.
  - right. exists key'. auto.
Qed.

(** No column of the Excel data sheet has a sensitive name. *)
Lemma exportToExcel_excludes (data : list obj) (r : obj) (k : string) :
  In r (Portal.exportToExcel data) -> In k (keys r) -> sensitive_name k = false.
Proof.
  unfold Portal.exportToExcel. intros I K.
  apply in_map_iff in I. destruct I as (record & <- & _).
  unfold Portal.clean_record in K.
  destruct (clean_fold_keys _ _ _ _ K) as [[]|(key & _ & E & ->)].
  apply renamed_not_sensitive, E.
Qed.

(** The CSV header leaves out the four listed names, and only those. *)
Lemma csv_columns_spec {V : Type} (first : list (string * V)) (k : string) :
  In k (Portal.csv_columns first)
  <-> In k (keys first) /\ ~ In k Portal.excludeFields.
Proof.
  unfold Portal.csv_columns. rewrite filter_In.
  unfold Portal.excluded. split; intros [I N]; split; auto.
  - intros J. apply negb_true_iff in N.
    assert (X : existsb (String.eqb k) Portal.excludeFields = true).
    { apply existsb_exists. exists k. split; [exact J|apply String.eqb_refl]. }
    congruence.
  - apply negb_true_iff. destruct (existsb _ _) eqn:X; [|reflexivity].
    apply existsb_exists in X. destruct X as (x & J & E).
    apply String.eqb_eq in E. subst x. contradiction.
Qed.

(** C6 at a record set with a column [email_hash]: the CSV export
    writes the column, name and value, although its name contains
    "hash"; it leaves out [data_hash], which is on its list; the Excel
    export of the same records leaves both out. *)
Theorem C6_csv_keeps_unlisted_hash_column :
  sensitive_name "email_hash" = true
  /\ Portal.exportToCSV Samples.export2
     = Ok ("id,email_hash" ++ str1 newline ++ "1,abc" ++ str1 newline)
  /\ Portal.exportToExcel Samples.export2 = [[("id", VNum 1)]].
Proof. repeat split. Qed.

End ExportProofs.

(* ===================================================================== *)
(** ** C2: security classification                                        *)
(* ===================================================================== *)

Module ClassifyProofs.
Import JS Eff Spec.

(** C2 as stated fails: the record of [Samples.row1] has both an [@]
    and the word "confidential" in its serialization, and is classified
    internal. *)
Lemma C2_counterexample :
  includes (toLowerCase (JSON_stringify Samples.record1)) "confidential" = true
  /\ includes (toLowerCase (JSON_stringify Samples.record1)) "@" = true
  /\ Importer.classifyRecord Samples.record1 <> "confidential".
Proof.
  split; [reflexivity|]. split; [reflexivity|].
  vm_compute. discriminate.
Qed.

(** C2, amended.  The classifier looks for personal data first: it
    returns "internal" whenever the lower-cased serialization of the
    record contains [@] or "email"; otherwise "confidential" when it
    contains "confidential" or "sensitive"; otherwise "internal".  So
    "confidential" is returned exactly for a record with a keyword and
    without personal data, and a record with both [@] and
    "confidential" is classified "internal". *)
Theorem C2_classification_amended :
  forall record : obj,
    let content := toLowerCase (JSON_stringify record) in
    let personal := includes content "@" || includes content "email" in
    let keyword := includes content "confidential" || includes content "sensitive" in
    (Importer.classifyRecord record = "confidential"
       <-> personal = false /\ keyword = true)
    /\ (Importer.classifyRecord record = "internal"
       <-> personal = true \/ keyword = false)
    /\ Importer.classifyRecord Samples.record1 = "internal".
Proof.
  intros record content personal keyword.
  unfold Importer.classifyRecord.
  fold content. fold personal. fold keyword.
  destruct personal, keyword; repeat split; intros; auto;
    try discriminate; intuition discriminate.
Qed.

End ClassifyProofs.

(* ===================================================================== *)
(** ** C5: date normalization                                             *)
(* ===================================================================== *)

Module DateProofs.
Import JS Eff Spec.
Import Importer.

(** [parseDate] on a string: blank gives null; otherwise the Date
    decides. *)
Lemma parseDate_string (h : host) (s : string) (st : importStats) :
  parseDate h (VStr s) st =
  if (trim s =? "")%string then (Ok VNull, st)
  else
    match JSDate.new_Date (date_engine h) (clean_date (trim s)) with
    | None => (Ok VNull, incr_warnings st)
    | Some t => (Ok (VStr (JSDate.toISOString_date t)), st)
    end.
Proof.
  destruct s as [|c s]; [reflexivity|].
  unfold parseDate. cbn [truthy negb String.eqb].
  destruct (trim (String c s) =? "")%string; [reflexivity|].
  destruct (JSDate.new_Date _ _); reflexivity.
Qed.

Lemma new_Date_iso (engine : string -> option Z) (s : string) (t : Z) :
  JSDate.parse_iso_date s = Some t ->
  JSDate.new_Date engine s = JSDate.TimeClip t.
Proof. intros E. unfold JSDate.new_Date, JSDate.parse. rewrite E. reflexivity. Qed.

(** Every calendar day of 2000..2099, checked by evaluation. *)
Lemma all_dates_read :
  forallb (fun y =>
    forallb (fun m =>
      forallb (fun d =>
        if (d <=? JSDate.days_in_month (2000 + y) m)%Z
        then ddmmmyy_reads d m y else true)
        (z_range 1 31))
      (z_range 1 12))
    (z_range 0 100) = true.
Proof. vm_compute. reflexivity. Qed.

Lemma forallb_z_range (f : Z -> bool) (lo n : nat) (z : Z) :
  forallb f (z_range lo n) = true ->
  (Z.of_nat lo <= z < Z.of_nat (lo + n))%Z -> f z = true.
Proof.
  intros A H. rewrite forallb_forall in A. apply A.
  unfold z_range. apply in_map_iff.
  exists (Z.to_nat z). split; [lia|]. apply in_seq. lia.
Qed.

Lemma days_in_month_le (y m : Z) : (JSDate.days_in_month y m <= 31)%Z.
Proof.
  unfold JSDate.days_in_month.
  repeat match goal with |- context [if ?b then _ else _] => destruct b end; lia.
Qed.

Lemma ddmmmyy_reads_valid (d m y : Z) :
  (0 <= y <= 99)%Z -> (1 <= m <= 12)%Z ->
  (1 <= d <= JSDate.days_in_month (2000 + y) m)%Z ->
  ddmmmyy_reads d m y = true.
Proof.
  intros Hy Hm Hd.
  pose proof (days_in_month_le (2000 + y) m) as D31.
  pose proof all_dates_read as A.
  apply (forallb_z_range _ 0 100 y) in A; [|simpl; lia].
  apply (forallb_z_range _ 1 12 m) in A; [|simpl; lia].
  apply (forallb_z_range _ 1 31 d) in A; [|simpl; lia].
  cbv beta in A.
  destruct (Z.leb_spec d (JSDate.days_in_month (2000 + y) m)); [exact A|lia].
Qed.

Lemma parseDate_ddmmmyy (h : host) (st : importStats) (d m y : Z) :
  (0 <= y <= 99)%Z -> (1 <= m <= 12)%Z ->
  (1 <= d <= JSDate.days_in_month (2000 + y) m)%Z ->
  parseDate h (VStr (ddmmmyy d m y)) st = (Ok (VStr (iso_date d m y)), st).
Proof.
  intros Hy Hm Hd.
  pose proof (ddmmmyy_reads_valid d m y Hy Hm Hd) as R.
  unfold ddmmmyy_reads in R. apply andb_true_iff in R. destruct R as [B R].
  rewrite parseDate_string.
  apply negb_true_iff in B. rewrite B.
  destruct (JSDate.parse_iso_date (clean_date (trim (ddmmmyy d m y)))) as [t|] eqn:P;
    [|discriminate].
  rewrite (new_Date_iso _ _ _ P).
  destruct (JSDate.TimeClip t) as [t'|]; [|discriminate].
  apply String.eqb_eq in R. rewrite R. reflexivity.
Qed.

(** C5 as stated fails on the empty string: it does not parse as a
    date, and [parseDate] returns null without counting a warning. *)
Lemma C5_counterexample :
  JSDate.new_Date (date_engine Samples.host1) "" = None
  /\ parseDate Samples.host1 (VStr "") new_stats = (Ok VNull, new_stats)
  /\ warnings (snd (parseDate Samples.host1 (VStr "") new_stats))
     <> S (warnings new_stats).
Proof.
  split; [reflexivity|]. split; [reflexivity|]. simpl. discriminate.
Qed.

(** C5, amended.  [parseDate] rewrites the seven characters DDMMMYY
    through the month table to 20YY-MM-DD, so that "01OCT25" gives
    "2025-10-01" and every calendar day of 2000..2099 gives its ISO
    date, with no warning.  For every string that is not blank and that
    the Date does not read, it returns null and adds exactly 1 to
    [warnings], leaving the other statistics alone.  For a blank string
    (empty, or made of white space only, that of Unicode included: a
    blank and a no-break space, say) it returns null and counts no
    warning.  On a string it never throws. *)
Theorem C5_parseDate_amended :
  forall (h : host) (st : importStats),
    parseDate h (VStr "01OCT25") st = (Ok (VStr "2025-10-01"), st)
    /\ (forall d m y : Z,
          (0 <= y <= 99)%Z -> (1 <= m <= 12)%Z ->
          (1 <= d <= JSDate.days_in_month (2000 + y) m)%Z ->
          parseDate h (VStr (ddmmmyy d m y)) st
          = (Ok (VStr (iso_date d m y)), st))
    /\ (forall s : string,
          trim s <> "" ->
          JSDate.new_Date (date_engine h) (clean_date (trim s)) = None ->
          parseDate h (VStr s) st = (Ok VNull, incr_warnings st)
          /\ warnings (incr_warnings st) = S (warnings st))
    /\ (forall s : string,
          trim s = "" -> parseDate h (VStr s) st = (Ok VNull, st))
    /\ (forall s : string,
          exists v st', parseDate h (VStr s) st = (Ok v, st'))
    /\ (forall s : string, trim s = "" <-> all_space s = true)
    /\ parseDate h (VStr (" " ++ Samples.nbsp)) st = (Ok VNull, st).
Proof.
  intros h st.
  split; [|split; [|split; [|split; [|split; [|split; [|reflexivity]]]]]].
  - apply (parseDate_ddmmmyy h st 1 10 25); vm_compute; easy.
  - apply parseDate_ddmmmyy.
  - intros s B N. split; [|reflexivity].
    rewrite parseDate_string, N.
    destruct (String.eqb_spec (trim s) ""); [contradiction|reflexivity].
  - intros s B. rewrite parseDate_string, B. reflexivity.
  - intros s. rewrite parseDate_string.
    destruct (trim s =? "")%string; [eauto|].
    destruct (JSDate.new_Date _ _); eauto.
  - apply StringFacts.trim_blank.
Qed.

Lemma C5_parseDate_amended_witness :
  trim "not-a-date" <> ""
  /\ JSDate.new_Date (date_engine Samples.host1) (clean_date (trim "not-a-date")) = None
  /\ parseDate Samples.host1 (VStr "not-a-date") new_stats
     = (Ok VNull, incr_warnings new_stats).
Proof.
  assert (B : trim "not-a-date" <> "") by discriminate.
  assert (N : JSDate.new_Date (date_engine Samples.host1)
                (clean_date (trim "not-a-date")) = None) by reflexivity.
  split; [exact B|]. split; [exact N|].
  destruct (C5_parseDate_amended Samples.host1 new_stats) as (_ & _ & W & _).
  exact (proj1 (W "not-a-date" B N)).
Defined.

End DateProofs.

(* ===================================================================== *)
(** ** C8, C10, C4: the processing and upload loops                       *)
(* ===================================================================== *)

Module PipelineProofs.
Import JS Eff Spec ObjFacts.
Import Importer.

(** *** The batches of a list *)

Lemma concat_chunks_fuel {A} (n : nat) (fuel : nat) (l : list A) :
  0 < n -> List.length l <= fuel -> concat (chunks_fuel fuel n l) = l.
Proof.
  intros Hn. revert l. induction fuel as [|f IH]; intros l Hl.
  - destruct l; [reflexivity|simpl in Hl; lia].
  - destruct l as [|x l]; [reflexivity|].
    cbn [chunks_fuel concat]. rewrite IH.
    + apply firstn_skipn.
    + rewrite length_skipn. cbn [List.length] in *. lia.
Qed.

Lemma concat_chunks {A} (n : nat) (l : list A) :
  0 < n -> concat (chunks n l) = l.
Proof. intros Hn. apply concat_chunks_fuel; [exact Hn|lia]. Qed.

(** *** One record *)

Lemma encryptSensitiveData_cases (record : obj) (st : importStats) :
  let contact := get record "contact_organizer" in
  (truthy contact && negb (is_string contact) = false ->
   exists enc st', encryptSensitiveData record st = (Ok enc, st') /\ same_counts st st')
  /\ (truthy contact && negb (is_string contact) = true ->
      exists e, encryptSensitiveData record st = (Throw e, st)).
Proof.
  intros contact. unfold encryptSensitiveData. fold contact.
  destruct contact as [| |b|z|s]; cbn [truthy negb is_string andb].
  - split; [intros _|discriminate]. exists record, st. repeat split.
  - split; [intros _|discriminate]. exists record, st. repeat split.
  - destruct b; cbn [negb andb]; split; try discriminate; intros _.
    + eexists. reflexivity.
    + exists record, st. repeat split.
  - destruct (z =? 0)%Z; cbn [negb andb]; split; try discriminate; intros _.
    + exists record, st. repeat split.
    + eexists. reflexivity.
  - rewrite andb_false_r. split; [intros _|discriminate].
    destruct (negb (negb (s =? "")%string)); [exists record, st; repeat split|].
    destruct (includes s "@").
    + eexists. eexists. split; [reflexivity|]. repeat split.
    + exists record, st. repeat split.
Qed.

Lemma extractDepartment_cases (location : jsval) :
  (truthy location && negb (is_string location) = false ->
   exists d, extractDepartment location = Ok d)
  /\ (truthy location && negb (is_string location) = true ->
      exists e, extractDepartment location = Throw e).
Proof.
  unfold extractDepartment.
  destruct location as [| |b|z|s]; cbn [truthy negb is_string andb].
  - split; [eauto|discriminate].
  - split; [eauto|discriminate].
  - destruct b; cbn [negb andb]; split; try discriminate; eauto.
  - destruct (z =? 0)%Z; cbn [negb andb]; split; try discriminate; eauto.
  - rewrite andb_false_r. split; [intros _|discriminate].
    destruct (negb (negb (s =? "")%string)); [eauto|].
    repeat match goal with
           | |- context [if includes ?a ?b then _ else _] => destruct (includes a b)
           end; eauto.
Qed.

(** [secure_record] returns on a row that does not fail and throws on
    a row that fails; neither touches [processedRecords] or [errors]. *)
Lemma secure_record_cases (h : host) (batchId : string) (i : nat)
    (record : obj) (st : importStats) :
  (row_fails record = false ->
   exists sec st', secure_record h batchId i record st = (Ok sec, st')
                   /\ same_counts st st')
  /\ (row_fails record = true ->
      exists e st', secure_record h batchId i record st = (Throw e, st')
                    /\ same_counts st st').
Proof.
  unfold row_fails, secure_record, bind, lift, ret.
  destruct (encryptSensitiveData_cases record st) as [EO ET].
  destruct (extractDepartment_cases (get record "location")) as [DO DT].
  cbv zeta in EO, ET.
  destruct (truthy (get record "contact_organizer")
            && negb (is_string (get record "contact_organizer"))).
  - destruct (ET eq_refl) as (e & ->). cbn [orb]. split; [discriminate|].
    intros _. exists e, st. repeat split.
  - destruct (EO eq_refl) as (enc & st' & -> & S). cbn [orb].
    destruct (truthy (get record "location")
              && negb (is_string (get record "location"))).
    + destruct (DT eq_refl) as (e & ->). split; [discriminate|].
      intros _. exists e, st'. split; [reflexivity|exact S].
    + destruct (DO eq_refl) as (d & ->). split; [|discriminate].
      intros _. eexists. exists st'. split; [reflexivity|exact S].
Qed.

Lemma secure_record_throws_iff (h : host) (batchId : string) (i : nat)
    (record : obj) (st : importStats) :
  row_fails record = true
  <-> exists e st', secure_record h batchId i record st = (Throw e, st').
Proof.
  destruct (secure_record_cases h batchId i record st) as [O T]. split.
  - intros F. destruct (T F) as (e & st' & E & _). eauto.
  - intros (e & st' & E). destruct (row_fails record); [reflexivity|].
    destruct (O eq_refl) as (sec & st'' & E' & _). congruence.
Qed.

(** One turn of the loop: a row that passes adds one record and one to
    [processedRecords]; a row that fails adds one to [errors] and leaves
    the array as it was.  The turn itself never throws. *)
Lemma process_record_cases (h : host) (batchId : string) (i : nat)
    (record : obj) (acc : list obj) (st : importStats) :
  exists out st',
    process_record h batchId i record acc st = (Ok (acc ++ out)%list, st')
    /\ List.length out = (if row_fails record then 0 else 1)
    /\ processedRecords st' = processedRecords st + List.length out
    /\ errors st' = errors st + (if row_fails record then 1 else 0)
    /\ totalRecords st' = totalRecords st
    /\ (forall acc2, process_record h batchId i record acc2 st
                     = (Ok (acc2 ++ out)%list, st')).
Proof.
  unfold process_record, try_catch, bind, modify, ret.
  destruct (secure_record_cases h batchId i record st) as [O T].
  destruct (row_fails record).
  - destruct (T eq_refl) as (e & st' & -> & P & E & T').
    exists [], (add_errors 1 st'). rewrite app_nil_r.
    repeat split; simpl; try lia.
    intros acc2. rewrite app_nil_r. reflexivity.
  - destruct (O eq_refl) as (sec & st' & -> & P & E & T').
    exists [sec], (incr_processedRecords st').
    repeat split; simpl; lia.
Qed.

(** *** The loops *)

Lemma process_batch_spec (h : host) (batchId : string) (batch : list obj) :
  forall (i : nat) (acc : list obj) (st : importStats),
  exists out st',
    process_batch h batchId i batch acc st = (Ok (acc ++ out)%list, st')
    /\ List.length out = count_passing batch
    /\ processedRecords st' = processedRecords st + count_passing batch
    /\ errors st' = errors st + count_failing batch
    /\ totalRecords st' = totalRecords st
    /\ (forall acc2, process_batch h batchId i batch acc2 st
                     = (Ok (acc2 ++ out)%list, st')).
Proof.
  induction batch as [|record rest IH]; intros i acc st.
  - exists [], st. unfold count_passing, count_failing. simpl.
    rewrite app_nil_r. repeat split; try lia.
    intros acc2. rewrite app_nil_r. reflexivity.
  - destruct (process_record_cases h batchId i record acc st)
      as (o1 & st1 & E1 & L1 & P1 & R1 & T1 & A1).
    destruct (IH (S i) (acc ++ o1)%list st1)
      as (o2 & st2 & E2 & L2 & P2 & R2 & T2 & A2).
    exists (o1 ++ o2)%list, st2.
    cbn [process_batch]. unfold bind at 1. rewrite E1, E2.
    unfold count_passing, count_failing in *. cbn [filter].
    destruct (row_fails record); cbn [negb List.length] in *;
      rewrite ?length_app, ?app_assoc; repeat split; try lia;
      intros acc2; unfold bind; rewrite A1, A2, ?app_assoc; reflexivity.
Qed.

(** Appending rows appends to the outcome: what the earlier rows gave
    is kept whatever follows. *)
Lemma process_batch_app (h : host) (batchId : string) (l1 l2 : list obj) :
  forall (i : nat) (acc : list obj) (st : importStats),
    process_batch h batchId i (l1 ++ l2) acc st =
    match process_batch h batchId i l1 acc st with
    | (Ok acc1, st1) => process_batch h batchId (i + List.length l1) l2 acc1 st1
    | (Throw e, st1) => (Throw e, st1)
    | (Uncaught e, st1) => (Uncaught e, st1)
    end.
Proof.
  induction l1 as [|record rest IH]; intros i acc st.
  - simpl. rewrite Nat.add_0_r. reflexivity.
  - cbn [app process_batch List.length]. unfold bind.
    destruct (process_record h batchId i record acc st) as [[acc1|e|e] st1];
      [|reflexivity..].
    rewrite IH. replace (S i + List.length rest) with (i + S (List.length rest)) by lia.
    reflexivity.
Qed.

(** The batches of [processRecords] are processed as the list itself. *)
Lemma process_batches_flat (h : host) (batchId : string) (n : nat) :
  0 < n ->
  forall (fuel : nat) (l : list obj) (i : nat) (acc : list obj) (st : importStats),
    List.length l <= fuel ->
    process_batches h batchId i (chunks_fuel fuel n l) acc st
    = process_batch h batchId i l acc st.
Proof.
  intros Hn. induction fuel as [|f IH]; intros l i acc st Hl.
  - destruct l; [reflexivity|simpl in Hl; lia].
  - destruct l as [|x l]; [reflexivity|].
    cbn [chunks_fuel process_batches]. unfold bind.
    transitivity
      (process_batch h batchId i (firstn n (x :: l) ++ skipn n (x :: l)) acc st);
      [|rewrite firstn_skipn; reflexivity].
    rewrite process_batch_app.
    destruct (process_batch h batchId i (firstn n (x :: l)) acc st)
      as [[acc1|e|e] st1]; [|reflexivity..].
    apply IH. rewrite length_skipn. cbn [List.length] in *. lia.
Qed.

Lemma processRecords_flat (h : host) (records : list obj) (st : importStats) :
  processRecords h records st
  = process_batch h ("import_" ++ dec (now h)) 0 records [] st.
Proof.
  unfold processRecords, chunks, batchSize.
  apply process_batches_flat; lia.
Qed.

Lemma count_split (records : list obj) :
  count_passing records + count_failing records = List.length records.
Proof.
  unfold count_passing, count_failing.
  induction records as [|r l IH]; simpl; [reflexivity|].
  destruct (row_fails r); simpl; lia.
Qed.

Lemma processRecords_spec (h : host) (records : list obj) (st : importStats) :
  exists out st',
    processRecords h records st = (Ok out, st')
    /\ List.length out = count_passing records
    /\ processedRecords st' = processedRecords st + count_passing records
    /\ errors st' = errors st + count_failing records
    /\ totalRecords st' = totalRecords st.
Proof.
  rewrite processRecords_flat.
  destruct (process_batch_spec h ("import_" ++ dec (now h)) records 0 [] st)
    as (out & st' & E & L & P & R & T & _).
  exists out, st'. auto.
Qed.

Lemma processRecords_prefix (h : host) (records more : list obj)
    (st : importStats) (out : list obj) (st1 : importStats) :
  processRecords h records st = (Ok out, st1) ->
  exists out2 st2,
    processRecords h (records ++ more) st = (Ok (out ++ out2)%list, st2).
Proof.
  rewrite !processRecords_flat, process_batch_app. intros ->.
  destruct (process_batch_spec h ("import_" ++ dec (now h)) more
              (0 + List.length records) out st1) as (o2 & st2 & E & _).
  eauto.
Qed.

(** *** The upload *)

Lemma upload_batches_spec (h : host) (batches : list (list obj)) :
  forall (k uploadedCount : nat) (st : importStats),
  exists st',
    upload_batches h k batches uploadedCount st
    = (Ok (uploadedCount + count_uploaded (upload_throws h) k batches), st')
    /\ errors st' = errors st + count_rejected (upload_throws h) k batches
    /\ processedRecords st' = processedRecords st
    /\ totalRecords st' = totalRecords st.
Proof.
  induction batches as [|batch rest IH]; intros k c st.
  - exists st. simpl. unfold ret. rewrite !Nat.add_0_r. auto.
  - cbn [upload_batches count_uploaded count_rejected].
    unfold bind, try_catch, throw, ret, modify.
    destruct (upload_throws h k).
    + destruct (IH (S k) c (add_errors (List.length batch) st))
        as (st' & E & R & P & T).
      exists st'. rewrite E. simpl in *. repeat split; try lia. 
    + destruct (IH (S k) (c + List.length batch) st) as (st' & E & R & P & T).
      exists st'. rewrite E. repeat split; try lia.
      f_equal. f_equal. lia.
Qed.

Lemma count_upload_split (throws : nat -> bool) (batches : list (list obj)) :
  forall k,
    count_uploaded throws k batches + count_rejected throws k batches
    = List.length (concat batches).
Proof.
  induction batches as [|b r IH]; intros k; simpl; [reflexivity|].
  rewrite length_app. specialize (IH (S k)). destruct (throws k); lia.
Qed.

Lemma uploadToDatabase_spec (h : host) (processed : list obj) (st : importStats) :
  exists st',
    uploadToDatabase h processed st
    = (Ok (count_uploaded (upload_throws h) 0 (chunks 50 processed)), st')
    /\ errors st' = errors st
                    + count_rejected (upload_throws h) 0 (chunks 50 processed)
    /\ processedRecords st' = processedRecords st
    /\ totalRecords st' = totalRecords st
    /\ count_uploaded (upload_throws h) 0 (chunks 50 processed)
       + count_rejected (upload_throws h) 0 (chunks 50 processed)
       = List.length processed.
Proof.
  unfold uploadToDatabase.
  destruct (upload_batches_spec h (chunks 50 processed) 0 0 st) as (st' & E & R & P & T).
  exists st'. rewrite E. repeat split; auto.
  rewrite count_upload_split, concat_chunks; [reflexivity|lia].
Qed.

(** *** Reading the file *)

Lemma parseDate_counts (h : host) (v : jsval) (st : importStats) :
  same_counts st (snd (parseDate h v st)).
Proof.
  unfold parseDate.
  destruct (negb (truthy v)); [repeat split|].
  destruct v as [| |b|z|s]; [repeat split..|].
  destruct (trim s =? "")%string; [repeat split|].
  destruct (JSDate.new_Date _ _); repeat split.
Qed.

Lemma record_of_row_counts (h : host) (row : obj) (st : importStats) :
  same_counts st (snd (record_of_row h row st)).
Proof.
  unfold record_of_row, bind, ret.
  pose proof (parseDate_counts h (get row "When did the event occur?") st) as A.
  destruct (parseDate h (get row "When did the event occur?") st) as [[v1|e|e] st1];
    [|exact A..].
  pose proof (parseDate_counts h (get row "When was the event detected?") st1) as B.
  destruct (parseDate h (get row "When was the event detected?") st1) as [[v2|e|e] st2];
    simpl in *; unfold same_counts in *; intuition congruence.
Qed.

Lemma mapM_records (h : host) (rows : list obj) :
  forall st,
    same_counts st (snd (mapM (record_of_row h) rows st))
    /\ forall records, fst (mapM (record_of_row h) rows st) = Ok records ->
                       List.length records = List.length rows.
Proof.
  induction rows as [|row rows IH]; intros st.
  - simpl. split; [repeat split|]. intros records E. inversion E. reflexivity.
  - cbn [mapM]. unfold bind, ret.
    pose proof (record_of_row_counts h row st) as A.
    destruct (record_of_row h row st) as [[r|e|e] st1]; simpl in A.
    + destruct (IH st1) as [B L].
      destruct (mapM (record_of_row h) rows st1) as [[rs|e|e] st2]; simpl in *.
      * split; [unfold same_counts in *; intuition congruence|].
        intros records E. inversion E. simpl. f_equal. apply L. reflexivity.
      * split; [unfold same_counts in *; intuition congruence|discriminate].
      * split; [unfold same_counts in *; intuition congruence|discriminate].
    + split; [exact A|discriminate].
    + split; [exact A|discriminate].
Qed.

(** [readCSVFile] yields one record per row and changes neither
    [processedRecords] nor [errors] nor [totalRecords]. *)
Lemma readCSVFile_spec (h : host) (st : importStats) (records : list obj)
    (st1 : importStats) :
  readCSVFile h st = (Ok records, st1) ->
  same_counts st st1
  /\ exists rows, csv_rows h = Ok rows /\ List.length records = List.length rows.
Proof.
  unfold readCSVFile, bind, lift, throw.
  destruct (csv_rows h) as [rows|e|e];
    [|destruct (mapM _ _ st) as [[rs|e'|e'] st']; discriminate..].
  intros E. destruct (mapM_records h rows st) as [A L].
  rewrite E in A, L. simpl in A, L. split; [exact A|].
  exists rows. split; [reflexivity|]. apply L. reflexivity.
Qed.

(** The sample record is the one read from the sample row, with one
    warning for its second date. *)
Lemma record1_is_read :
  readCSVFile Samples.host1 new_stats
  = (Ok [Samples.record1], incr_warnings new_stats).
Proof. vm_compute. reflexivity. Qed.

(** *** importData *)

(** C4 as stated fails: a completed run on [Samples.host1] returns an
    object with the fields success, totalRecords, uploadedRecords and
    errors; processedRecords, encryptedFields and warnings are not in
    it. *)
Lemma C4_counterexample :
  fst (importData Samples.host1 new_stats)
  = Ok [("success", VBool true); ("totalRecords", VNum 1);
        ("uploadedRecords", VNum 1); ("errors", VNum 0)]
  /\ (forall result, fst (importData Samples.host1 new_stats) = Ok result ->
        keys result <> statistics_fields
        /\ has result "processedRecords" = false
        /\ has result "encryptedFields" = false
        /\ has result "warnings" = false).
Proof.
  assert (E : fst (importData Samples.host1 new_stats)
              = Ok [("success", VBool true); ("totalRecords", VNum 1);
                    ("uploadedRecords", VNum 1); ("errors", VNum 0)])
    by (vm_compute; reflexivity).
  split; [exact E|].
  intros result R. rewrite E in R. inversion R. subst result.
  repeat split. discriminate.
Qed.

(** Nothing in the handler of a row raises an error outside the call
    chain. *)
Lemma parseDate_settles (h : host) (v : jsval) (st : importStats) :
  forall e st', parseDate h v st <> (Uncaught e, st').
Proof.
  intros e st'. unfold parseDate, ret, throw, bind, modify.
  destruct (negb (truthy v)); [discriminate|].
  destruct v as [| |b|z|s]; try discriminate.
  destruct (trim s =? "")%string; [discriminate|].
  destruct (JSDate.new_Date _ _); discriminate.
Qed.

Lemma mapM_settles (h : host) (rows : list obj) :
  forall st e st', mapM (record_of_row h) rows st <> (Uncaught e, st').
Proof.
  induction rows as [|row rows IH]; intros st e st'; [discriminate|].
  cbn [mapM]. unfold record_of_row at 1. unfold bind, ret.
  pose proof (parseDate_settles h (get row "When did the event occur?") st) as P1.
  destruct (parseDate h (get row "When did the event occur?") st) as [[v1|e1|e1] st1];
    [|discriminate|exfalso; exact (P1 _ _ eq_refl)].
  pose proof (parseDate_settles h (get row "When was the event detected?") st1) as P2.
  destruct (parseDate h (get row "When was the event detected?") st1)
    as [[v2|e2|e2] st2];
    [|discriminate|exfalso; exact (P2 _ _ eq_refl)].
  pose proof (IH st2) as Q.
  destruct (mapM (record_of_row h) rows st2) as [[rs|e3|e3] st3];
    [discriminate|discriminate|exfalso; exact (Q _ _ eq_refl)].
Qed.

(** [readCSVFile] ends the process only on an error of the file
    stream. *)
Lemma readCSVFile_uncaught (h : host) (st st' : importStats) (message : string) :
  readCSVFile h st = (Uncaught message, st') -> csv_rows h = Uncaught message.
Proof.
  unfold readCSVFile, bind, throw, lift.
  destruct (csv_rows h) as [rows|e|e]; intros R.
  - exfalso. exact (mapM_settles h rows st _ _ R).
  - pose proof (mapM_settles h (rows_before_error h) st) as Q.
    destruct (mapM (record_of_row h) (rows_before_error h) st) as [[rs|e'|e'] st1];
      [discriminate|discriminate|exfalso; exact (Q _ _ eq_refl)].
  - pose proof (mapM_settles h (rows_before_error h) st) as Q.
    destruct (mapM (record_of_row h) (rows_before_error h) st) as [[rs|e'|e'] st1];
      [congruence|discriminate|exfalso; exact (Q _ _ eq_refl)].
Qed.

(** The three ways [importData] ends. *)
Lemma importData_cases (h : host) (st : importStats) :
  (exists uploaded rows st',
      importData h st
      = (Ok [("success", VBool true);
             ("totalRecords", VNum (Z.of_nat (totalRecords st')));
             ("uploadedRecords", VNum (Z.of_nat uploaded));
             ("errors", VNum (Z.of_nat (errors st')))], st')
      /\ csv_rows h = Ok rows
      /\ totalRecords st' = List.length rows)
  \/ (exists message st',
        importData h st
        = (Ok [("success", VBool false); ("error", VStr message)], st'))
  \/ (exists message st',
        importData h st = (Uncaught message, st')
        /\ csv_rows h = Uncaught message).
Proof.
  unfold importData, try_catch, bind, initialize, testConnection, throw, ret, modify.
  destruct (negb (truthy (SUPABASE_URL h)) || negb (truthy (SUPABASE_SERVICE_KEY h)));
    [right; left; eauto|].
  destruct (connection_ok h); cbn [negb]; [|right; left; eauto].
  destruct (readCSVFile h st) as [[records|e|e] st1] eqn:R.
  - destruct (readCSVFile_spec h st records st1 R) as (_ & rows & C & L).
    destruct (processRecords_spec h records
                (set_totalRecords (List.length records) st1))
      as (out & st2 & -> & _ & _ & _ & T2).
    destruct (uploadToDatabase_spec h out st2) as (st3 & -> & _ & _ & T3 & _).
    left. eexists. exists rows, st3. split; [reflexivity|]. split; [exact C|].
    rewrite T3, T2. simpl. exact L.
  - right; left; eauto.
  - right; right. exists e, st1. split; [reflexivity|].
    exact (readCSVFile_uncaught h st st1 e R).
Qed.

(** C4, amended.  When [importData] returns, it returns one of two
    objects: after a completed run exactly the four fields success
    (true), totalRecords, uploadedRecords and errors, where
    totalRecords is the number of rows read and errors the error count
    of [importStats] at the end; after a failure that it catches,
    success (false) and error.  The statistics processedRecords,
    encryptedFields and warnings stay in [importStats].  It never
    throws, and it returns unless the stream of the file fails: that
    error has no listener and ends the process, so that nothing is
    returned. *)
Theorem C4_import_result_amended :
  forall (h : host) (st : importStats),
    (forall result st',
        importData h st = (Ok result, st') ->
        (exists uploaded rows,
            result = [("success", VBool true);
                      ("totalRecords", VNum (Z.of_nat (totalRecords st')));
                      ("uploadedRecords", VNum (Z.of_nat uploaded));
                      ("errors", VNum (Z.of_nat (errors st')))]
            /\ csv_rows h = Ok rows
            /\ totalRecords st' = List.length rows)
        \/ (exists message,
              result = [("success", VBool false); ("error", VStr message)]))
    /\ (forall message st', importData h st <> (Throw message, st'))
    /\ ((forall message, csv_rows h <> Uncaught message) ->
        exists result st', importData h st = (Ok result, st'))
    /\ (forall message st',
          importData h st = (Uncaught message, st') ->
          csv_rows h = Uncaught message)
    /\ importData Samples.host_unreadable new_stats
       = (Uncaught "ENOENT: no such file or directory", new_stats).
Proof.
  intros h st.
  destruct (importData_cases h st)
    as [(uploaded & rows & st1 & E & C & T)
       |[(message & st1 & E)|(message & st1 & E & C)]];
    rewrite E.
  - split; [|split; [discriminate|split; [eauto|split; [discriminate|reflexivity]]]].
    intros result st' R. inversion R. subst. left. eauto.
  - split; [|split; [discriminate|split; [eauto|split; [discriminate|reflexivity]]]].
    intros result st' R. inversion R. subst. right. eauto.
  - split; [discriminate|]. split; [discriminate|]. split; [|split; [|reflexivity]].
    + intros N. exfalso. exact (N message C).
    + intros m st' R. inversion R. subst. exact C.
Qed.

(** C8.  Processing never aborts: [processRecords] returns for every
    list of records.  A record whose processing throws (a row that
    fails) adds one to [errors] and nothing to the output, and the loop
    goes on: the output has one record for every row that passes, and
    what the rows so far have produced is kept whatever rows follow.
    The upload goes through every batch: the records of a batch whose
    request throws are added to [errors], the others to the uploaded
    count, and no batch undoes another. *)
Theorem C8_failures_counted_run_continues :
  forall (h : host) (records : list obj) (st : importStats),
    (forall batchId i record st0,
        row_fails record = true
        <-> exists e st', secure_record h batchId i record st0 = (Throw e, st'))
    /\ exists out st1,
        processRecords h records st = (Ok out, st1)
        /\ errors st1 = errors st + count_failing records
        /\ processedRecords st1 = processedRecords st + count_passing records
        /\ List.length out = count_passing records
        /\ (forall before bad after,
              records = (before ++ bad :: after)%list ->
              row_fails bad = true ->
              count_failing records
              = count_failing before + 1 + count_failing after
              /\ count_passing records
                 = count_passing before + count_passing after)
        /\ (forall more, exists out2 st2,
              processRecords h (records ++ more) st = (Ok (out ++ out2)%list, st2))
        /\ exists st2,
            uploadToDatabase h out st1
            = (Ok (count_uploaded (upload_throws h) 0 (chunks 50 out)), st2)
            /\ errors st2 = errors st1
                 + count_rejected (upload_throws h) 0 (chunks 50 out)
            /\ count_uploaded (upload_throws h) 0 (chunks 50 out)
               + count_rejected (upload_throws h) 0 (chunks 50 out)
               = List.length out.
Proof.
  intros h records st. split.
  - intros batchId i record st0. apply secure_record_throws_iff.
  - destruct (processRecords_spec h records st) as (out & st1 & E & L & P & R & _).
    exists out, st1.
    split; [exact E|]. split; [exact R|]. split; [exact P|]. split; [exact L|].
    split; [|split].
    + intros before bad after -> F.
      unfold count_failing, count_passing.
      rewrite !filter_app, !length_app. cbn [filter]. rewrite F.
      cbn [negb List.length]. lia.
    + intros more. apply (processRecords_prefix h records more st out st1 E).
    + destruct (uploadToDatabase_spec h out st1) as (st2 & U & R2 & _ & _ & S).
      exists st2. auto.
Qed.

Lemma C8_failures_counted_run_continues_witness :
  row_fails Samples.bad_record = true
  /\ exists out st1,
      processRecords Samples.host1
        [Samples.record1; Samples.bad_record; Samples.record1] new_stats
      = (Ok out, st1)
      /\ errors st1 = 1
      /\ List.length out = 2.
Proof.
  split; [reflexivity|].
  destruct (C8_failures_counted_run_continues Samples.host1
              [Samples.record1; Samples.bad_record; Samples.record1] new_stats)
    as (_ & out & st1 & E & R & _ & L & _).
  exists out, st1. split; [exact E|]. split; [exact R|exact L].
Defined.

(** C10.  When the processing phase starts with [processedRecords] and
    [errors] at zero, as the constructor and [readCSVFile] leave them,
    it ends with processedRecords + errors equal to the number of input
    rows and returns an array of exactly processedRecords records. *)
Theorem C10_every_row_counted_once :
  forall (h : host) (records : list obj) (st : importStats),
    processedRecords st = 0 ->
    errors st = 0 ->
    exists out st',
      processRecords h records st = (Ok out, st')
      /\ processedRecords st' + errors st' = List.length records
      /\ List.length out = processedRecords st'.
Proof.
  intros h records st P0 E0.
  destruct (processRecords_spec h records st) as (out & st' & E & L & P & R & _).
  exists out, st'. split; [exact E|].
  pose proof (count_split records). lia.
Qed.

Lemma C10_every_row_counted_once_witness :
  processedRecords new_stats = 0
  /\ errors new_stats = 0
  /\ exists out st',
      processRecords Samples.host1 [Samples.record1; Samples.bad_record] new_stats
      = (Ok out, st')
      /\ processedRecords st' + errors st' = 2
      /\ List.length out = processedRecords st'.
Proof.
  split; [reflexivity|]. split; [reflexivity|].
  exact (C10_every_row_counted_once Samples.host1
           [Samples.record1; Samples.bad_record] new_stats eq_refl eq_refl).
Defined.

(** The importer of [main] is in that state when processing starts. *)
Lemma counters_zero_after_reading (h : host) (records : list obj)
    (st1 : importStats) :
  readCSVFile h new_stats = (Ok records, st1) ->
  processedRecords (set_totalRecords (List.length records) st1) = 0
  /\ errors (set_totalRecords (List.length records) st1) = 0.
Proof.
  intros R. destruct (readCSVFile_spec h new_stats records st1 R) as ((P & E & _) & _).
  simpl. split; assumption.
Qed.

End PipelineProofs.

(* ===================================================================== *)
(** ** C1: the contact value                                              *)
(* ===================================================================== *)

Module ContactProofs.
Import JS Eff Spec ObjFacts.
Import Importer.

(** The three shapes of the record that leaves [encryptSensitiveData]. *)
Lemma encryptSensitiveData_ok (record enc : obj) (st st' : importStats) :
  encryptSensitiveData record st = (Ok enc, st') ->
  (exists s, get record "contact_organizer" = VStr s /\ includes s "@" = true
             /\ enc = delete (set (set record "contact_organizer_encrypted"
                                       (VStr (simpleEncrypt s)))
                                  "contact_organizer_hash" (VStr (simpleHash s)))
                             "contact_organizer")
  \/ (enc = record /\ plain_contact record "contact_organizer" = false).
Proof.
  unfold encryptSensitiveData, plain_contact, bind, modify, ret, throw.
  destruct (get record "contact_organizer") as [| |b|z|s] eqn:G;
    cbn [truthy negb].
  - intros E. inversion E. auto.
  - intros E. inversion E. auto.
  - destruct b; cbn [negb]; intros E; inversion E. auto.
  - destruct (z =? 0)%Z; cbn [negb]; intros E; inversion E. auto.
  - destruct (String.eqb_spec s "") as [->|N]; cbn [negb].
    + intros E. inversion E. auto.
    + destruct (includes s "@") eqn:A; intros E; inversion E.
      * left. exists s. auto.
      * auto.
Qed.

Lemma secure_record_shape (h : host) (batchId : string) (i : nat)
    (record sec : obj) (st st' : importStats) :
  secure_record h batchId i record st = (Ok sec, st') ->
  exists enc st1 props,
    encryptSensitiveData record st = (Ok enc, st1)
    /\ sec = assign enc props
    /\ map fst props = ["department"; "security_classification"; "data_hash";
                        "import_batch"; "audit_log"].
Proof.
  unfold secure_record, bind, lift, ret.
  destruct (encryptSensitiveData record st) as [[enc|e|e] st1]; [|discriminate..].
  destruct (extractDepartment (get record "location")) as [d|e|e]; [|discriminate..].
  intros E.
  exists enc, st1,
    [("department", VStr d);
     ("security_classification", VStr (classifyRecord record));
     ("data_hash", VStr (generateDataHash record));
     ("import_batch", VStr batchId);
     ("audit_log", VStr (audit_log batchId (clock h i)))].
  split; [reflexivity|]. split; [congruence|reflexivity].
Qed.

Lemma metadata_keys (props : list (string * jsval)) (k : string) :
  map fst props = ["department"; "security_classification"; "data_hash";
                   "import_batch"; "audit_log"] ->
  k <> "department" -> k <> "security_classification" -> k <> "data_hash" ->
  k <> "import_batch" -> k <> "audit_log" ->
  ~ In k (map fst props).
Proof. intros ->. simpl. intuition congruence. Qed.

(** A record of the bulk importer whose contact has an [@] leaves
    without the field and with its two replacements. *)
Lemma secure_record_contact (h : host) (batchId : string) (i : nat)
    (record sec : obj) (st st' : importStats) (s : string) :
  get record "contact_organizer" = VStr s ->
  includes s "@" = true ->
  secure_record h batchId i record st = (Ok sec, st') ->
  has sec "contact_organizer" = false
  /\ get sec "contact_organizer_encrypted" = VStr (simpleEncrypt s)
  /\ get sec "contact_organizer_hash" = VStr (simpleHash s).
Proof.
  intros G A E.
  destruct (secure_record_shape _ _ _ _ _ _ _ E) as (enc & st1 & props & X & -> & K).
  destruct (encryptSensitiveData_ok _ _ _ _ X) as [(s' & G' & _ & ->)|[-> P]].
  - rewrite G in G'. inversion G'. subst s'.
    rewrite has_assign_other, !get_assign_other
      by (apply (metadata_keys _ _ K); discriminate).
    split; [apply has_delete_same|]. split.
    + rewrite get_delete_other, get_set_other, get_set_same by discriminate.
      reflexivity.
    + rewrite get_delete_other, get_set_same by discriminate. reflexivity.
  - unfold plain_contact in P. rewrite G in P. congruence.
Qed.

(** No record of the bulk importer has an [@] in [contact_organizer]. *)
Lemma secure_record_no_plain (h : host) (batchId : string) (i : nat)
    (record sec : obj) (st st' : importStats) :
  secure_record h batchId i record st = (Ok sec, st') ->
  plain_contact sec "contact_organizer" = false.
Proof.
  intros E.
  destruct (secure_record_shape _ _ _ _ _ _ _ E) as (enc & st1 & props & X & -> & K).
  unfold plain_contact.
  rewrite get_assign_other by (apply (metadata_keys _ _ K); discriminate).
  destruct (encryptSensitiveData_ok _ _ _ _ X) as [(s & _ & _ & ->)|[-> P]].
  - rewrite get_absent; [reflexivity|apply has_delete_same].
  - exact P.
Qed.

Lemma process_batch_no_plain (h : host) (batchId : string) (batch : list obj) :
  forall (i : nat) (acc out : list obj) (st st' : importStats),
    Forall (fun r => plain_contact r "contact_organizer" = false) acc ->
    process_batch h batchId i batch acc st = (Ok out, st') ->
    Forall (fun r => plain_contact r "contact_organizer" = false) out.
Proof.
  induction batch as [|record rest IH]; intros i acc out st st' F E.
  - inversion E. subst. exact F.
  - cbn [process_batch] in E. unfold bind in E.
    destruct (process_record h batchId i record acc st) as [[acc1|e|e] st1] eqn:R;
      [|discriminate..].
    apply (IH (S i) acc1 out st1 st'); [|exact E].
    unfold process_record, try_catch, bind, modify, ret in R.
    destruct (secure_record h batchId i record st) as [[sec|e|e] st2] eqn:S;
      inversion R; subst; [|exact F].
    apply Forall_app. split; [exact F|].
    constructor; [|constructor]. apply (secure_record_no_plain _ _ _ _ _ _ _ S).
Qed.

Lemma processRecords_no_plain (h : host) (records out : list obj)
    (st st' : importStats) :
  processRecords h records st = (Ok out, st') ->
  Forall (fun r => plain_contact r "contact_organizer" = false) out.
Proof.
  rewrite PipelineProofs.processRecords_flat.
  apply process_batch_no_plain. constructor.
Qed.

(** *** The portal *)

Lemma prepare_keeps (u : Portal.session) (formData : obj) (k : string) :
  k <> "created_by" -> k <> "department" -> k <> "security_classification" ->
  k <> "source_file" -> k <> "created_at" ->
  get (Portal.prepare u formData) k = get formData k.
Proof.
  intros. unfold Portal.prepare. apply get_assign_other.
  simpl. intuition congruence.
Qed.

Lemma submitForm_contact (u : Portal.session) (formData dbData : obj) (s : string) :
  Portal.submitForm u formData = Some dbData ->
  or_else (get formData "contact_organizer") (get formData "requester_email") = VStr s ->
  includes s "@" = true ->
  has dbData "contact_organizer" = false
  /\ has dbData "requester_email" = false
  /\ (exists enc, Portal.encryptData s = Ok enc
                  /\ get dbData "contact_organizer_encrypted" = VStr enc)
  /\ (exists hsh, Portal.hashData s = Ok hsh
                  /\ get dbData "contact_organizer_hash" = VStr hsh).
Proof.
  unfold Portal.submitForm.
  destruct (negb (Portal.isConnected u)); [discriminate|].
  destruct (negb (Portal.hasTemplate u)); [discriminate|].
  destruct (negb (Portal.formValid u)); [discriminate|].
  unfold Portal.encrypt_contact.
  rewrite !prepare_keeps by discriminate.
  intros E O A. rewrite O in E.
  assert (T : truthy (get formData "contact_organizer")
              || truthy (get formData "requester_email") = true).
  { unfold or_else in O.
    destruct (truthy (get formData "contact_organizer")); [reflexivity|].
    rewrite O. simpl. destruct s; [discriminate|reflexivity]. }
  rewrite T, A in E.
  destruct (Portal.encryptData s) as [enc|e|e]; [|discriminate..].
  destruct (Portal.hashData s) as [hsh|e|e]; [|discriminate..].
  inversion E. subst dbData. clear E.
  split; [|split; [|split]].
  - rewrite has_delete_other by discriminate. apply has_delete_same.
  - apply has_delete_same.
  - exists enc. split; [reflexivity|].
    rewrite !get_delete_other, get_set_other, get_set_same by discriminate.
    reflexivity.
  - exists hsh. split; [reflexivity|].
    rewrite !get_delete_other, get_set_same by discriminate. reflexivity.
Qed.

(** C1 as stated fails on the simplified importer: the record it
    inserts for [Samples.row1] carries the contact, with its [@], in
    the field [contact_organizer], and has no encrypted or hash field. *)
Lemma C1_counterexample :
  exists r,
    SimpleImport.inserted true [Samples.row1] = Some [[r]]
    /\ get r "contact_organizer" = VStr "a@b.c"
    /\ plain_contact r "contact_organizer" = true
    /\ has r "contact_organizer_encrypted" = false
    /\ has r "contact_organizer_hash" = false.
Proof. eexists. repeat split. Qed.

(** C1, amended.  In the bulk importer no processed record has an [@]
    in [contact_organizer]: a record whose contact has one leaves
    without that field and with [contact_organizer_encrypted] and
    [contact_organizer_hash] in its place.  In the portal, when the
    value chosen by [contact_organizer || requester_email] has an [@],
    the submitted record has neither of the two fields and carries the
    two replacements.  (The simplified importer sends the contact as it
    reads it.) *)
Theorem C1_contact_replaced_amended :
  (forall (h : host) (records out : list obj) (st st' : importStats),
      processRecords h records st = (Ok out, st') ->
      Forall (fun r => plain_contact r "contact_organizer" = false) out)
  /\ (forall (h : host) (batchId : string) (i : nat) (record sec : obj)
             (st st' : importStats) (s : string),
        get record "contact_organizer" = VStr s ->
        includes s "@" = true ->
        secure_record h batchId i record st = (Ok sec, st') ->
        has sec "contact_organizer" = false
        /\ get sec "contact_organizer_encrypted" = VStr (simpleEncrypt s)
        /\ get sec "contact_organizer_hash" = VStr (simpleHash s))
  /\ (forall (u : Portal.session) (formData dbData : obj) (s : string),
        Portal.submitForm u formData = Some dbData ->
        or_else (get formData "contact_organizer") (get formData "requester_email")
        = VStr s ->
        includes s "@" = true ->
        has dbData "contact_organizer" = false
        /\ has dbData "requester_email" = false
        /\ (exists enc, Portal.encryptData s = Ok enc
                        /\ get dbData "contact_organizer_encrypted" = VStr enc)
        /\ (exists hsh, Portal.hashData s = Ok hsh
                        /\ get dbData "contact_organizer_hash" = VStr hsh)).
Proof.
  split; [|split].
  - exact processRecords_no_plain.
  - exact secure_record_contact.
  - exact submitForm_contact.
Qed.

Lemma C1_contact_replaced_amended_witness :
  (exists out st',
      processRecords Samples.host1 [Samples.record1] new_stats = (Ok out, st')
      /\ Forall (fun r => plain_contact r "contact_organizer" = false) out)
  /\ (get Samples.record1 "contact_organizer" = VStr "a@b.c"
      /\ includes "a@b.c" "@" = true
      /\ exists sec st',
          secure_record Samples.host1 "import_1" 0 Samples.record1 new_stats
          = (Ok sec, st')
          /\ has sec "contact_organizer" = false)
  /\ (or_else (get Samples.form1 "contact_organizer")
              (get Samples.form1 "requester_email") = VStr "a@b.c"
      /\ exists dbData,
          Portal.submitForm Samples.session1 Samples.form1 = Some dbData
          /\ has dbData "contact_organizer" = false).
Proof.
  destruct C1_contact_replaced_amended as (Bulk & One & Form).
  split; [|split].
  - destruct (processRecords Samples.host1 [Samples.record1] new_stats)
      as [[out|e|e] st'] eqn:E; [|vm_compute in E; discriminate..].
    exists out, st'. split; [reflexivity|].
    exact (Bulk _ _ _ _ _ E).
  - split; [reflexivity|]. split; [reflexivity|].
    destruct (secure_record Samples.host1 "import_1" 0 Samples.record1 new_stats)
      as [[sec|e|e] st'] eqn:E; [|vm_compute in E; discriminate..].
    exists sec, st'. split; [reflexivity|].
    exact (proj1 (One Samples.host1 "import_1" 0 Samples.record1 sec new_stats st'
                      "a@b.c" eq_refl eq_refl E)).
  - split; [reflexivity|].
    destruct (Portal.submitForm Samples.session1 Samples.form1)
      as [dbData|] eqn:E; [|vm_compute in E; discriminate].
    exists dbData. split; [reflexivity|].
    exact (proj1 (Form Samples.session1 Samples.form1 dbData "a@b.c"
                       E eq_refl eq_refl)).
Defined.

End ContactProofs.

(* ===================================================================== *)
(** ** Base64: encoding and decoding                                      *)
(* ===================================================================== *)

Module Base64Proofs.
Import JS Spec Base64 Notions.

(** The characters of an encoding but for the padding. *)
Lemma b64_value_char (n : nat) : n < 64 -> b64_value (b64_char n) = Some n.
Proof.
  intros H.
  assert (A : forallb (fun k => match b64_value (b64_char k) with
                                | Some v => v =? k
                                | None => false
                                end) (seq 0 64) = true) by (vm_compute; reflexivity).
  rewrite forallb_forall in A. specialize (A n).
  destruct (b64_value (b64_char n)) as [v|].
  - f_equal. apply Nat.eqb_eq, A, in_seq. lia.
  - discriminate A. apply in_seq. lia.
Qed.

Lemma b64_char_plain (n : nat) :
  n < 64 ->
  Ascii.eqb (b64_char n) "=" = false
  /\ is_b64_space (b64_char n) = false
  /\ Ascii.eqb (b64_char n) "@" = false.
Proof.
  intros H.
  assert (A : forallb (fun k => negb (Ascii.eqb (b64_char k) "=")
                                && negb (is_b64_space (b64_char k))
                                && negb (Ascii.eqb (b64_char k) "@"))
                (seq 0 64) = true) by (vm_compute; reflexivity).
  rewrite forallb_forall in A.
  assert (I : In n (seq 0 64)) by (apply in_seq; lia).
  specialize (A n I).
  apply andb_true_iff in A. destruct A as [A C].
  apply andb_true_iff in A. destruct A as [A B].
  apply negb_true_iff in A, B, C. auto.
Qed.

Lemma code_lt (c : ascii) : code c < 256.
Proof. apply nat_ascii_bounded. Qed.

Lemma byte_code (c : ascii) : byte (code c) = c.
Proof. apply ascii_nat_embedding. Qed.

(** The four sextets of three bytes are below 64 and give the bytes
    back. *)
Lemma sextets (a b c : nat) :
  a < 256 -> b < 256 -> c < 256 ->
  a / 4 < 64
  /\ a mod 4 * 16 + b / 16 < 64
  /\ b mod 16 * 4 + c / 64 < 64
  /\ c mod 64 < 64
  /\ a / 4 * 4 + (a mod 4 * 16 + b / 16) / 16 = a
  /\ (a mod 4 * 16 + b / 16) mod 16 * 16 + (b mod 16 * 4 + c / 64) / 4 = b
  /\ (b mod 16 * 4 + c / 64) mod 4 * 64 + c mod 64 = c.
Proof.
  intros Ha Hb Hc.
  pose proof (Nat.div_mod_eq a 4). pose proof (Nat.mod_upper_bound a 4).
  pose proof (Nat.div_mod_eq b 16). pose proof (Nat.mod_upper_bound b 16).
  pose proof (Nat.div_mod_eq c 64). pose proof (Nat.mod_upper_bound c 64).
  assert (E1 : (a mod 4 * 16 + b / 16) / 16 = a mod 4).
  { rewrite Nat.add_comm, Nat.div_add by lia. rewrite Nat.div_small; lia. }
  assert (E2 : (a mod 4 * 16 + b / 16) mod 16 = b / 16).
  { rewrite Nat.add_comm, Nat.Div0.mod_add. apply Nat.mod_small. lia. }
  assert (E3 : (b mod 16 * 4 + c / 64) / 4 = b mod 16).
  { rewrite Nat.add_comm, Nat.div_add by lia. rewrite Nat.div_small; lia. }
  assert (E4 : (b mod 16 * 4 + c / 64) mod 4 = c / 64).
  { rewrite Nat.add_comm, Nat.Div0.mod_add. apply Nat.mod_small. lia. }
  rewrite E1, E2, E3, E4. repeat split; lia.
Qed.

Lemma sextets2 (a b : nat) :
  a < 256 -> b < 256 ->
  a / 4 < 64
  /\ a mod 4 * 16 + b / 16 < 64
  /\ b mod 16 * 4 < 64
  /\ a / 4 * 4 + (a mod 4 * 16 + b / 16) / 16 = a
  /\ (a mod 4 * 16 + b / 16) mod 16 * 16 + (b mod 16 * 4) / 4 = b.
Proof.
  intros Ha Hb.
  destruct (sextets a b 0 Ha Hb ltac:(lia)) as (L1 & L2 & L3 & _ & E1 & E2 & _).
  change (0 / 64) with 0 in *. rewrite Nat.add_0_r in *. auto.
Qed.

Lemma sextets1 (a : nat) :
  a < 256 ->
  a / 4 < 64
  /\ a mod 4 * 16 < 64
  /\ a / 4 * 4 + (a mod 4 * 16) / 16 = a.
Proof.
  intros Ha.
  destruct (sextets2 a 0 Ha ltac:(lia)) as (L1 & L2 & _ & E1 & _).
  change (0 / 16) with 0 in *. rewrite Nat.add_0_r in *. auto.
Qed.

(** Induction three bytes at a time. *)
Lemma string_ind3 (P : string -> Prop) :
  P "" ->
  (forall a, P (str1 a)) ->
  (forall a b, P (String a (str1 b))) ->
  (forall a b c r, P r -> P (String a (String b (String c r)))) ->
  forall s, P s.
Proof.
  intros H0 H1 H2 H3.
  fix IH 1. intros [|a [|b [|c r]]];
    [exact H0|apply H1|apply H2|apply H3, IH].
Qed.


Lemma b64_encode_length (s : string) :
  String.length (b64_encode s) = 4 * ((String.length s + 2) / 3).
Proof.
  induction s as [|a|a b|a b c r IH] using string_ind3; try reflexivity.
  cbn [b64_encode String.length]. rewrite IH.
  replace (S (S (S (String.length r))) + 2) with (String.length r + 2 + 1 * 3) by lia.
  rewrite Nat.div_add by lia. lia.
Qed.

(** An encoding has no white space, and no [@]. *)
Lemma b64_encode_chars (s : string) :
  remove_spaces (b64_encode s) = b64_encode s
  /\ has_char "@" (b64_encode s) = false.
Proof.
  induction s as [|a|a b|a b c r [IH1 IH2]] using string_ind3.
  - split; reflexivity.
  - pose proof (code_lt a) as Ha.
    destruct (sextets1 (code a) Ha) as (L1 & L2 & _).
    destruct (b64_char_plain _ L1) as (_ & S1 & A1).
    destruct (b64_char_plain _ L2) as (_ & S2 & A2).
    unfold str1. cbn [b64_encode remove_spaces has_char]. rewrite S1, S2, A1, A2.
    split; reflexivity.
  - pose proof (code_lt a) as Ha. pose proof (code_lt b) as Hb.
    destruct (sextets2 (code a) (code b) Ha Hb) as (L1 & L2 & L3 & _).
    destruct (b64_char_plain _ L1) as (_ & S1 & A1).
    destruct (b64_char_plain _ L2) as (_ & S2 & A2).
    destruct (b64_char_plain _ L3) as (_ & S3 & A3).
    unfold str1. cbn [b64_encode remove_spaces has_char]. rewrite S1, S2, S3, A1, A2, A3.
    split; reflexivity.
  - pose proof (code_lt a) as Ha. pose proof (code_lt b) as Hb.
    pose proof (code_lt c) as Hc.
    destruct (sextets (code a) (code b) (code c) Ha Hb Hc) as (L1 & L2 & L3 & L4 & _).
    destruct (b64_char_plain _ L1) as (_ & S1 & A1).
    destruct (b64_char_plain _ L2) as (_ & S2 & A2).
    destruct (b64_char_plain _ L3) as (_ & S3 & A3).
    destruct (b64_char_plain _ L4) as (_ & S4 & A4).
    unfold str1. cbn [b64_encode remove_spaces has_char].
    rewrite S1, S2, S3, S4, A1, A2, A3, A4, IH1, IH2.
    split; reflexivity.
Qed.

Lemma eqb_long (c1 c2 c3 : ascii) (r t : string) :
  String.length t < 3 ->
  (String c1 (String c2 (String c3 r)) =? t)%string = false.
Proof.
  intros H. apply String.eqb_neq. intros E. rewrite <- E in H. simpl in H. lia.
Qed.

Lemma strip_padding_encode (s : string) :
  strip_padding (b64_encode s) = b64_body s.
Proof.
  induction s as [|a|a b|a b c r IH] using string_ind3.
  - reflexivity.
  - unfold str1. cbn [b64_encode b64_body strip_padding].
    rewrite !eqb_long by (simpl; lia). reflexivity.
  - pose proof (code_lt a) as Ha. pose proof (code_lt b) as Hb.
    destruct (sextets2 (code a) (code b) Ha Hb) as (L1 & L2 & L3 & _).
    destruct (b64_char_plain _ L3) as (P3 & _).
    unfold str1. cbn [b64_encode b64_body strip_padding].
    rewrite !eqb_long by (simpl; lia).
    cbn [String.eqb orb]. rewrite P3. reflexivity.
  - pose proof (code_lt a) as Ha. pose proof (code_lt b) as Hb.
    pose proof (code_lt c) as Hc.
    destruct (sextets (code a) (code b) (code c) Ha Hb Hc) as (L1 & L2 & L3 & L4 & _).
    destruct (b64_char_plain _ L3) as (P3 & _).
    destruct (b64_char_plain _ L4) as (P4 & _).
    cbn [b64_encode b64_body strip_padding].
    rewrite !eqb_long by (simpl; lia).
    cbn [String.eqb orb]. rewrite P3, P4. cbn [andb orb].
    rewrite IH. reflexivity.
Qed.

Lemma decode_body (s : string) : b64_decode (b64_body s) = Some s.
Proof.
  induction s as [|a|a b|a b c r IH] using string_ind3.
  - reflexivity.
  - pose proof (code_lt a) as Ha.
    destruct (sextets1 (code a) Ha) as (L1 & L2 & E1).
    unfold str1. cbn [b64_body b64_decode].
    rewrite (b64_value_char _ L1), (b64_value_char _ L2), E1, byte_code.
    reflexivity.
  - pose proof (code_lt a) as Ha. pose proof (code_lt b) as Hb.
    destruct (sextets2 (code a) (code b) Ha Hb) as (L1 & L2 & L3 & E1 & E2).
    unfold str1. cbn [b64_body b64_decode].
    rewrite (b64_value_char _ L1), (b64_value_char _ L2), (b64_value_char _ L3),
      E1, E2, !byte_code.
    reflexivity.
  - pose proof (code_lt a) as Ha. pose proof (code_lt b) as Hb.
    pose proof (code_lt c) as Hc.
    destruct (sextets (code a) (code b) (code c) Ha Hb Hc)
      as (L1 & L2 & L3 & L4 & E1 & E2 & E3).
    cbn [b64_body b64_decode].
    rewrite (b64_value_char _ L1), (b64_value_char _ L2), (b64_value_char _ L3),
      (b64_value_char _ L4), IH, E1, E2, E3, !byte_code.
    reflexivity.
Qed.

(** [atob] undoes the encoding. *)
Lemma atob_encode (s : string) : atob (b64_encode s) = Some s.
Proof.
  unfold atob. rewrite (proj1 (b64_encode_chars s)), b64_encode_length.
  rewrite Nat.mul_comm, Nat.Div0.mod_mul. cbn [Nat.eqb].
  rewrite strip_padding_encode. apply decode_body.
Qed.

End Base64Proofs.

(* ===================================================================== *)
(** ** The placeholders for encryption and hashing                        *)
(* ===================================================================== *)

Module PlaceholderProofs.
Import JS Eff Spec Base64 Notions StringFacts Base64Proofs.
Import Importer.

Lemma has_char_append (c : ascii) (s t : string) :
  has_char c (s ++ t) = has_char c s || has_char c t.
Proof.
  induction s as [|x s IH]; [reflexivity|].
  cbn [append has_char]. rewrite IH, orb_assoc. reflexivity.
Qed.

Lemma has_char_substring (c : ascii) (s : string) :
  forall n m, has_char c s = false -> has_char c (substring n m s) = false.
Proof.
  induction s as [|x s IH]; intros n m H.
  - destruct n, m; reflexivity.
  - cbn [has_char] in H. apply orb_false_iff in H. destruct H as [X H].
    destruct n as [|n]; destruct m as [|m]; cbn [substring has_char];
      try reflexivity; try (apply IH, H).
    rewrite X. cbn [orb]. apply IH, H.
Qed.

Lemma substring_whole (s : string) (n : nat) :
  String.length s <= n -> substring 0 n s = s.
Proof.
  revert n. induction s as [|x s IH]; intros [|n] H; try reflexivity.
  - simpl in H. lia.
  - cbn [substring]. rewrite IH; [reflexivity|simpl in H; lia].
Qed.

Lemma substring_append_left (s t : string) :
  substring 0 (String.length s) (s ++ t) = s.
Proof.
  induction s as [|x s IH]; [destruct t; reflexivity|].
  cbn [String.length append substring]. rewrite IH. reflexivity.
Qed.

Lemma length_append (s t : string) :
  String.length (s ++ t) = String.length s + String.length t.
Proof. induction s as [|x s IH]; [reflexivity|]. simpl. rewrite IH. reflexivity. Qed.

Lemma length_substring_0 (n : nat) :
  forall s, String.length (substring 0 n s) <= n.
Proof.
  induction n as [|n IH]; intros [|x s]; cbn [substring String.length]; try lia.
  specialize (IH s). lia.
Qed.

(** Cutting an encoding after [4k] characters encodes the first [3k]
    bytes. *)
Lemma substring_encode (k : nat) :
  forall s, substring 0 (4 * k) (b64_encode s) = b64_encode (substring 0 (3 * k) s).
Proof.
  induction k as [|k IH]; intros s.
  - simpl. destruct (b64_encode s), s; reflexivity.
  - replace (4 * S k) with (S (S (S (S (4 * k))))) by lia.
    replace (3 * S k) with (S (S (S (3 * k)))) by lia.
    destruct s as [|a [|b [|c r]]].
    + reflexivity.
    + cbn [b64_encode substring]. destruct (4 * k), (3 * k); reflexivity.
    + cbn [b64_encode substring]. destruct (4 * k), (3 * k); reflexivity.
    + cbn [b64_encode substring]. rewrite IH. reflexivity.
Qed.

Lemma append_assoc (s t r : string) : (s ++ t) ++ r = s ++ t ++ r.
Proof.
  induction s as [|c s IH]; [reflexivity|].
  cbn [append]. rewrite IH. reflexivity.
Qed.

Lemma simpleHash_prefix (data : string) :
  simpleHash data = b64_encode (substring 0 24 (data ++ "salt")).
Proof. unfold simpleHash, buffer_base64. apply (substring_encode 8). Qed.

(** X2.  The encrypted value and the hash of the bulk importer, and
    those of the portal when [btoa] accepts the value, contain no [@]:
    a replaced contact can never be taken for an address again.  The
    hash has at most 32 characters. *)
Theorem X2_placeholders_without_at :
  forall data : string,
    includes (simpleEncrypt data) "@" = false
    /\ includes (simpleHash data) "@" = false
    /\ String.length (simpleHash data) <= 32
    /\ (forall e, Portal.encryptData data = Ok e -> includes e "@" = false)
    /\ (forall h, Portal.hashData data = Ok h -> includes h "@" = false).
Proof.
  intros data.
  change "@" with (str1 "@"%char). rewrite !includes_char.
  split; [|split; [|split; [|split]]].
  - unfold simpleEncrypt, buffer_base64.
    rewrite has_char_append, (proj2 (b64_encode_chars data)). reflexivity.
  - rewrite simpleHash_prefix. apply b64_encode_chars.
  - rewrite simpleHash_prefix, b64_encode_length.
    pose proof (length_substring_0 24 (data ++ "salt")) as L.
    assert (D : (String.length (substring 0 24 (data ++ "salt")) + 2) / 3 < 9).
    { apply Nat.Div0.div_lt_upper_bound. lia. }
    lia.
  - intros e. unfold Portal.encryptData, btoa.
    destruct (latin1_units data) as [u|]; [|discriminate].
    intros E. inversion E. rewrite includes_char, has_char_append.
    rewrite (proj2 (b64_encode_chars u)). reflexivity.
  - intros h. unfold Portal.hashData, btoa.
    destruct (latin1_units (data ++ "salt")) as [u|]; [|discriminate].
    intros E. inversion E. rewrite includes_char.
    apply has_char_substring, b64_encode_chars.
Qed.


(** X4.  [simpleHash] is the base64 form of the first 24 bytes of the
    salted data, so [atob] reads these bytes back from the hash: the
    hash of a short value reveals the value, and two values that agree
    on their first 24 bytes have the same hash. *)
Theorem X4_simpleHash_is_a_prefix :
  forall data : string,
    atob (simpleHash data) = Some (substring 0 24 (data ++ "salt"))
    /\ (String.length data <= 20 -> atob (simpleHash data) = Some (data ++ "salt"))
    /\ (forall other,
          substring 0 24 data = substring 0 24 other ->
          24 <= String.length data -> 24 <= String.length other ->
          simpleHash data = simpleHash other).
Proof.
  intros data. split; [|split].
  - rewrite simpleHash_prefix. apply atob_encode.
  - intros L. rewrite simpleHash_prefix, atob_encode.
    rewrite substring_whole; [reflexivity|].
    rewrite length_append. simpl. lia.
  - intros other E L1 L2. rewrite !simpleHash_prefix. f_equal.
    assert (P : forall s t, 24 <= String.length s ->
                            substring 0 24 (s ++ t) = substring 0 24 s).
    { generalize 24. induction n as [|n IH]; intros s t H.
      - destruct (s ++ t), s; reflexivity.
      - destruct s as [|x s]; [simpl in H; lia|].
        cbn [append substring]. rewrite IH; [reflexivity|simpl in H; lia]. }
    rewrite !P by assumption. exact E.
Qed.

Lemma X4_simpleHash_is_a_prefix_witness :
  String.length "a@b.c" <= 20
  /\ atob (simpleHash "a@b.c") = Some "a@b.csalt".
Proof.
  split; [simpl; lia|].
  destruct (X4_simpleHash_is_a_prefix "a@b.c") as (_ & W & _).
  apply W. simpl. lia.
Defined.

End PlaceholderProofs.

(* ===================================================================== *)
(** ** Batches, and what the processing keeps                             *)
(* ===================================================================== *)

Module BatchProofs.
Import JS Eff Spec Notions ObjFacts.
Import Importer.

Lemma ceil_step (n len : nat) :
  0 < n -> 0 < len -> S ((len - n + n - 1) / n) = (len + n - 1) / n.
Proof.
  intros Hn Hlen. destruct (Nat.le_gt_cases n len) as [G|G].
  - replace (len + n - 1) with (len - n + n - 1 + 1 * n) by lia.
    rewrite Nat.div_add by lia. lia.
  - replace (len - n + n - 1) with (n - 1) by lia.
    replace (len + n - 1) with (len - 1 + 1 * n) by lia.
    rewrite Nat.div_add by lia. rewrite !Nat.div_small; lia.
Qed.

Lemma chunks_fuel_shape {A} (n : nat) (fuel : nat) (l : list A) :
  0 < n -> List.length l <= fuel ->
  Forall (fun b => 0 < List.length b <= n) (chunks_fuel fuel n l)
  /\ List.length (chunks_fuel fuel n l) = (List.length l + n - 1) / n.
Proof.
  intros Hn. revert l. induction fuel as [|f IH]; intros l Hl.
  - destruct l; [|simpl in Hl; lia]. split; [constructor|].
    simpl. symmetry. apply Nat.div_small. lia.
  - destruct l as [|x l].
    + split; [constructor|]. simpl. symmetry. apply Nat.div_small. lia.
    + cbn [chunks_fuel].
      assert (Hs : List.length (skipn n (x :: l)) <= f).
      { rewrite length_skipn. cbn [List.length] in *. lia. }
      destruct (IH _ Hs) as [F C]. split.
      * constructor; [|exact F].
        rewrite length_firstn. cbn [List.length]. lia.
      * change (List.length (firstn n (x :: l) :: chunks_fuel f n (skipn n (x :: l))))
          with (S (List.length (chunks_fuel f n (skipn n (x :: l))))).
        rewrite C, length_skipn. apply ceil_step; [exact Hn|].
        cbn [List.length]. lia.
Qed.

(** X1.  The batches of the three loops ([processRecords] by 100,
    [uploadToDatabase] and the simplified importer by 50) cut the list
    into consecutive pieces: put end to end they are the list, none is
    empty or longer than the batch size, and there are
    ceil(length / size) of them. *)
Theorem X1_batches_partition :
  forall (A : Type) (n : nat) (l : list A),
    0 < n ->
    concat (chunks n l) = l
    /\ Forall (fun b => 0 < List.length b <= n) (chunks n l)
    /\ List.length (chunks n l) = (List.length l + n - 1) / n.
Proof.
  intros A n l Hn. split.
  - apply PipelineProofs.concat_chunks, Hn.
  - apply chunks_fuel_shape; [exact Hn|]. apply Nat.le_refl.
Qed.

Lemma X1_batches_partition_witness :
  0 < 2
  /\ chunks 2 [1; 2; 3; 4; 5] = [[1; 2]; [3; 4]; [5]]
  /\ List.length (chunks 2 [1; 2; 3; 4; 5]) = (5 + 2 - 1) / 2.
Proof.
  split; [lia|]. split; [reflexivity|].
  exact (proj2 (proj2 (X1_batches_partition nat 2 [1; 2; 3; 4; 5] ltac:(lia)))).
Defined.

(** *** One record, in full *)

Lemma extractDepartment_closed (location : jsval) (d : string) :
  extractDepartment location = Ok d -> In d departments.
Proof.
  destruct location as [| |b|z|s].
  - intros E. inversion E. simpl. auto 6.
  - intros E. inversion E. simpl. auto 6.
  - destruct b; intros E; inversion E. simpl. auto 6.
  - unfold extractDepartment. cbn [truthy].
    destruct (negb (negb (z =? 0)%Z)); intros E; inversion E. simpl. auto 6.
  - rewrite DepartmentProofs.extractDepartment_string. intros E. inversion E.
    apply DepartmentProofs.first_keyword_closed.
Qed.

Lemma classifyRecord_closed (record : obj) :
  classifyRecord record = "internal" \/ classifyRecord record = "confidential".
Proof.
  unfold classifyRecord.
  destruct (_ || _); [auto|]. destruct (_ || _); auto.
Qed.

(** The record that [secure_record] returns, spelled out. *)
Lemma secure_record_ok (h : host) (batchId : string) (i : nat)
    (record sec : obj) (st st' : importStats) :
  secure_record h batchId i record st = (Ok sec, st') ->
  exists enc st1 d,
    encryptSensitiveData record st = (Ok enc, st1)
    /\ extractDepartment (get record "location") = Ok d
    /\ sec = assign enc
               [("department", VStr d);
                ("security_classification", VStr (classifyRecord record));
                ("data_hash", VStr (generateDataHash record));
                ("import_batch", VStr batchId);
                ("audit_log", VStr (audit_log batchId (clock h i)))].
Proof.
  unfold secure_record, bind, lift, ret.
  destruct (encryptSensitiveData record st) as [[enc|e|e] st1]; [|discriminate..].
  destruct (extractDepartment (get record "location")) as [d|e|e]; [|discriminate..].
  intros E. exists enc, st1, d. split; [reflexivity|]. split; [reflexivity|].
  congruence.
Qed.

Lemma assign5 (o : obj) (k1 k2 k3 k4 k5 : string) (v1 v2 v3 v4 v5 : jsval) :
  assign o [(k1, v1); (k2, v2); (k3, v3); (k4, v4); (k5, v5)]
  = set (set (set (set (set o k1 v1) k2 v2) k3 v3) k4 v4) k5 v5.
Proof. reflexivity. Qed.

Lemma secure_record_tagged (h : host) (i : nat) (record sec : obj)
    (st st' : importStats) :
  secure_record h ("import_" ++ dec (now h)) i record st = (Ok sec, st') ->
  well_tagged h sec.
Proof.
  intros E.
  destruct (secure_record_ok _ _ _ _ _ _ _ E) as (enc & st1 & d & _ & D & ->).
  rewrite assign5. unfold well_tagged.
  repeat rewrite ?get_set_same, ?get_set_other by discriminate.
  split; [exists d; split; [reflexivity|apply (extractDepartment_closed _ _ D)]|].
  split; [destruct (classifyRecord_closed record) as [-> | ->]; auto|].
  split; [reflexivity|]. split; reflexivity.
Qed.

(** A property of every record that [secure_record] returns holds of
    every record of the array. *)
Lemma process_batch_all (h : host) (batchId : string) (P : obj -> Prop) :
  (forall i record sec st st',
      secure_record h batchId i record st = (Ok sec, st') -> P sec) ->
  forall (batch : list obj) (i : nat) (acc out : list obj) (st st' : importStats),
    Forall P acc ->
    process_batch h batchId i batch acc st = (Ok out, st') ->
    Forall P out.
Proof.
  intros HP. induction batch as [|record rest IH]; intros i acc out st st' F E.
  - inversion E. subst. exact F.
  - cbn [process_batch] in E. unfold bind in E.
    destruct (process_record h batchId i record acc st) as [[acc1|e|e] st1] eqn:R;
      [|discriminate..].
    apply (IH (S i) acc1 out st1 st'); [|exact E].
    unfold process_record, try_catch, bind, modify, ret in R.
    destruct (secure_record h batchId i record st) as [[sec|e|e] st2] eqn:S;
      inversion R; subst; [|exact F].
    apply Forall_app. split; [exact F|].
    constructor; [|constructor]. apply (HP _ _ _ _ _ S).
Qed.

(** X5.  Every record that [processRecords] returns carries its five
    tags: a department among NYA, FORBES, QC, MICROBIOLOGY and general,
    a classification that is internal or confidential, the batch id of
    the run (the same for all), and a data hash and an audit log that
    are strings. *)
Theorem X5_processed_records_are_tagged :
  forall (h : host) (records out : list obj) (st st' : importStats),
    processRecords h records st = (Ok out, st') ->
    Forall (well_tagged h) out.
Proof.
  intros h records out st st'. rewrite PipelineProofs.processRecords_flat.
  apply process_batch_all; [|constructor].
  intros i record sec st0 st1. apply secure_record_tagged.
Qed.

Lemma X5_processed_records_are_tagged_witness :
  exists out st',
    processRecords Samples.host1 [Samples.record1] new_stats = (Ok out, st')
    /\ Forall (well_tagged Samples.host1) out.
Proof.
  destruct (processRecords Samples.host1 [Samples.record1] new_stats)
    as [[out|e|e] st'] eqn:E; [|vm_compute in E; discriminate..].
  exists out, st'. split; [reflexivity|].
  exact (X5_processed_records_are_tagged Samples.host1 [Samples.record1]
           out new_stats st' E).
Defined.

(** Where a processed record comes from. *)
Lemma process_batch_origin (h : host) (batchId : string) (P : obj -> obj -> Prop) :
  (forall i record sec st st',
      secure_record h batchId i record st = (Ok sec, st') -> P record sec) ->
  forall (batch : list obj) (i : nat) (acc out : list obj) (st st' : importStats),
    process_batch h batchId i batch acc st = (Ok out, st') ->
    exists added,
      out = (acc ++ added)%list
      /\ Forall (fun sec => exists record, In record batch /\ P record sec) added.
Proof.
  intros HP. induction batch as [|record rest IH]; intros i acc out st st' E.
  - inversion E. subst. exists []. rewrite app_nil_r. split; [reflexivity|constructor].
  - cbn [process_batch] in E. unfold bind in E.
    destruct (process_record h batchId i record acc st) as [[acc1|e|e] st1] eqn:R;
      [|discriminate..].
    destruct (IH (S i) acc1 out st1 st' E) as (added & -> & F).
    assert (W : Forall (fun sec => exists r, In r (record :: rest) /\ P r sec) added).
    { eapply Forall_impl; [|exact F]. intros sec (r & I & Q). exists r.
      split; [right; exact I|exact Q]. }
    unfold process_record, try_catch, bind, modify, ret in R.
    destruct (secure_record h batchId i record st) as [[sec|e|e] st2] eqn:S;
      inversion R; subst.
    + exists (sec :: added). rewrite <- app_assoc. split; [reflexivity|].
      constructor; [|exact W]. exists record. split; [left; reflexivity|].
      apply (HP _ _ _ _ _ S).
    + exists added. split; [reflexivity|exact W].
Qed.

Lemma secure_record_keeps (h : host) (batchId : string) (i : nat)
    (record sec : obj) (st st' : importStats) :
  secure_record h batchId i record st = (Ok sec, st') ->
  (forall k, untouched k -> get sec k = get record k)
  /\ (plain_contact record "contact_organizer" = false ->
      get sec "contact_organizer" = get record "contact_organizer").
Proof.
  intros E.
  destruct (ContactProofs.secure_record_shape _ _ _ _ _ _ _ E)
    as (enc & st1 & props & X & -> & K).
  destruct (ContactProofs.encryptSensitiveData_ok _ _ _ _ X)
    as [(s & G & A & ->)|[-> P]].
  - split.
    + intros k (N1 & N2 & N3 & N4).
      rewrite get_assign_other by (rewrite K; exact N4).
      rewrite get_delete_other, !get_set_other by congruence. reflexivity.
    + unfold plain_contact. rewrite G, A. discriminate.
  - split.
    + intros k (N1 & N2 & N3 & N4).
      apply get_assign_other. rewrite K. exact N4.
    + intros _. apply get_assign_other. rewrite K. simpl. intuition discriminate.
Qed.

(** X6.  Every record that [processRecords] returns comes from a record
    of the input, all of whose fields are kept as they are, but for the
    contact (kept only when it has no [@]) and for the fields that the
    processing writes. *)
Theorem X6_processing_keeps_the_other_fields :
  forall (h : host) (records out : list obj) (st st' : importStats),
    processRecords h records st = (Ok out, st') ->
    Forall (fun sec =>
              exists record,
                In record records
                /\ (forall k, untouched k -> get sec k = get record k)
                /\ (plain_contact record "contact_organizer" = false ->
                    get sec "contact_organizer" = get record "contact_organizer"))
           out.
Proof.
  intros h records out st st'. rewrite PipelineProofs.processRecords_flat. intros E.
  destruct (process_batch_origin h ("import_" ++ dec (now h))
              (fun record sec =>
                 (forall k, untouched k -> get sec k = get record k)
                 /\ (plain_contact record "contact_organizer" = false ->
                     get sec "contact_organizer" = get record "contact_organizer"))
              (secure_record_keeps h ("import_" ++ dec (now h)))
              records 0 [] out st st' E) as (added & -> & F).
  exact F.
Qed.

Lemma X6_processing_keeps_the_other_fields_witness :
  exists out st',
    processRecords Samples.host1 [Samples.record1] new_stats = (Ok out, st')
    /\ Forall (fun sec => exists record,
                 In record [Samples.record1]
                 /\ get sec "location" = get record "location") out.
Proof.
  destruct (processRecords Samples.host1 [Samples.record1] new_stats)
    as [[out|e|e] st'] eqn:E; [|vm_compute in E; discriminate..].
  exists out, st'. split; [reflexivity|].
  pose proof (X6_processing_keeps_the_other_fields Samples.host1
                [Samples.record1] out new_stats st' E) as F.
  eapply Forall_impl; [|exact F].
  intros sec (record & I & K & _). exists record. split; [exact I|].
  apply K. unfold untouched, metadata_fields. simpl.
  repeat split; try discriminate. intuition discriminate.
Defined.

(** *** The count of encrypted fields *)

Lemma process_record_encrypted (h : host) (batchId : string) (i : nat)
    (record : obj) (acc : list obj) (st : importStats) :
  let st' := snd (process_record h batchId i record acc st) in
  encryptedFields st'
  = encryptedFields st + (if plain_contact record "contact_organizer" then 1 else 0)
  /\ warnings st' = warnings st.
Proof.
  unfold process_record, try_catch, secure_record, bind, lift, modify, ret, throw.
  unfold encryptSensitiveData, plain_contact, bind, modify, ret, throw.
  destruct (get record "contact_organizer") as [| |b|z|s]; cbn [truthy negb].
  1,2: destruct (extractDepartment (get record "location")); simpl; split; lia.
  - destruct b; cbn [negb];
      [|destruct (extractDepartment (get record "location"))]; simpl; split; lia.
  - destruct (z =? 0)%Z; cbn [negb];
      [destruct (extractDepartment (get record "location"))|]; simpl; split; lia.
  - destruct (String.eqb_spec s "") as [->|N]; cbn [negb].
    + destruct (extractDepartment (get record "location")); simpl; split; lia.
    + destruct (includes s "@");
        destruct (extractDepartment (get record "location")); simpl; split; lia.
Qed.

Lemma process_batch_encrypted (h : host) (batchId : string) (batch : list obj) :
  forall (i : nat) (acc : list obj) (st : importStats),
    let st' := snd (process_batch h batchId i batch acc st) in
    encryptedFields st' = encryptedFields st + count_contacts batch
    /\ warnings st' = warnings st.
Proof.
  induction batch as [|record rest IH]; intros i acc st.
  - simpl. unfold count_contacts. simpl. split; lia.
  - cbn [process_batch]. unfold bind.
    pose proof (process_record_encrypted h batchId i record acc st) as R.
    destruct (PipelineProofs.process_record_cases h batchId i record acc st)
      as (o & st1 & E & _).
    rewrite E in *. cbn [snd] in R. destruct R as [R1 R2].
    specialize (IH (S i) (acc ++ o)%list st1). cbv zeta in IH.
    destruct IH as [I1 I2]. cbv zeta.
    unfold count_contacts in *. cbn [filter].
    destruct (plain_contact record "contact_organizer"); cbn [List.length];
      split; lia.
Qed.

Lemma processRecords_encrypted (h : host) (records : list obj) (st : importStats) :
  let st' := snd (processRecords h records st) in
  encryptedFields st' = encryptedFields st + count_contacts records
  /\ warnings st' = warnings st.
Proof.
  rewrite PipelineProofs.processRecords_flat. apply process_batch_encrypted.
Qed.

(** X7.  [processRecords] adds to [encryptedFields] the number of input
    records whose contact is a string with an [@], whether or not the
    record then fails on its location, and leaves [warnings] as it
    is. *)
Theorem X7_encrypted_fields_count :
  forall (h : host) (records : list obj) (st : importStats),
    let st' := snd (processRecords h records st) in
    encryptedFields st' = encryptedFields st + count_contacts records
    /\ warnings st' = warnings st.
Proof. exact processRecords_encrypted. Qed.

End BatchProofs.

(* ===================================================================== *)
(** ** The import of a CSV file, end to end                               *)
(* ===================================================================== *)

Module ImportProofs.
Import JS Eff Spec Notions ObjFacts.
Import Importer.

(** A cell of a CSV row is a string or is missing. *)
Lemma csv_cell_kind (row : obj) (k : string) :
  csv_row row -> get row k = VUndef \/ exists s, get row k = VStr s.
Proof.
  unfold csv_row. induction row as [|[k' v] row IH]; intros F; [left; reflexivity|].
  inversion F as [|? ? Hv F']. subst. cbn [get].
  destruct (k' =? k)%string; [|apply IH, F'].
  destruct v; try discriminate. right. eauto.
Qed.

(** [parseDate] on such a cell returns null or a string, and counts at
    most one warning. *)
Lemma parseDate_cell (h : host) (v : jsval) (st : importStats) :
  (v = VUndef \/ exists s, v = VStr s) ->
  exists d st',
    parseDate h v st = (Ok d, st')
    /\ (d = VNull \/ exists s, d = VStr s)
    /\ same_counts st st'
    /\ encryptedFields st' = encryptedFields st
    /\ warnings st <= warnings st' <= warnings st + 1.
Proof.
  intros [->|(s & ->)].
  - exists VNull, st. simpl. unfold same_counts. repeat split; auto; lia.
  - rewrite DateProofs.parseDate_string.
    destruct (trim s =? "")%string.
    + exists VNull, st. unfold same_counts. repeat split; auto; lia.
    + destruct (JSDate.new_Date _ _) as [t|].
      * eexists. exists st. unfold same_counts. repeat split; eauto; lia.
      * exists VNull, (incr_warnings st). unfold same_counts. simpl.
        repeat split; auto; lia.
Qed.

Lemma record_of_row_csv (h : host) (row : obj) (st : importStats) :
  csv_row row ->
  exists r st',
    record_of_row h row st = (Ok r, st')
    /\ read_record r
    /\ plain_contact r "contact_organizer" = plain_contact row "Contact / Organizer"
    /\ same_counts st st'
    /\ encryptedFields st' = encryptedFields st
    /\ warnings st <= warnings st' <= warnings st + 2.
Proof.
  intros C. unfold record_of_row, bind, ret.
  destruct (parseDate_cell h (get row "When did the event occur?") st
              (csv_cell_kind row _ C)) as (d1 & st1 & -> & K1 & S1 & E1 & W1).
  destruct (parseDate_cell h (get row "When was the event detected?") st1
              (csv_cell_kind row _ C)) as (d2 & st2 & -> & K2 & S2 & E2 & W2).
  eexists. exists st2. split; [reflexivity|].
  split; [|split; [|split; [|split]]].
  - unfold read_record. split; [reflexivity|]. split; [|split; assumption].
    unfold row_fails.
    change (get _ "contact_organizer") with (get row "Contact / Organizer").
    change (get _ "location") with (get row "Where (building/room #/lab)?").
    destruct (csv_cell_kind row "Contact / Organizer" C) as [->|(s & ->)];
      destruct (csv_cell_kind row "Where (building/room #/lab)?" C) as [->|(l & ->)];
      cbn [truthy is_string negb andb orb]; rewrite ?andb_false_r; reflexivity.
  - reflexivity.
  - unfold same_counts in *. intuition congruence.
  - congruence.
  - lia.
Qed.

Lemma mapM_csv (h : host) (rows : list obj) :
  Forall csv_row rows ->
  forall st,
  exists records st',
    mapM (record_of_row h) rows st = (Ok records, st')
    /\ List.length records = List.length rows
    /\ Forall read_record records
    /\ count_contacts records = count_contact_rows rows
    /\ same_counts st st'
    /\ encryptedFields st' = encryptedFields st
    /\ warnings st <= warnings st' <= warnings st + 2 * List.length rows.
Proof.
  induction 1 as [|row rows C F IH]; intros st.
  - exists [], st. unfold same_counts. simpl. repeat split; auto; lia.
  - cbn [mapM]. unfold bind, ret.
    destruct (record_of_row_csv h row st C)
      as (r & st1 & -> & R & P & S1 & E1 & W1).
    destruct (IH st1) as (rs & st2 & -> & L & FR & CC & S2 & E2 & W2).
    exists (r :: rs), st2. split; [reflexivity|].
    split; [simpl; congruence|]. split; [constructor; assumption|].
    split; [|split; [|split]].
    + unfold count_contacts, count_contact_rows in *. cbn [filter].
      rewrite P. destruct (plain_contact row _); cbn [List.length]; congruence.
    + unfold same_counts in *. intuition congruence.
    + congruence.
    + cbn [List.length]. lia.
Qed.

(** X8.  On the rows of a CSV file (every cell a string) [readCSVFile]
    never fails: it gives one record per row, each with the nine mapped
    fields in their order and nothing else, its two dates being null or
    a string; it counts at most two warnings per row and changes no
    other statistic. *)
Theorem X8_readCSVFile_on_text_rows :
  forall (h : host) (rows : list obj) (st : importStats),
    csv_rows h = Ok rows ->
    Forall csv_row rows ->
    exists records st',
      readCSVFile h st = (Ok records, st')
      /\ List.length records = List.length rows
      /\ Forall read_record records
      /\ same_counts st st'
      /\ encryptedFields st' = encryptedFields st
      /\ warnings st <= warnings st' <= warnings st + 2 * List.length rows.
Proof.
  intros h rows st C F. unfold readCSVFile, bind, lift. rewrite C.
  destruct (mapM_csv h rows F st) as (rs & st' & E & L & R & _ & S & EF & W).
  exists rs, st'. auto 7.
Qed.

Lemma csv_row_row1 : csv_row Samples.row1.
Proof. repeat constructor. Qed.

Lemma csv_row_row2 : csv_row MoreSamples.row2.
Proof. repeat constructor. Qed.

Lemma X8_readCSVFile_on_text_rows_witness :
  csv_rows MoreSamples.host2 = Ok [Samples.row1; MoreSamples.row2]
  /\ Forall csv_row [Samples.row1; MoreSamples.row2]
  /\ exists records st',
      readCSVFile MoreSamples.host2 new_stats = (Ok records, st')
      /\ List.length records = 2.
Proof.
  assert (F : Forall csv_row [Samples.row1; MoreSamples.row2])
    by (repeat constructor).
  split; [reflexivity|]. split; [exact F|].
  destruct (X8_readCSVFile_on_text_rows MoreSamples.host2
              [Samples.row1; MoreSamples.row2] new_stats eq_refl F)
    as (records & st' & E & L & _).
  exists records, st'. split; [exact E|exact L].
Defined.

(** No read record fails. *)
Lemma read_records_pass (records : list obj) :
  Forall read_record records ->
  count_failing records = 0 /\ count_passing records = List.length records.
Proof.
  unfold count_failing, count_passing.
  induction 1 as [|r rs (_ & R & _) F [IH1 IH2]]; [split; reflexivity|].
  cbn [filter]. rewrite R. cbn [negb List.length]. split; congruence.
Qed.

Lemma count_uploaded_all (throws : nat -> bool) (batches : list (list obj)) :
  (forall k, throws k = false) ->
  forall k,
    count_uploaded throws k batches = List.length (concat batches)
    /\ count_rejected throws k batches = 0.
Proof.
  intros T. induction batches as [|b r IH]; intros k; [split; reflexivity|].
  cbn [count_uploaded count_rejected concat]. rewrite T, length_app.
  destruct (IH (S k)) as [-> ->]. split; lia.
Qed.

Lemma upload_keeps (h : host) (batches : list (list obj)) :
  forall (k uploadedCount : nat) (st : importStats),
    let st' := snd (upload_batches h k batches uploadedCount st) in
    encryptedFields st' = encryptedFields st /\ warnings st' = warnings st.
Proof.
  induction batches as [|batch rest IH]; intros k c st; [split; reflexivity|].
  cbn [upload_batches]. unfold bind, try_catch, throw, ret, modify.
  destruct (upload_throws h k).
  - destruct (IH (S k) c (add_errors (List.length batch) st)) as [A B].
    split; [rewrite A|rewrite B]; reflexivity.
  - apply IH.
Qed.

(** The run of [importData] on a file that reads, spelled out. *)
Lemma import_clean_file :
  forall (h : host) (rows : list obj),
    truthy (SUPABASE_URL h) = true ->
    truthy (SUPABASE_SERVICE_KEY h) = true ->
    connection_ok h = true ->
    csv_rows h = Ok rows ->
    Forall csv_row rows ->
    (forall k, upload_throws h k = false) ->
    exists st',
      importData h new_stats
      = (Ok [("success", VBool true);
             ("totalRecords", VNum (Z.of_nat (List.length rows)));
             ("uploadedRecords", VNum (Z.of_nat (List.length rows)));
             ("errors", VNum 0)], st')
      /\ totalRecords st' = List.length rows
      /\ processedRecords st' = List.length rows
      /\ errors st' = 0
      /\ encryptedFields st' = count_contact_rows rows
      /\ warnings st' <= 2 * List.length rows.
Proof.
  intros h rows U K C R F T.
  unfold importData, try_catch, bind, initialize, testConnection, throw, ret, modify.
  rewrite U, K, C. cbn [negb orb].
  unfold readCSVFile, bind, lift. rewrite R.
  destruct (mapM_csv h rows F new_stats)
    as (records & st1 & -> & L & RR & CC & (P1 & E1 & T1) & EF1 & W1).
  destruct (read_records_pass records RR) as [CF CP].
  set (st1' := set_totalRecords (List.length records) st1).
  destruct (PipelineProofs.processRecords_spec h records st1')
    as (out & st2 & E2 & L2 & P2 & R2 & T2).
  destruct (BatchProofs.processRecords_encrypted h records st1') as [EF2 W2].
  rewrite E2 in EF2, W2. cbn [snd] in EF2, W2.
  rewrite E2.
  destruct (PipelineProofs.uploadToDatabase_spec h out st2)
    as (st3 & E3 & R3 & P3 & T3 & _).
  destruct (upload_keeps h (chunks 50 out) 0 0 st2) as [EF3 W3].
  unfold uploadToDatabase in E3. rewrite E3 in EF3, W3. cbn [snd] in EF3, W3.
  fold (uploadToDatabase h out) in E3. rewrite E3.
  destruct (count_uploaded_all (upload_throws h) (chunks 50 out) T 0) as [CU CR].
  rewrite PipelineProofs.concat_chunks in CU by lia.
  rewrite CU, CR in *.
  unfold st1' in *. cbn [set_totalRecords processedRecords errors totalRecords
                           encryptedFields warnings new_stats] in *.
  assert (Z3 : errors st3 = 0) by lia.
  assert (T3' : totalRecords st3 = List.length rows) by lia.
  assert (O : List.length out = List.length rows) by lia.
  exists st3. rewrite Z3, T3', O.
  split; [reflexivity|]. repeat split; lia.
Qed.

(** X9.  With credentials, a store that answers, a CSV file that reads
    and an upload that does not throw, [importData] on a new importer
    completes with every row uploaded: success is true, totalRecords
    and uploadedRecords are the number of rows and errors is 0; in
    [importStats] processedRecords is the number of rows too, and
    encryptedFields the number of rows whose contact has an [@]. *)
Theorem X9_import_of_a_clean_file :
  forall (h : host) (rows : list obj),
    truthy (SUPABASE_URL h) = true ->
    truthy (SUPABASE_SERVICE_KEY h) = true ->
    connection_ok h = true ->
    csv_rows h = Ok rows ->
    Forall csv_row rows ->
    (forall k, upload_throws h k = false) ->
    exists st',
      importData h new_stats
      = (Ok [("success", VBool true);
             ("totalRecords", VNum (Z.of_nat (List.length rows)));
             ("uploadedRecords", VNum (Z.of_nat (List.length rows)));
             ("errors", VNum 0)], st')
      /\ totalRecords st' = List.length rows
      /\ processedRecords st' = List.length rows
      /\ errors st' = 0
      /\ encryptedFields st' = count_contact_rows rows
      /\ warnings st' <= 2 * List.length rows.
Proof. exact import_clean_file. Qed.

Lemma X9_import_of_a_clean_file_witness :
  exists st',
    importData MoreSamples.host2 new_stats
    = (Ok [("success", VBool true); ("totalRecords", VNum 2);
           ("uploadedRecords", VNum 2); ("errors", VNum 0)], st')
    /\ processedRecords st' = 2
    /\ encryptedFields st' = 1.
Proof.
  destruct (X9_import_of_a_clean_file MoreSamples.host2
              [Samples.row1; MoreSamples.row2]
              eq_refl eq_refl eq_refl eq_refl
              (Forall_cons _ csv_row_row1 (Forall_cons _ csv_row_row2 (Forall_nil _)))
              (fun _ => eq_refl))
    as (st' & E & _ & P & _ & EF & _).
  exists st'. split; [exact E|]. split; [exact P|exact EF].
Defined.

(** What [importData] does with the two failures of the reading. *)
Lemma import_read_fails (h : host) (st st1 : importStats) (message : string) :
  truthy (SUPABASE_URL h) && truthy (SUPABASE_SERVICE_KEY h) = true ->
  connection_ok h = true ->
  readCSVFile h st = (Throw message, st1) ->
  importData h st
  = (Ok [("success", VBool false); ("error", VStr message)], st1).
Proof.
  intros C N R. apply andb_true_iff in C. destruct C as [C1 C2].
  unfold importData, try_catch, bind, initialize, testConnection, throw, ret.
  rewrite C1, C2, N. cbn [negb orb]. rewrite R. reflexivity.
Qed.

Lemma import_read_dies (h : host) (st st1 : importStats) (message : string) :
  truthy (SUPABASE_URL h) && truthy (SUPABASE_SERVICE_KEY h) = true ->
  connection_ok h = true ->
  readCSVFile h st = (Uncaught message, st1) ->
  importData h st = (Uncaught message, st1).
Proof.
  intros C N R. apply andb_true_iff in C. destruct C as [C1 C2].
  unfold importData, try_catch, bind, initialize, testConnection, throw, ret.
  rewrite C1, C2, N. cbn [negb orb]. rewrite R. reflexivity.
Qed.

(** X10.  [importData] on a new importer stops before reading the file
    when a credential is missing or empty, or when the store does not
    answer: it returns success false with the message and leaves the
    statistics at zero.  When the parser reports an error, after rows
    of strings, it returns success false with the parser's message;
    the rows read so far have only counted warnings, at most two each.
    When the stream of the file fails, it returns nothing: the error is
    not caught. *)
Theorem X10_import_failures :
  forall h : host,
    (truthy (SUPABASE_URL h) && truthy (SUPABASE_SERVICE_KEY h) = false ->
     importData h new_stats
     = (Ok [("success", VBool false);
            ("error", VStr "❌ Missing Supabase credentials. Set SUPABASE_URL and SUPABASE_SERVICE_KEY environment variables.")],
        new_stats))
    /\ (truthy (SUPABASE_URL h) && truthy (SUPABASE_SERVICE_KEY h) = true ->
        connection_ok h = false ->
        importData h new_stats
        = (Ok [("success", VBool false);
               ("error", VStr "Database connection failed")], new_stats))
    /\ (forall message,
          truthy (SUPABASE_URL h) && truthy (SUPABASE_SERVICE_KEY h) = true ->
          connection_ok h = true ->
          csv_rows h = Throw message ->
          Forall csv_row (rows_before_error h) ->
          exists st',
            importData h new_stats
            = (Ok [("success", VBool false); ("error", VStr message)], st')
            /\ totalRecords st' = 0 /\ processedRecords st' = 0
            /\ encryptedFields st' = 0 /\ errors st' = 0
            /\ warnings st' <= 2 * List.length (rows_before_error h))
    /\ (forall message,
          truthy (SUPABASE_URL h) && truthy (SUPABASE_SERVICE_KEY h) = true ->
          connection_ok h = true ->
          csv_rows h = Uncaught message ->
          Forall csv_row (rows_before_error h) ->
          exists st',
            importData h new_stats = (Uncaught message, st')
            /\ totalRecords st' = 0 /\ processedRecords st' = 0
            /\ encryptedFields st' = 0 /\ errors st' = 0
            /\ warnings st' <= 2 * List.length (rows_before_error h)).
Proof.
  intros h. split; [|split; [|split]].
  - intros C. unfold importData, try_catch, bind, initialize, throw, ret.
    destruct (truthy (SUPABASE_URL h)), (truthy (SUPABASE_SERVICE_KEY h));
      try discriminate; reflexivity.
  - intros C N. unfold importData, try_catch, bind, initialize, testConnection,
      throw, ret.
    rewrite N.
    destruct (truthy (SUPABASE_URL h)), (truthy (SUPABASE_SERVICE_KEY h));
      try discriminate; reflexivity.
  - intros message C N R F.
    destruct (mapM_csv h (rows_before_error h) F new_stats)
      as (rs & st1 & M & _ & _ & _ & (P & E & T) & X & W).
    exists st1. split.
    + apply import_read_fails; [exact C|exact N|].
      unfold readCSVFile, bind, throw. rewrite R, M. reflexivity.
    + cbn [totalRecords processedRecords encryptedFields errors warnings new_stats] in *.
      repeat split; try assumption. lia.
  - intros message C N R F.
    destruct (mapM_csv h (rows_before_error h) F new_stats)
      as (rs & st1 & M & _ & _ & _ & (P & E & T) & X & W).
    exists st1. split.
    + apply import_read_dies; [exact C|exact N|].
      unfold readCSVFile, bind, lift. rewrite R, M. reflexivity.
    + cbn [totalRecords processedRecords encryptedFields errors warnings new_stats] in *.
      repeat split; try assumption. lia.
Qed.

End ImportProofs.

(* ===================================================================== *)
(** ** The simplified importer and the demo                               *)
(* ===================================================================== *)

Module OtherImportProofs.
Import JS Eff Spec Notions ObjFacts.

Lemma imported_count (insert_ok : nat -> bool) (batches : list (list obj)) :
  forall k count,
    SimpleImport.imported insert_ok k batches count
    = count + count_uploaded (fun k => negb (insert_ok k)) k batches.
Proof.
  induction batches as [|b r IH]; intros k count.
  - simpl. lia.
  - cbn [SimpleImport.imported count_uploaded]. rewrite IH.
    destruct (insert_ok k); cbn [negb]; lia.
Qed.

(** X11.  The simplified importer inserts every row exactly once and as
    it reads it: the batches, put end to end, are the records of the
    rows in their order, each of at most 50 and none empty.  A batch
    that fails does not stop the next ones: the count [imported] is the
    number of records in the batches that succeeded, so it is the
    number of rows when none fails. *)
Theorem X11_simple_import_batches :
  forall (rows : list obj) (batches : list (list obj)),
    SimpleImport.inserted true rows = Some batches ->
    concat batches = map SimpleImport.record_of_row rows
    /\ Forall (fun b => 0 < List.length b <= 50) batches
    /\ (forall insert_ok,
          SimpleImport.imported insert_ok 0 batches 0
          = count_uploaded (fun k => negb (insert_ok k)) 0 batches
          /\ SimpleImport.imported insert_ok 0 batches 0 <= List.length rows)
    /\ (forall insert_ok,
          (forall k, insert_ok k = true) ->
          SimpleImport.imported insert_ok 0 batches 0 = List.length rows).
Proof.
  intros rows batches E. unfold SimpleImport.inserted in E. inversion E as [B].
  assert (C : concat (Importer.chunks 50 (map SimpleImport.record_of_row rows))
              = map SimpleImport.record_of_row rows)
    by (apply PipelineProofs.concat_chunks; lia).
  split; [exact C|]. split.
  { apply BatchProofs.chunks_fuel_shape; [lia|apply Nat.le_refl]. }
  split.
  - intros insert_ok. rewrite imported_count. split; [reflexivity|].
    pose proof (PipelineProofs.count_upload_split (fun k => negb (insert_ok k))
                  (Importer.chunks 50 (map SimpleImport.record_of_row rows)) 0) as S.
    rewrite C, length_map in S. lia.
  - intros insert_ok A. rewrite imported_count.
    destruct (ImportProofs.count_uploaded_all (fun k => negb (insert_ok k))
                (Importer.chunks 50 (map SimpleImport.record_of_row rows))
                (fun k => f_equal negb (A k)) 0) as [-> _].
    rewrite C, length_map. reflexivity.
Qed.

Lemma X11_simple_import_batches_witness :
  SimpleImport.inserted true [Samples.row1; MoreSamples.row2]
  = Some [[SimpleImport.record_of_row Samples.row1;
           SimpleImport.record_of_row MoreSamples.row2]]
  /\ SimpleImport.imported (fun _ => true) 0
       [[SimpleImport.record_of_row Samples.row1;
         SimpleImport.record_of_row MoreSamples.row2]] 0 = 2.
Proof.
  split; [reflexivity|].
  destruct (X11_simple_import_batches [Samples.row1; MoreSamples.row2] _ eq_refl)
    as (_ & _ & _ & A).
  exact (A (fun _ => true) (fun _ => eq_refl)).
Defined.

(** *** The demo *)

Lemma set_add_keeps (dept : string) (s : list string) :
  In dept departments -> NoDup s -> incl s departments ->
  NoDup (DemoStats.set_add dept s) /\ incl (DemoStats.set_add dept s) departments.
Proof.
  intros I N S. unfold DemoStats.set_add.
  destruct (existsb (String.eqb dept) s) eqn:X; [split; assumption|].
  split.
  - apply NoDup_app; [exact N|repeat constructor; intros []|].
    intros x Hx [E|[]]. subst x.
    assert (Y : existsb (String.eqb dept) s = true).
    { apply existsb_exists. exists dept. split; [exact Hx|apply String.eqb_refl]. }
    congruence.
  - apply incl_app; [exact S|]. intros x [<-|[]]. exact I.
Qed.

(** What the handler of one row does to the counters. *)
Lemma on_data_ok (row : obj) (s s' : DemoStats.scan) :
  DemoStats.on_data row s = Ok s' ->
  DemoStats.recordCount s' = S (DemoStats.recordCount s)
  /\ DemoStats.emails s'
     = DemoStats.emails s
       + (if plain_contact row "Contact / Organizer" then 1 else 0)
  /\ DemoStats.dates s <= DemoStats.dates s' <= S (DemoStats.dates s)
  /\ (NoDup (DemoStats.departments s) /\ incl (DemoStats.departments s) departments ->
      NoDup (DemoStats.departments s') /\ incl (DemoStats.departments s') departments).
Proof.
  unfold DemoStats.on_data, plain_contact.
  set (dates' := if truthy (get row "When did the event occur?")
                 then S (DemoStats.dates s) else DemoStats.dates s).
  assert (D : DemoStats.dates s <= dates' <= S (DemoStats.dates s))
    by (unfold dates'; destruct (truthy _); lia).
  assert (K : forall emails',
             (if truthy (get row "Where (building/room #/lab)?")
              then match Demo.identifyDepartment (get row "Where (building/room #/lab)?") with
                   | Throw e => Throw e
                   | Uncaught e => Uncaught e
                   | Ok dept =>
                       Ok (DemoStats.mkScan (S (DemoStats.recordCount s))
                             (DemoStats.set_add dept (DemoStats.departments s))
                             emails' dates')
                   end
              else Ok (DemoStats.mkScan (S (DemoStats.recordCount s))
                         (DemoStats.departments s) emails' dates')) = Ok s' ->
             DemoStats.recordCount s' = S (DemoStats.recordCount s)
             /\ DemoStats.emails s' = emails'
             /\ DemoStats.dates s' = dates'
             /\ (NoDup (DemoStats.departments s)
                 /\ incl (DemoStats.departments s) departments ->
                 NoDup (DemoStats.departments s')
                 /\ incl (DemoStats.departments s') departments)).
  { intros emails'. destruct (truthy (get row "Where (building/room #/lab)?")).
    - destruct (Demo.identifyDepartment _) as [dept|e|e] eqn:I; [|discriminate..].
      intros E. inversion E. subst s'. cbn. repeat split; auto.
      + apply set_add_keeps; try tauto.
        rewrite DepartmentProofs.identifyDepartment_same in I.
        apply (BatchProofs.extractDepartment_closed _ _ I).
      + apply set_add_keeps; try tauto.
        rewrite DepartmentProofs.identifyDepartment_same in I.
        apply (BatchProofs.extractDepartment_closed _ _ I).
    - intros E. inversion E. subst s'. cbn. repeat split; tauto. }
  assert (W : forall emails' n,
             emails' = DemoStats.emails s + n ->
             (if truthy (get row "Where (building/room #/lab)?")
              then match Demo.identifyDepartment (get row "Where (building/room #/lab)?") with
                   | Throw e => Throw e
                   | Uncaught e => Uncaught e
                   | Ok dept =>
                       Ok (DemoStats.mkScan (S (DemoStats.recordCount s))
                             (DemoStats.set_add dept (DemoStats.departments s))
                             emails' dates')
                   end
              else Ok (DemoStats.mkScan (S (DemoStats.recordCount s))
                         (DemoStats.departments s) emails' dates')) = Ok s' ->
             DemoStats.recordCount s' = S (DemoStats.recordCount s)
             /\ DemoStats.emails s' = DemoStats.emails s + n
             /\ DemoStats.dates s <= DemoStats.dates s' <= S (DemoStats.dates s)
             /\ (NoDup (DemoStats.departments s)
                 /\ incl (DemoStats.departments s) departments ->
                 NoDup (DemoStats.departments s')
                 /\ incl (DemoStats.departments s') departments)).
  { intros emails' n Hn E. destruct (K _ E) as (A & B & C & F).
    split; [exact A|]. split; [congruence|]. split; [lia|exact F]. }
  destruct (get row "Contact / Organizer") as [| |b|z|c]; cbn [truthy negb].
  - apply W. lia.
  - apply W. lia.
  - destruct b; cbn [negb]; [discriminate|]. apply W. lia.
  - destruct (z =? 0)%Z; cbn [negb]; [|discriminate]. apply W. lia.
  - destruct (String.eqb_spec c "") as [->|N]; cbn [negb].
    + apply W. simpl. lia.
    + destruct (includes c "@"); apply W; lia.
Qed.

Lemma scan_rows_ok (rows : list obj) :
  forall s s',
    DemoStats.scan_rows rows s = Ok s' ->
    DemoStats.recordCount s' = DemoStats.recordCount s + List.length rows
    /\ DemoStats.emails s' = DemoStats.emails s + count_contact_rows rows
    /\ DemoStats.dates s <= DemoStats.dates s' <= DemoStats.dates s + List.length rows
    /\ (NoDup (DemoStats.departments s) /\ incl (DemoStats.departments s) departments ->
        NoDup (DemoStats.departments s') /\ incl (DemoStats.departments s') departments).
Proof.
  induction rows as [|row rows IH]; intros s s' E.
  - inversion E. subst. unfold count_contact_rows. simpl. repeat split; try lia; tauto.
  - cbn [DemoStats.scan_rows] in E.
    destruct (DemoStats.on_data row s) as [s1|e|e] eqn:O; [|discriminate..].
    destruct (on_data_ok row s s1 O) as (A1 & B1 & C1 & F1).
    destruct (IH s1 s' E) as (A2 & B2 & C2 & F2).
    unfold count_contact_rows in *. cbn [filter List.length].
    destruct (plain_contact row "Contact / Organizer"); cbn [List.length];
      (split; [lia|split; [lia|split; [lia|intros Hs; apply F2, F1, Hs]]]).
Qed.

(** X12.  When [processCSVDemo] reaches the end of the stream,
    totalRecords is the number of rows, emailsFound has grown by the
    number of rows whose contact has an [@], encryptionSimulated equals
    emailsFound, datesProcessed has grown by at most one per row, and
    departmentsIdentified is at most 5. *)
Theorem X12_demo_statistics :
  forall (rows : list obj) (st st' : DemoStats.stats),
    DemoStats.processCSVDemo rows st = Ok st' ->
    DemoStats.totalRecords st' = List.length rows
    /\ DemoStats.emailsFound st' = DemoStats.emailsFound st + count_contact_rows rows
    /\ DemoStats.encryptionSimulated st' = DemoStats.emailsFound st'
    /\ DemoStats.datesProcessed st <= DemoStats.datesProcessed st'
       <= DemoStats.datesProcessed st + List.length rows
    /\ DemoStats.departmentsIdentified st' <= 5.
Proof.
  intros rows st st'. unfold DemoStats.processCSVDemo.
  destruct (DemoStats.scan_rows rows _) as [s|e|e] eqn:E; [|discriminate..].
  intros X. inversion X. subst st'. cbn.
  destruct (scan_rows_ok rows _ s E) as (A & B & C & F). cbn in A, B, C, F.
  destruct F as [N I]; [split; [constructor|intros x []]|].
  repeat split; try lia.
  apply (NoDup_incl_length N I).
Qed.

Lemma X12_demo_statistics_witness :
  exists st',
    DemoStats.processCSVDemo [Samples.row1; MoreSamples.row2] DemoStats.new_stats
    = Ok st'
    /\ DemoStats.totalRecords st' = 2
    /\ DemoStats.emailsFound st' = 1.
Proof.
  destruct (DemoStats.processCSVDemo [Samples.row1; MoreSamples.row2]
              DemoStats.new_stats) as [st'|e|e] eqn:E;
    [|vm_compute in E; discriminate..].
  exists st'. split; [reflexivity|].
  destruct (X12_demo_statistics [Samples.row1; MoreSamples.row2]
              DemoStats.new_stats st' E) as (T & M & _).
  split; [exact T|exact M].
Defined.

(** On the rows of a CSV file the demo does not throw. *)
Lemma scan_rows_csv (rows : list obj) :
  Forall csv_row rows ->
  forall s, exists s', DemoStats.scan_rows rows s = Ok s'.
Proof.
  induction 1 as [|row rows C F IH]; intros s; [exists s; reflexivity|].
  cbn [DemoStats.scan_rows].
  assert (O : exists s1, DemoStats.on_data row s = Ok s1).
  { unfold DemoStats.on_data.
    destruct (ImportProofs.csv_cell_kind row "Contact / Organizer" C)
      as [->|(c & ->)];
      destruct (ImportProofs.csv_cell_kind row "Where (building/room #/lab)?" C)
        as [->|(l & ->)]; cbn [truthy negb].
    - eauto.
    - destruct (negb (l =? "")%string); [|eauto].
      rewrite DepartmentProofs.identifyDepartment_same,
        DepartmentProofs.extractDepartment_string. eauto.
    - destruct (negb (negb (c =? "")%string)); eauto.
    - destruct (negb (negb (c =? "")%string));
        (destruct (negb (l =? "")%string); [|eauto]);
        rewrite DepartmentProofs.identifyDepartment_same,
          DepartmentProofs.extractDepartment_string; eauto. }
  destruct O as (s1 & ->). apply IH.
Qed.

(** X13.  The demo announces what the import does: on a CSV file that
    the importer reads with credentials, a store that answers and an
    upload that does not throw, the demo's totalRecords is the
    importer's totalRecords and the demo's emailsFound (and
    encryptionSimulated) is the importer's encryptedFields. *)
Theorem X13_demo_predicts_import :
  forall (h : Importer.host) (rows : list obj),
    truthy (Importer.SUPABASE_URL h) = true ->
    truthy (Importer.SUPABASE_SERVICE_KEY h) = true ->
    Importer.connection_ok h = true ->
    Importer.csv_rows h = Ok rows ->
    Forall csv_row rows ->
    (forall k, Importer.upload_throws h k = false) ->
    exists demo,
      DemoStats.processCSVDemo rows DemoStats.new_stats = Ok demo
      /\ DemoStats.totalRecords demo
         = Importer.totalRecords (snd (Importer.importData h Importer.new_stats))
      /\ DemoStats.emailsFound demo
         = Importer.encryptedFields (snd (Importer.importData h Importer.new_stats))
      /\ DemoStats.encryptionSimulated demo = DemoStats.emailsFound demo.
Proof.
  intros h rows U K C R F T.
  destruct (ImportProofs.import_clean_file h rows U K C R F T)
    as (st' & -> & TR & _ & _ & EF & _).
  cbn [snd]. unfold DemoStats.processCSVDemo.
  destruct (scan_rows_csv rows F
              (DemoStats.mkScan 0 [] (DemoStats.emailsFound DemoStats.new_stats)
                 (DemoStats.datesProcessed DemoStats.new_stats))) as (s & E).
  rewrite E. eexists. split; [reflexivity|]. cbn.
  destruct (scan_rows_ok rows _ s E) as (A & B & _). cbn in A, B.
  rewrite TR, EF. repeat split; lia.
Qed.

Lemma X13_demo_predicts_import_witness :
  exists demo,
    DemoStats.processCSVDemo [Samples.row1; MoreSamples.row2] DemoStats.new_stats
    = Ok demo
    /\ DemoStats.emailsFound demo
       = Importer.encryptedFields
           (snd (Importer.importData MoreSamples.host2 Importer.new_stats)).
Proof.
  destruct (X13_demo_predicts_import MoreSamples.host2
              [Samples.row1; MoreSamples.row2]
              eq_refl eq_refl eq_refl eq_refl
              (Forall_cons _ ImportProofs.csv_row_row1
                 (Forall_cons _ ImportProofs.csv_row_row2 (Forall_nil _)))
              (fun _ => eq_refl))
    as (demo & E & _ & M & _).
  exists demo. split; [exact E|exact M].
Defined.

End OtherImportProofs.

(* ===================================================================== *)
(** ** The key manager                                                    *)
(* ===================================================================== *)

Module KeyManagerProofs.
Import JS Eff Spec Base64 Notions StringFacts Base64Proofs PlaceholderProofs.
Import KeyManager.

Lemma substring_append_right (s t : string) :
  substring (String.length s) (String.length t) (s ++ t) = t.
Proof.
  induction s as [|x s IH]; [apply substring_whole, Nat.le_refl|].
  cbn [String.length append substring]. exact IH.
Qed.

Section WithCrypto.
Variable CryptoKey : Type.
Variable aes_gcm_encrypt : CryptoKey -> string -> string -> option string.
Variable aes_gcm_decrypt : CryptoKey -> string -> string -> option string.
Variable TextDecoder_decode : string -> string.

(** What [decryptKey] does with the blob of [encryptKey]: the twelve
    bytes of the IV and the cipher text come out of the base64 text as
    they went in. *)
Lemma decrypt_of_encrypt (m : manager CryptoKey) (key : CryptoKey)
    (iv plainKey encrypted : string) :
  initialized CryptoKey m = true ->
  encryptionKey CryptoKey m = Some key ->
  String.length iv = 12 ->
  aes_gcm_encrypt key iv plainKey = Some encrypted ->
  encryptKey CryptoKey aes_gcm_encrypt m iv plainKey
  = Ok (b64_encode (iv ++ encrypted))
  /\ decryptKey CryptoKey aes_gcm_decrypt TextDecoder_decode m
       (b64_encode (iv ++ encrypted))
     = match aes_gcm_decrypt key iv encrypted with
       | Some decrypted => Ok (TextDecoder_decode decrypted)
       | None => Throw "OperationError"
       end.
Proof.
  intros I K L E. unfold KeyManager.encryptKey, KeyManager.decryptKey.
  rewrite I, K, E. cbn [negb]. split; [reflexivity|].
  rewrite atob_encode, length_append, L.
  replace (12 + String.length encrypted - 12) with (String.length encrypted) by lia.
  rewrite <- L at 2. rewrite substring_append_right.
  rewrite <- L. rewrite substring_append_left. reflexivity.
Qed.

End WithCrypto.

(** X14.  The blob of [encryptKey] is the base64 text of the IV followed
    by the cipher text; it has no [@] and [atob] gives the bytes back.
    [decryptKey], on the same manager, hands the cipher exactly the IV
    and the cipher text that [encryptKey] got, so that when the cipher
    inverts itself on them and the decoder returns the plain text, the
    key comes back. *)
Theorem X14_decryptKey_undoes_encryptKey :
  forall (CryptoKey : Type)
         (aes_gcm_encrypt aes_gcm_decrypt : CryptoKey -> string -> string -> option string)
         (TextDecoder_decode : string -> string)
         (m : manager CryptoKey) (key : CryptoKey)
         (iv plainKey encrypted : string),
    initialized CryptoKey m = true ->
    encryptionKey CryptoKey m = Some key ->
    String.length iv = 12 ->
    aes_gcm_encrypt key iv plainKey = Some encrypted ->
    aes_gcm_decrypt key iv encrypted = Some plainKey ->
    TextDecoder_decode plainKey = plainKey ->
    exists blob,
      encryptKey CryptoKey aes_gcm_encrypt m iv plainKey = Ok blob
      /\ atob blob = Some (iv ++ encrypted)
      /\ includes blob "@" = false
      /\ decryptKey CryptoKey aes_gcm_decrypt TextDecoder_decode m blob = Ok plainKey.
Proof.
  intros CryptoKey enc dec decode m key iv plainKey encrypted I K L E D T.
  destruct (decrypt_of_encrypt CryptoKey enc dec decode m key iv plainKey encrypted
              I K L E) as [A B].
  exists (b64_encode (iv ++ encrypted)). split; [exact A|].
  split; [apply atob_encode|]. split.
  - change "@" with (str1 "@"%char). rewrite includes_char. apply b64_encode_chars.
  - rewrite B, D, T. reflexivity.
Qed.

Lemma X14_decryptKey_undoes_encryptKey_witness :
  exists blob,
    encryptKey string toy_encrypt (mkManager string (Some "k") true)
      MoreSamples.iv12 "service-key" = Ok blob
    /\ decryptKey string toy_decrypt toy_decode (mkManager string (Some "k") true) blob
       = Ok "service-key".
Proof.
  destruct (X14_decryptKey_undoes_encryptKey string toy_encrypt toy_decrypt toy_decode
              (mkManager string (Some "k") true) "k" MoreSamples.iv12
              "service-key" "service-key"
              eq_refl eq_refl eq_refl eq_refl eq_refl eq_refl)
    as (blob & E & _ & _ & D).
  exists blob. split; [exact E|exact D].
Defined.

(** X15.  A configuration made by [generateEncryptedConfig] is read
    back by [loadEncryptedServiceKey] with the same password, on any
    manager whatever its earlier state, when the key derives, the
    cipher inverts itself and the decoder returns the plain text.  A
    configuration that is not marked encrypted is returned as it is,
    the password not being looked at and the manager left alone. *)
Theorem X15_config_round_trip :
  forall (CryptoKey : Type) (deriveKey : string -> option CryptoKey)
         (aes_gcm_encrypt aes_gcm_decrypt : CryptoKey -> string -> string -> option string)
         (TextDecoder_decode : string -> string)
         (m1 m2 : manager CryptoKey) (key : CryptoKey)
         (iv plainServiceKey masterPassword now encrypted : string),
    deriveKey masterPassword = Some key ->
    String.length iv = 12 ->
    aes_gcm_encrypt key iv plainServiceKey = Some encrypted ->
    aes_gcm_decrypt key iv encrypted = Some plainServiceKey ->
    TextDecoder_decode plainServiceKey = plainServiceKey ->
    (exists cfg,
        fst (generateEncryptedConfig CryptoKey deriveKey aes_gcm_encrypt
               m1 iv plainServiceKey masterPassword now) = Ok cfg
        /\ KeyManager.encrypted cfg = true
        /\ fst (loadEncryptedServiceKey CryptoKey deriveKey aes_gcm_decrypt
                  TextDecoder_decode m2 cfg masterPassword) = Ok plainServiceKey)
    /\ (forall cfg password,
          KeyManager.encrypted cfg = false ->
          loadEncryptedServiceKey CryptoKey deriveKey aes_gcm_decrypt
            TextDecoder_decode m2 cfg password = (Ok (serviceKey cfg), m2)).
Proof.
  intros CryptoKey derive enc dec decode m1 m2 key iv plain pw now encrypted
         K L E D T.
  split.
  - unfold generateEncryptedConfig, loadEncryptedServiceKey, KeyManager.initialize.
    rewrite K. cbn [snd].
    destruct (decrypt_of_encrypt CryptoKey enc dec decode
                (mkManager CryptoKey (Some key) true) key iv plain encrypted
                eq_refl eq_refl L E) as [A B].
    rewrite A. eexists. split; [reflexivity|]. split; [reflexivity|].
    cbn [KeyManager.encrypted KeyManager.serviceKey negb fst].
    rewrite B, D, T. reflexivity.
  - intros cfg password N. unfold loadEncryptedServiceKey. rewrite N. reflexivity.
Qed.

Lemma X15_config_round_trip_witness :
  exists cfg,
    fst (generateEncryptedConfig string toy_derive toy_encrypt
           (new_manager string) MoreSamples.iv12 "service-key" "pw" "t") = Ok cfg
    /\ fst (loadEncryptedServiceKey string toy_derive toy_decrypt toy_decode
              (new_manager string) cfg "pw") = Ok "service-key".
Proof.
  destruct (X15_config_round_trip string toy_derive toy_encrypt toy_decrypt toy_decode
              (new_manager string) (new_manager string) "pw" MoreSamples.iv12
              "service-key" "pw" "t" "service-key"
              eq_refl eq_refl eq_refl eq_refl eq_refl)
    as [(cfg & G & _ & Ld) _].
  exists cfg. split; [exact G|exact Ld].
Defined.

End KeyManagerProofs.

(* ===================================================================== *)
(** ** The portal: validation, submission and export                      *)
(* ===================================================================== *)

Module PortalProofs.
Import JS Eff Spec Notions StringFacts ObjFacts PlaceholderProofs.
Import PortalForm.

(** *** The e-mail pattern *)

Lemma split_at_spec (s before after : string) :
  split_at s = Some (before, after) ->
  s = before ++ "@" ++ after /\ has_char "@" before = false.
Proof.
  revert before. induction s as [|c s IH]; intros before; [discriminate|].
  cbn [split_at]. destruct (Ascii.eqb_spec c "@"%char) as [->|N].
  - intros E. inversion E. subst. split; reflexivity.
  - destruct (split_at s) as [[b a]|]; [|discriminate].
    intros E. inversion E. subst. destruct (IH b eq_refl) as [-> H].
    split; [reflexivity|]. cbn [has_char]. rewrite H.
    destruct (Ascii.eqb_spec c "@"%char); [contradiction|reflexivity].
Qed.

Lemma split_at_append (before after : string) :
  has_char "@" before = false ->
  split_at (before ++ "@" ++ after) = Some (before, after).
Proof.
  change ("@" ++ after) with (String "@"%char after).
  induction before as [|c before IH]; [reflexivity|].
  cbn [has_char append split_at]. intros H.
  apply orb_false_iff in H. destruct H as [C H].
  rewrite C, (IH H). reflexivity.
Qed.

Lemma dot_before_last_spec (r : string) :
  dot_before_last r = true <-> exists x y, r = x ++ "." ++ y /\ y <> "".
Proof.
  split.
  - induction r as [|c r IH]; [discriminate|].
    cbn [dot_before_last]. destruct r as [|d r]; [discriminate|].
    intros H. apply orb_true_iff in H. destruct H as [H|H].
    + apply Ascii.eqb_eq in H. subst c.
      exists "", (String d r). split; [reflexivity|discriminate].
    + destruct (IH H) as (x & y & E & Y).
      exists (String c x), y. split; [|exact Y]. cbn [append]. rewrite E. reflexivity.
  - intros (x & y & -> & Y). induction x as [|c x IH].
    + destruct y as [|d y]; [contradiction|]. reflexivity.
    + change (String c x ++ "." ++ y) with (String c (x ++ "." ++ y)).
      destruct (x ++ "." ++ y) as [|d r] eqn:E; [destruct x; discriminate|].
      change (dot_before_last (String c (String d r)))
        with (Ascii.eqb c "." || dot_before_last (String d r)).
      rewrite IH. apply orb_true_r.
Qed.

(** The test accepts exactly the texts of the shape. *)
Lemma emailRegex_spec (s : string) :
  emailRegex_test s = true <-> address_shaped s.
Proof.
  unfold emailRegex_test, address_shaped. split.
  - intros H. apply andb_true_iff in H. destruct H as [W H].
    apply negb_true_iff in W.
    destruct (split_at s) as [[before after]|] eqn:S; [|discriminate].
    destruct (split_at_spec s before after S) as [E B].
    apply andb_true_iff in H. destruct H as [H D].
    apply andb_true_iff in H. destruct H as [L A].
    apply negb_true_iff in L, A. apply String.eqb_neq in L.
    change "@" with (str1 "@"%char) in A. rewrite includes_char in A.
    destruct after as [|c r]; [discriminate|].
    apply dot_before_last_spec in D. destruct D as (x & y & -> & Y).
    exists before, (String c x), y.
    change (String c (x ++ "." ++ y)) with (String c x ++ "." ++ y) in *.
    rewrite !has_char_append in A.
    apply orb_false_iff in A. destruct A as [A1 A2].
    apply orb_false_iff in A2. destruct A2 as [_ A2].
    repeat split; try assumption; discriminate.
  - intros (before & name & rest & -> & L & N & R & W & B & A1 & A2).
    rewrite W, (split_at_append before _ B). cbn [negb andb].
    apply andb_true_iff. split; [apply andb_true_iff; split|].
    + apply negb_true_iff, String.eqb_neq, L.
    + apply negb_true_iff.
      change "@" with (str1 "@"%char) at 1. rewrite includes_char.
      rewrite !has_char_append, A1, A2. reflexivity.
    + destruct name as [|c x]; [contradiction|]. cbn [append].
      apply dot_before_last_spec. exists x, rest. auto.
Qed.

(** A string that passes the e-mail test has an [@]. *)
Lemma emailRegex_at (s : string) :
  emailRegex_test s = true -> includes s "@" = true.
Proof.
  intros E. apply emailRegex_spec in E.
  destruct E as (before & name & rest & -> & _).
  change "@" with (str1 "@"%char) at 2. rewrite includes_char.
  rewrite has_char_append. apply orb_true_iff. right. reflexivity.
Qed.

Lemma flat_map_nil {A B} (f : A -> list B) (l : list A) :
  flat_map f l = [] <-> forall x, In x l -> f x = [].
Proof.
  induction l as [|a l IH]; simpl.
  - split; [intros _ x []|reflexivity].
  - split.
    + intros E. apply app_eq_nil in E. destruct E as [E1 E2].
      intros x [<-|I]; [exact E1|]. apply IH; assumption.
    + intros H. rewrite (H a (or_introl eq_refl)).
      apply IH. intros x I. apply H. right. exact I.
Qed.

Lemma in_keys_of_get (o : obj) (k : string) :
  get o k <> VUndef -> In k (keys o).
Proof.
  induction o as [|[k' v] o IH]; simpl; [congruence|].
  destruct (String.eqb_spec k' k); [left; assumption|].
  intros H. right. apply IH, H.
Qed.

Lemma required_errors_nil (names : list string) (formData : obj) :
  required_errors names formData = []
  <-> forall fieldName,
        In fieldName names ->
        (has formData fieldName = false /\ inherited fieldName = true)
        \/ (truthy (get formData fieldName) = true
            /\ trim (toStr (get formData fieldName)) <> "").
Proof.
  unfold required_errors. rewrite flat_map_nil.
  split; intros H fieldName I; specialize (H fieldName I); cbv beta in *;
    unfold missing in *.
  - destruct (has formData fieldName); destruct (inherited fieldName);
      cbn [negb andb] in H; auto;
      destruct (truthy (get formData fieldName)); cbn [negb orb] in H;
      try discriminate;
      destruct (String.eqb_spec (trim (toStr (get formData fieldName))) "");
      try discriminate; auto.
  - destruct H as [[-> ->]|[T B]]; [reflexivity|].
    rewrite T. cbn [negb orb].
    destruct (String.eqb_spec (trim (toStr (get formData fieldName))) "");
      [contradiction|].
    destruct (negb (has formData fieldName) && inherited fieldName); reflexivity.
Qed.

Lemma email_errors_nil (formData : obj) :
  email_errors formData = []
  <-> forall key,
        includes key "email" || includes key "organizer" = true ->
        truthy (get formData key) = true ->
        emailRegex_test (toStr (get formData key)) = true.
Proof.
  unfold email_errors. rewrite flat_map_nil. split.
  - intros M key N T.
    assert (I : In key (keys formData)).
    { apply in_keys_of_get. intros U. rewrite U in T. discriminate. }
    specialize (M key I). cbv beta in M. rewrite N, T in M. cbn [andb] in M.
    destruct (emailRegex_test _); [reflexivity|discriminate].
  - intros M key I.
    destruct (includes key "email" || includes key "organizer") eqn:N;
      [|reflexivity].
    destruct (truthy (get formData key)) eqn:T; [|reflexivity].
    cbn [andb]. rewrite (M key N T). reflexivity.
Qed.

Lemma validation_shape (templateId : string) (templateConfig : stored)
    (formData : obj) (v : validation) :
  validateFormData templateId templateConfig formData = Ok v ->
  exists names,
    requiredFields templateId templateConfig = Ok names
    /\ errors v = (required_errors names formData ++ email_errors formData)%list
    /\ (isValid v = true
        <-> required_errors names formData = [] /\ email_errors formData = []).
Proof.
  unfold validateFormData.
  destruct (requiredFields templateId templateConfig) as [names|e|e]; [|discriminate..].
  intros E. inversion E. subst v. clear E. exists names.
  split; [reflexivity|]. split; [reflexivity|].
  cbn [isValid].
  destruct (required_errors names formData ++ email_errors formData)%list
    as [|x l] eqn:A.
  - apply app_eq_nil in A. split; [intros _; exact A|reflexivity].
  - split; [discriminate|]. intros [R M]. rewrite R, M in A. discriminate.
Qed.


(** The value that [submitForm] picks as the address. *)
Lemma submitted_address (u : Portal.session) (templateId : string)
    (templateConfig : stored) (formData dbData : obj) (v : validation) :
  validateFormData templateId templateConfig formData = Ok v ->
  Portal.formValid u = isValid v ->
  Portal.submitForm u formData = Some dbData ->
  truthy (get formData "contact_organizer")
  || truthy (get formData "requester_email") = true ->
  exists s,
    or_else (get formData "contact_organizer") (get formData "requester_email")
    = VStr s
    /\ includes s "@" = true.
Proof.
  intros V F S T. unfold Portal.submitForm in S.
  destruct (negb (Portal.isConnected u)); [discriminate|].
  destruct (negb (Portal.hasTemplate u)); [discriminate|].
  destruct (Portal.formValid u) eqn:FV; cbn [negb] in S; [|discriminate].
  destruct (validation_shape templateId templateConfig formData v V)
    as (names & _ & _ & I).
  symmetry in F. apply I in F. destruct F as [_ M].
  rewrite email_errors_nil in M.
  unfold Portal.encrypt_contact in S.
  rewrite !ContactProofs.prepare_keeps in S by discriminate.
  rewrite T in S.
  assert (X : exists key,
             (key = "contact_organizer" \/ key = "requester_email")
             /\ or_else (get formData "contact_organizer")
                        (get formData "requester_email") = get formData key
             /\ truthy (get formData key) = true).
  { unfold or_else.
    destruct (truthy (get formData "contact_organizer")) eqn:C.
    - exists "contact_organizer". auto.
    - exists "requester_email". auto. }
  destruct X as (key & KK & O & TK). rewrite O in *.
  assert (N : includes key "email" || includes key "organizer" = true)
    by (destruct KK as [-> | ->]; reflexivity).
  specialize (M key N TK).
  destruct (get formData key) as [| |b|z|s]; try discriminate.
  exists s. split; [reflexivity|]. apply emailRegex_at, M.
Qed.



(** X18.  Whatever the form holds, the record that [submitForm] sends
    is stamped by the session: [created_by] is the user's address,
    [department] the user's department, [security_classification] is
    "internal", [source_file] names the template and [created_at] is
    the time of the submission; a form field of one of these names is
    overwritten.  Every other field, but for the contact fields and
    their two replacements, is sent as the form holds it. *)
Theorem X18_submission_is_stamped :
  forall (u : Portal.session) (formData dbData : obj),
    Portal.submitForm u formData = Some dbData ->
    get dbData "created_by" = VStr (Portal.user_email u)
    /\ get dbData "department" = VStr (Portal.user_department u)
    /\ get dbData "security_classification" = VStr "internal"
    /\ get dbData "source_file"
       = VStr (Portal.template_name u ++ " - User Submission")
    /\ get dbData "created_at" = VStr (Portal.submit_time u)
    /\ (forall k,
          ~ In k ["created_by"; "department"; "security_classification";
                  "source_file"; "created_at"; "contact_organizer";
                  "requester_email"; "contact_organizer_encrypted";
                  "contact_organizer_hash"] ->
          get dbData k = get formData k).
Proof.
  intros u formData dbData S. unfold Portal.submitForm in S.
  destruct (negb (Portal.isConnected u)); [discriminate|].
  destruct (negb (Portal.hasTemplate u)); [discriminate|].
  destruct (negb (Portal.formValid u)); [discriminate|].
  assert (P : get (Portal.prepare u formData) "created_by" = VStr (Portal.user_email u)
              /\ get (Portal.prepare u formData) "department"
                 = VStr (Portal.user_department u)
              /\ get (Portal.prepare u formData) "security_classification"
                 = VStr "internal"
              /\ get (Portal.prepare u formData) "source_file"
                 = VStr (Portal.template_name u ++ " - User Submission")
              /\ get (Portal.prepare u formData) "created_at"
                 = VStr (Portal.submit_time u)).
  { unfold Portal.prepare. rewrite BatchProofs.assign5.
    repeat rewrite ?get_set_same, ?get_set_other by discriminate. auto 6. }
  assert (Q : forall k,
             ~ In k ["created_by"; "department"; "security_classification";
                     "source_file"; "created_at"; "contact_organizer";
                     "requester_email"; "contact_organizer_encrypted";
                     "contact_organizer_hash"] ->
             get (Portal.prepare u formData) k = get formData k).
  { intros k N. apply ContactProofs.prepare_keeps;
      intros ->; apply N; simpl; auto 10. }
  unfold Portal.encrypt_contact in S.
  destruct (truthy _ || truthy _).
  - destruct (or_else _ _) as [| |b|z|s]; try discriminate.
    destruct (includes s "@").
    + destruct (Portal.encryptData s) as [enc|e|e]; [|discriminate..].
      destruct (Portal.hashData s) as [hsh|e|e]; [|discriminate..].
      inversion S. subst dbData. clear S.
      repeat rewrite ?get_delete_other, ?get_set_other by discriminate.
      destruct P as (P1 & P2 & P3 & P4 & P5).
      repeat (split; [assumption|]).
      intros k N. rewrite <- (Q k N).
      rewrite !get_delete_other, !get_set_other;
        try reflexivity; intros K; subst k; apply N; simpl; auto 10.
    + inversion S. subst dbData.
      destruct P as (P1 & P2 & P3 & P4 & P5). repeat (split; [assumption|]). exact Q.
  - inversion S. subst dbData.
    destruct P as (P1 & P2 & P3 & P4 & P5). repeat (split; [assumption|]). exact Q.
Qed.

Lemma X18_submission_is_stamped_witness :
  exists dbData,
    Portal.submitForm Samples.session1
      (("created_by", VStr "someone@else.example") :: Samples.form1) = Some dbData
    /\ get dbData "created_by" = VStr "user@plant.example".
Proof.
  destruct (Portal.submitForm Samples.session1
              (("created_by", VStr "someone@else.example") :: Samples.form1))
    as [dbData|] eqn:E; [|vm_compute in E; discriminate].
  exists dbData. split; [reflexivity|].
  exact (proj1 (X18_submission_is_stamped Samples.session1 _ dbData E)).
Defined.

(** X19.  On a value of ASCII characters the portal and the bulk
    importer agree: [encryptData] and [hashData] return what
    [simpleEncrypt] and [simpleHash] return, so the same address gets
    the same encrypted value and the same lookup hash on both paths. *)
Theorem X19_portal_and_importer_agree :
  forall data : string,
    is_ascii data = true ->
    Portal.encryptData data = Ok (Importer.simpleEncrypt data)
    /\ Portal.hashData data = Ok (Importer.simpleHash data).
Proof.
  assert (L : forall s, is_ascii s = true -> latin1_units s = Some s).
  { induction s as [|c s IH]; [reflexivity|]. cbn [is_ascii latin1_units].
    intros H. apply andb_true_iff in H. destruct H as [C H].
    rewrite C, (IH H). reflexivity. }
  assert (A : forall s t, is_ascii s = true -> is_ascii t = true ->
                          is_ascii (s ++ t) = true).
  { induction s as [|c s IH]; intros t Hs Ht; [exact Ht|].
    cbn [append is_ascii] in *. apply andb_true_iff in Hs. destruct Hs as [C Hs].
    rewrite C, (IH t Hs Ht). reflexivity. }
  intros data H. unfold Portal.encryptData, Portal.hashData, btoa.
  rewrite (L data H), (L (data ++ "salt") (A data "salt" H eq_refl)).
  split; reflexivity.
Qed.

Lemma X19_portal_and_importer_agree_witness :
  is_ascii "a@b.c" = true
  /\ Portal.hashData "a@b.c" = Ok (Importer.simpleHash "a@b.c").
Proof.
  split; [reflexivity|].
  exact (proj2 (X19_portal_and_importer_agree "a@b.c" eq_refl)).
Defined.

(** *** Exports *)

(** X20.  The Excel export gives one row per record; every column of a
    row is the name of a field of its record that the filter keeps,
    with its first underscore turned into a blank, and no column name
    contains "encrypted" or "hash" or is "audit_log". *)
Theorem X20_excel_columns :
  forall data : list obj,
    List.length (Portal.exportToExcel data) = List.length data
    /\ Forall2 (fun record row =>
                  forall k, In k (keys row) ->
                    sensitive_name k = false
                    /\ exists key, In key (keys record)
                                   /\ Portal.excel_keeps key = true
                                   /\ k = replaceFirst "_" " " key)
               data (Portal.exportToExcel data).
Proof.
  intros data. unfold Portal.exportToExcel. split; [apply length_map|].
  induction data as [|record data IH]; [constructor|].
  cbn [map]. constructor; [|exact IH].
  intros k K. unfold Portal.clean_record in K.
  destruct (ExportProofs.clean_fold_keys _ _ _ _ K) as [[]|(key & I & E & ->)].
  split; [apply ExportProofs.renamed_not_sensitive, E|].
  exists key. auto.
Qed.

Lemma prefix_append (s t : string) : prefix s (s ++ t) = true.
Proof.
  induction s as [|c s IH]; [apply prefix_empty|].
  cbn [append prefix]. destruct (ascii_dec c c); [exact IH|contradiction].
Qed.


End PortalProofs.

(* ===================================================================== *)
(** ** The data hash of the bulk importer                                 *)
(* ===================================================================== *)

Module DataHashProofs.
Import JS Eff Spec Notions ObjFacts PlaceholderProofs.
Import Importer.

Lemma json_escape_first (c : ascii) : exists c1 r, json_escape c = String c1 r.
Proof.
  destruct c as [[] [] [] [] [] [] [] []]; vm_compute; eexists; eexists; reflexivity.
Qed.

Lemma first_two (a b : ascii) (rest : string) :
  substring 0 2 (json_escape a ++ json_escape b ++ rest)
  = substring 0 2 (json_escape a ++ json_escape b).
Proof.
  destruct (json_escape_first a) as (a1 & ra & ->).
  destruct (json_escape_first b) as (b1 & rb & ->).
  assert (Z : forall s, substring 0 0 s = "") by (destruct s; reflexivity).
  destruct ra as [|a2 ra]; cbn [append substring]; rewrite !Z; reflexivity.
Qed.

Lemma record_of_row_fields (h : host) (row r : obj) (st st' : importStats) :
  record_of_row h row st = (Ok r, st') ->
  exists event_occurred event_detected,
    r = [("original_id", get row "ID");
         ("short_description", get row "Short Description");
         ("contact_organizer", get row "Contact / Organizer");
         ("location", get row "Where (building/room #/lab)?");
         ("event_occurred", event_occurred);
         ("event_detected", event_detected);
         ("expected_results", get row "Expected Results");
         ("process_confidence", get row "Based on process conf., Gemba 100% effective");
         ("gemba_outcome", get row "Outcome of Gemba")].
Proof.
  unfold record_of_row, bind, ret.
  destruct (parseDate h (get row "When did the event occur?") st) as [[d1|e|e] s1];
    [|discriminate..].
  destruct (parseDate h (get row "When was the event detected?") s1) as [[d2|e|e] s2];
    [|discriminate..].
  intros E. exists d1, d2. congruence.
Qed.

Lemma hash_head (a b : ascii) (t : string) (members : list string) :
  substring 0 24
    (json_object
       ((json_quote "contact_organizer" ++ ":" ++ json_quote (String a (String b t)))
        :: members) ++ "salt")
  = "{" ++ json_quote "contact_organizer" ++ ":" ++ str1 dquote
    ++ substring 0 2 (json_escape a ++ json_escape b).
Proof.
  unfold json_object.
  set (q := json_quote "contact_organizer"). vm_compute in q. subst q.
  unfold json_quote. cbn [json_escape_all].
  destruct members as [|m members]; cbn [join];
    repeat (rewrite ?append_assoc; cbn [append str1]);
    cbn [substring]; rewrite first_two; reflexivity.
Qed.

Lemma data_hash_of_row (h : host) (row r : obj) (st st' : importStats)
    (a b : ascii) (t : string) :
  record_of_row h row st = (Ok r, st') ->
  get row "Contact / Organizer" = VStr (String a (String b t)) ->
  generateDataHash r
  = b64_encode ("{" ++ json_quote "contact_organizer" ++ ":" ++ str1 dquote
                ++ substring 0 2 (json_escape a ++ json_escape b)).
Proof.
  intros R C. destruct (record_of_row_fields h row r st st' R) as (d1 & d2 & ->).
  unfold generateDataHash. rewrite PlaceholderProofs.simpleHash_prefix.
  unfold JSON_stringify_keys.
  cbn [keys map fst].
  set (ks := nodup string_dec _). vm_compute in ks. subst ks.
  unfold json_members. cbn [flat_map].
  change (get _ "contact_organizer") with (get row "Contact / Organizer").
  rewrite C. cbn [json_member json_value].
  change ([?m] ++ ?l)%list with (m :: l).
  rewrite hash_head. reflexivity.
Qed.

(** X22.  The data hash of a record is taken from the first 24 bytes of
    its serialization with sorted keys, and for a record read from the
    file these are the name [contact_organizer] and the first two
    bytes of the contact (its first two characters, in ASCII): two rows
    whose contacts begin with the same two bytes get the same
    [data_hash], whatever the rest of the rows holds. *)
Theorem X22_data_hash_reads_two_characters :
  forall (h : host) (row1 row2 r1 r2 : obj) (st1 st1' st2 st2' : importStats)
         (a b : ascii) (t1 t2 : string),
    record_of_row h row1 st1 = (Ok r1, st1') ->
    record_of_row h row2 st2 = (Ok r2, st2') ->
    get row1 "Contact / Organizer" = VStr (String a (String b t1)) ->
    get row2 "Contact / Organizer" = VStr (String a (String b t2)) ->
    generateDataHash r1 = generateDataHash r2.
Proof.
  intros h row1 row2 r1 r2 st1 st1' st2 st2' a b t1 t2 R1 R2 C1 C2.
  rewrite (data_hash_of_row h row1 r1 st1 st1' a b t1 R1 C1).
  rewrite (data_hash_of_row h row2 r2 st2 st2' a b t2 R2 C2).
  reflexivity.
Qed.

Lemma X22_data_hash_reads_two_characters_witness :
  exists r1 r3,
    fst (record_of_row Samples.host1 Samples.row1 new_stats) = Ok r1
    /\ fst (record_of_row Samples.host1 MoreSamples.row3 new_stats) = Ok r3
    /\ get r1 "original_id" <> get r3 "original_id"
    /\ generateDataHash r1 = generateDataHash r3.
Proof.
  destruct (record_of_row Samples.host1 Samples.row1 new_stats) as [[r1|e|e] s1] eqn:E1;
    [|vm_compute in E1; discriminate..].
  destruct (record_of_row Samples.host1 MoreSamples.row3 new_stats) as [[r3|e|e] s3] eqn:E3;
    [|vm_compute in E3; discriminate..].
  exists r1, r3. split; [reflexivity|]. split; [reflexivity|]. split.
  - vm_compute in E1, E3. inversion E1. inversion E3. vm_compute. discriminate.
  - exact (X22_data_hash_reads_two_characters Samples.host1 Samples.row1
             MoreSamples.row3 r1 r3 new_stats s1 new_stats s3
             "a"%char "@"%char "b.c" "other.example" E1 E3 eq_refl eq_refl).
Defined.

(** The default order of [sort] on strings. *)
Lemma leb_trans (s1 s2 s3 : string) :
  String.leb s1 s2 = true -> String.leb s2 s3 = true -> String.leb s1 s3 = true.
Proof.
  unfold String.leb.
  assert (T : forall s1 s2 s3,
             String.compare s1 s2 <> Gt -> String.compare s2 s3 <> Gt ->
             String.compare s1 s3 <> Gt).
  { clear. induction s1 as [|c1 s1 IH]; intros [|c2 s2] [|c3 s3];
      cbn [String.compare]; try congruence.
    unfold Ascii.compare.
    destruct (N.compare_spec (N_of_ascii c1) (N_of_ascii c2)) as [E12|L12|G12];
      destruct (N.compare_spec (N_of_ascii c2) (N_of_ascii c3)) as [E23|L23|G23];
      destruct (N.compare_spec (N_of_ascii c1) (N_of_ascii c3)) as [E13|L13|G13];
      try congruence; try lia.
    apply IH. }
  intros A B.
  pose proof (T s1 s2 s3) as H.
  destruct (String.compare s1 s2); destruct (String.compare s2 s3);
    destruct (String.compare s1 s3); try discriminate; try reflexivity;
    exfalso; apply H; congruence.
Qed.

Lemma leb_false (s1 s2 : string) : String.leb s1 s2 = false -> String.leb s2 s1 = true.
Proof.
  intros F. destruct (String.leb_total s1 s2) as [H|H]; [congruence|exact H].
Qed.

Lemma insert_sorted_comm (x y : string) (l : list string) :
  insert_sorted x (insert_sorted y l) = insert_sorted y (insert_sorted x l).
Proof.
  induction l as [|z l IH]; cbn [insert_sorted].
  - destruct (String.leb x y) eqn:XY; destruct (String.leb y x) eqn:YX;
      cbn [insert_sorted]; rewrite ?XY, ?YX; try reflexivity.
    + rewrite (String.leb_antisym x y XY YX). reflexivity.
    + apply leb_false in XY. congruence.
  - destruct (String.leb y z) eqn:YZ; destruct (String.leb x z) eqn:XZ;
      cbn [insert_sorted]; rewrite ?YZ, ?XZ.
    + destruct (String.leb x y) eqn:XY; destruct (String.leb y x) eqn:YX;
        rewrite ?XZ, ?YZ; try reflexivity.
      * rewrite (String.leb_antisym x y XY YX). reflexivity.
      * apply leb_false in XY. congruence.
    + destruct (String.leb x y) eqn:XY; rewrite ?XZ; [|reflexivity].
      rewrite (leb_trans x y z XY YZ) in XZ. discriminate.
    + destruct (String.leb y x) eqn:YX; rewrite ?YZ; [|reflexivity].
      rewrite (leb_trans y x z YX XZ) in YZ. discriminate.
    + rewrite IH. reflexivity.
Qed.

Lemma sort_permutation (l1 l2 : list string) :
  Permutation l1 l2 -> sort l1 = sort l2.
Proof.
  unfold sort. induction 1 as [|x l1 l2 P IH|x y l|l1 l2 l3 P1 IH1 P2 IH2];
    cbn [fold_right].
  - reflexivity.
  - rewrite IH. reflexivity.
  - apply insert_sorted_comm.
  - congruence.
Qed.

(** X23.  The data hash does not depend on the order of the fields: two
    records with the same field names, in any order, and the same
    values have the same [data_hash]. *)
Theorem X23_data_hash_ignores_field_order :
  forall r1 r2 : obj,
    Permutation (keys r1) (keys r2) ->
    (forall k, get r1 k = get r2 k) ->
    generateDataHash r1 = generateDataHash r2.
Proof.
  intros r1 r2 P G. unfold generateDataHash, JSON_stringify_keys.
  rewrite (sort_permutation _ _ P). f_equal. f_equal.
  unfold json_members. apply flat_map_ext. intros k. rewrite G. reflexivity.
Qed.

Lemma X23_data_hash_ignores_field_order_witness :
  generateDataHash [("location", VStr "NYA"); ("original_id", VStr "7")]
  = generateDataHash [("original_id", VStr "7"); ("location", VStr "NYA")].
Proof.
  apply X23_data_hash_ignores_field_order.
  - apply perm_swap.
  - intros k. cbn [get].
    destruct (String.eqb_spec "location" k) as [L|L];
      destruct (String.eqb_spec "original_id" k) as [O|O];
      try reflexivity.
    subst k. discriminate.
Defined.

End DataHashProofs.

(* ===================================================================== *)
(** ** The configuration loader                                           *)
(* ===================================================================== *)

Module LoaderProofs.
Import JS Eff Notions Base64Proofs.
Import ConfigLoader.

(** X24.  A configuration made by [generateEncryptedConfig] is unlocked
    by the loader when the user types the password: the first
    [getSecureConfig(true)] asks once, returns the service key and
    keeps it; the next one returns it without asking.  A dialog that
    is cancelled throws and keeps nothing.  [getSecureConfig(false)]
    never asks and never carries the service key, and after
    [clearServiceKey] the loader has no key. *)
Theorem X24_loader_unlocks_once :
  forall (CryptoKey : Type) (deriveKey : string -> option CryptoKey)
         (aes_gcm_encrypt aes_gcm_decrypt : CryptoKey -> string -> string -> option string)
         (TextDecoder_decode : string -> string)
         (m0 : KeyManager.manager CryptoKey) (key : CryptoKey)
         (iv plainServiceKey masterPassword now encrypted : string)
         (cfg : KeyManager.config) (w : secure_config) (l : loader CryptoKey),
    deriveKey masterPassword = Some key ->
    String.length iv = 12 ->
    aes_gcm_encrypt key iv plainServiceKey = Some encrypted ->
    aes_gcm_decrypt key iv encrypted = Some plainServiceKey ->
    TextDecoder_decode plainServiceKey = plainServiceKey ->
    masterPassword <> "" ->
    plainServiceKey <> "" ->
    fst (KeyManager.generateEncryptedConfig CryptoKey deriveKey aes_gcm_encrypt
           m0 iv plainServiceKey masterPassword now) = Ok cfg ->
    SERVICE_KEY_CONFIG w = cfg ->
    serviceKey CryptoKey l = None ->
    let get_config :=
      getSecureConfig CryptoKey deriveKey aes_gcm_decrypt TextDecoder_decode w in
    (forall answers,
        exists c l',
          get_config l true (Some masterPassword :: answers) = (Ok c, l', answers)
          /\ supabaseServiceKey c = Some plainServiceKey
          /\ serviceKey CryptoKey l' = Some plainServiceKey
          /\ hasServiceKey CryptoKey l' = true
          /\ hasServiceKey CryptoKey (clearServiceKey CryptoKey l') = false
          /\ forall answers',
               exists c', get_config l' true answers' = (Ok c', l', answers')
                          /\ supabaseServiceKey c' = Some plainServiceKey)
    /\ (forall answers,
          get_config l true (None :: answers)
          = (Throw "Master password required", l, answers))
    /\ (forall l0 answers,
          exists c, get_config l0 false answers = (Ok c, l0, answers)
                    /\ supabaseServiceKey c = None).
Proof.
  intros CryptoKey derive enc dec decode m0 key iv plain pw now encrypted cfg w l
         K L E D T PW PL G W S get_config.
  assert (C : cfg = KeyManager.mkConfig true (b64_encode (iv ++ encrypted))
                      "Service key encrypted with master password" now).
  { unfold KeyManager.generateEncryptedConfig, KeyManager.initialize in G.
    rewrite K in G. cbn [snd] in G.
    unfold KeyManager.encryptKey in G. cbn [KeyManager.initialized
      KeyManager.encryptionKey negb] in G. rewrite E in G. cbn [fst] in G.
    congruence. }
  assert (Ld : forall m,
             KeyManager.loadEncryptedServiceKey CryptoKey derive dec decode m cfg pw
             = (Ok plain, KeyManager.mkManager CryptoKey (Some key) true)).
  { intros m. rewrite C.
    unfold KeyManager.loadEncryptedServiceKey, KeyManager.initialize.
    cbn [KeyManager.encrypted KeyManager.serviceKey negb]. rewrite K. cbn [snd].
    destruct (KeyManagerProofs.decrypt_of_encrypt CryptoKey enc dec decode
                (KeyManager.mkManager CryptoKey (Some key) true) key iv plain
                encrypted eq_refl eq_refl L E) as [_ B].
    rewrite B, D, T. reflexivity. }
  assert (N : (pw =? "")%string = false) by (apply String.eqb_neq, PW).
  assert (N' : (plain =? "")%string = false) by (apply String.eqb_neq, PL).
  assert (Enc : KeyManager.encrypted cfg = true) by (rewrite C; reflexivity).
  split; [|split].
  - intros answers. unfold get_config, getSecureConfig, unlockServiceKey.
    rewrite S, W, Enc. cbn [no_key negb prompt]. rewrite N, Ld.
    eexists. eexists. split; [reflexivity|].
    cbn [supabaseServiceKey serviceKey hasServiceKey clearServiceKey].
    repeat (split; [reflexivity|]).
    intros answers'. cbn [no_key serviceKey]. rewrite N'.
    eexists. split; reflexivity.
  - intros answers. unfold get_config, getSecureConfig, unlockServiceKey.
    rewrite S, W, Enc. reflexivity.
  - intros l0 answers. eexists. split; reflexivity.
Qed.

Lemma X24_loader_unlocks_once_witness :
  exists c l',
    getSecureConfig string toy_derive toy_decrypt toy_decode
      (mkSecureConfig "https://example.supabase.co" "anon"
         (KeyManager.mkConfig true (b64_encode (MoreSamples.iv12 ++ "service-key"))
            "Service key encrypted with master password" "t")
         true ("admin@company.com", "admin"))
      (new_loader string) true [Some "pw"] = (Ok c, l', [])
    /\ supabaseServiceKey c = Some "service-key".
Proof.
  destruct (X24_loader_unlocks_once string toy_derive toy_encrypt toy_decrypt toy_decode
              (KeyManager.new_manager string) "pw" MoreSamples.iv12
              "service-key" "pw" "t" "service-key"
              (KeyManager.mkConfig true (b64_encode (MoreSamples.iv12 ++ "service-key"))
                 "Service key encrypted with master password" "t")
              (mkSecureConfig "https://example.supabase.co" "anon"
                 (KeyManager.mkConfig true
                    (b64_encode (MoreSamples.iv12 ++ "service-key"))
                    "Service key encrypted with master password" "t")
                 true ("admin@company.com", "admin"))
              (new_loader string)
              eq_refl eq_refl eq_refl eq_refl eq_refl
              ltac:(discriminate) ltac:(discriminate) eq_refl eq_refl eq_refl)
    as [U _].
  destruct (U []) as (c & l' & G & K & _).
  exists c, l'. split; [exact G|exact K].
Defined.

End LoaderProofs.
